(** * Dino Ventures wallet service: the transfer engine and the history query

    A shallow embedding of [src/services/walletService.js] together with the
    tables of [db/migrations/001_schema.sql] it reads and writes.

    - JavaScript values: an integer-valued [Number] is a [Z] holding the value
      of the IEEE-754 double; a [BigInt] is a [Z]; strings are [string].
    - The database is a record of tables, each a list of rows in insertion
      order.  A connection holds the committed database, the working copy of
      the transaction that is open on it (if any) and the list of statements
      it was sent.
    - [await client.query(...)] is a step in a state-and-exception monad over
      the connection; [throw] and the [try]/[catch] of [executeTransfer] are
      the monad's exceptions. *)

From Stdlib Require Import ZArith List String Ascii Bool Lia DecimalString Sorted
  Permutation.
Import ListNotations.

Local Open Scope Z_scope.

(* ================================================================== *)
(** ** JavaScript numbers *)

Module JS.

(** [Number(x)] for a BigInt [x]: the double nearest to [x], ties going to
    the even 53-bit significand.  Below 2^53 in magnitude every integer is
    a double.  (The conversion yields [Infinity] only from 2^1024 on, which
    no sum of a 64-bit balance and a double reaches.) *)
Definition Number (x : Z) : Z :=
  let a := Z.abs x in
  let e := Z.log2 a - 52 in
  if e <=? 0 then x
  else
    let q := Z.shiftr a e in
    let r := a - Z.shiftl q e in
    let half := Z.shiftl 1 (e - 1) in
    let q' := if r <? half then q
              else if half <? r then q + 1
              else if Z.even q then q else q + 1 in
    Z.sgn x * Z.shiftl q' e.

(** [BigInt(v)]: exact, both for an integer-valued number and for the
    decimal text in which the driver returns a BIGINT column. *)
Definition BigInt (v : Z) : Z := v.

(** [Number.MAX_SAFE_INTEGER + 1]. *)
Definition two53 : Z := 2 ^ 53.

(** Template-literal interpolation [`${n}`] of an integer: its exact decimal,
    which is what a Number up to 2^53 prints. *)
Definition toString (n : Z) : string := NilZero.string_of_int (Z.to_int n).

(** [if (s)] for a value that is a string when present: [undefined],
    [null] and the empty string are falsy; a truthy one is handed on. *)
Definition truthy (s : option string) : option string :=
  match s with
  | Some s => if String.eqb s EmptyString then None else Some s
  | None => None
  end.

End JS.

(* ================================================================== *)
(** ** Tables of 001_schema.sql *)

Inductive UserType := user | system.
Inductive EntryType := DEBIT | CREDIT.

Definition UserType_eqb (a b : UserType) : bool :=
  match a, b with user, user | system, system => true | _, _ => false end.

Definition EntryType_eqb (a b : EntryType) : bool :=
  match a, b with DEBIT, DEBIT | CREDIT, CREDIT => true | _, _ => false end.

Record AssetType := mkAssetType {
  a_id : Z;
  a_code : string;
  a_name : string }.

Record User := mkUser {
  u_id : Z;
  u_username : string;
  u_user_type : UserType }.

Record Wallet := mkWallet {
  w_id : Z;
  w_user_id : Z;
  w_asset_type_id : Z;
  w_balance : Z }.

Record LedgerEntry := mkLedgerEntry {
  le_transaction_id : string;
  le_wallet_id : Z;
  le_entry_type : EntryType;
  le_amount : Z;
  le_balance_after : Z;
  le_description : string;
  le_created_at : Z }.

(** The [responseBody] object of [executeTransfer]; also the content of the
    JSONB column [idempotency_keys.response_body]. *)
Record ResponseBody := mkResponseBody {
  transactionId : string;
  sourceWalletId : Z;
  destWalletId : Z;
  rb_amount : Z;
  newSourceBalance : Z;
  newDestBalance : Z;
  rb_description : string }.

Record IdempotencyKey := mkIdempotencyKey {
  ik_key : string;
  ik_response_code : Z;
  ik_response_body : ResponseBody }.

Record DB := mkDB {
  asset_types : list AssetType;
  users : list User;
  wallets : list Wallet;
  ledger_entries : list LedgerEntry;
  idempotency_keys : list IdempotencyKey }.

Definition with_wallets (ws : list Wallet) (db : DB) : DB :=
  mkDB (asset_types db) (users db) ws (ledger_entries db) (idempotency_keys db).

Definition with_ledger_entries (ls : list LedgerEntry) (db : DB) : DB :=
  mkDB (asset_types db) (users db) (wallets db) ls (idempotency_keys db).

Definition with_idempotency_keys (ks : list IdempotencyKey) (db : DB) : DB :=
  mkDB (asset_types db) (users db) (wallets db) (ledger_entries db) ks.

(** Range of the BIGINT columns. *)
Definition BIGINT_MIN : Z := - 2 ^ 63.
Definition BIGINT_MAX : Z := 2 ^ 63 - 1.
Definition is_bigint (v : Z) : bool := (BIGINT_MIN <=? v) && (v <=? BIGINT_MAX).

(** [idempotency_keys.key VARCHAR(128)]. *)
Definition KEY_MAX_LENGTH : nat := 128.

(** The balance column of the wallet row with primary key [id]. *)
Definition balance_of (db : DB) (id : Z) : option Z :=
  option_map w_balance (find (fun w => w_id w =? id) (wallets db)).

(** [UPDATE wallets SET balance = b WHERE id = id] on the table. *)
Definition set_balance (id b : Z) (ws : list Wallet) : list Wallet :=
  map (fun w => if w_id w =? id
                then mkWallet (w_id w) (w_user_id w) (w_asset_type_id w) b
                else w) ws.

(** Stable insertion sort, ascending on an integer key: [ORDER BY key], and
    [Array.prototype.sort((a, b) => a - b)]. *)
Section OrderBy.
Context {A : Type} (key : A -> Z).

Fixpoint insert_by (x : A) (l : list A) : list A :=
  match l with
  | [] => [x]
  | y :: l' => if key x <=? key y then x :: y :: l' else y :: insert_by x l'
  end.

Fixpoint order_by (l : list A) : list A :=
  match l with
  | [] => []
  | x :: l' => insert_by x (order_by l')
  end.
End OrderBy.

(** [FROM l1 x JOIN l2 y ON on x y]. *)
Definition join {A B : Type} (l1 : list A) (l2 : list B) (on : A -> B -> bool)
  : list (A * B) :=
  flat_map (fun x => map (pair x) (filter (on x) l2)) l1.

(* ================================================================== *)
(** ** Errors and results *)

(** What makes Postgres reject a statement of this service. *)
Inductive Violation :=
| bigint_out_of_range              (* a value outside the BIGINT range *)
| wallets_balance_check            (* CHECK (balance >= 0) *)
| ledger_entries_amount_check      (* CHECK (amount > 0) *)
| value_too_long                   (* VARCHAR(128) of idempotency_keys.key *)
| idempotency_keys_pkey            (* duplicate primary key *)
| negative_limit                   (* LIMIT must not be negative *)
| negative_offset.                 (* OFFSET must not be negative *)

(** The [Error] objects thrown inside the service, by origin. *)
Inductive Error :=
| WalletNotFound (userId : Z) (assetCode : string)
| TreasuryNotFound (assetCode : string)
| WalletsNotFound
| InsufficientBalance (available requested : Z)
| DatabaseError (v : Violation).

(** [err.statusCode]; an error raised by the driver has none. *)
Definition statusCode (e : Error) : option Z :=
  match e with
  | WalletNotFound _ _ => Some 404
  | TreasuryNotFound _ => Some 500
  | WalletsNotFound => Some 404
  | InsufficientBalance _ _ => Some 400
  | DatabaseError _ => None
  end.

Inductive Result (A : Type) :=
| Return (a : A)
| Throw (e : Error).
Arguments Return {A} a.
Arguments Throw {A} e.

(** The object [executeTransfer] resolves to. *)
Record TransferResult := mkTransferResult {
  idempotent : bool;
  tr_statusCode : Z;
  body : ResponseBody }.

(* ================================================================== *)
(** ** The connection *)

(** Statements, as the connection receives them. *)
Inductive Statement :=
| BEGIN
| COMMIT
| ROLLBACK
| SELECT_idempotency_key (key : string)
| SELECT_wallet (userId : Z) (assetCode : string)
| SELECT_treasury_wallet (assetCode : string)
| SELECT_wallets_FOR_UPDATE (ids : list Z) (locked : list Z)
    (* [locked]: the ids of the rows, in the order they are locked *)
| UPDATE_wallets (balance id : Z)
| INSERT_ledger_entry (transaction_id : string) (wallet_id : Z)
    (entry_type : EntryType) (amount balance_after : Z) (description : string)
| INSERT_idempotency_key (key : string) (response_code : Z)
    (response_body : ResponseBody)
| SELECT_ledger_entries (userId : Z) (assetCode : option string)
    (limit offset : Z).

Record Client := mkClient {
  committed : DB;             (* what other connections can see *)
  scope : option DB;          (* working copy of the open transaction *)
  sent : list Statement }.    (* statements received, oldest first *)

(** [pool.connect()]: a connection with no transaction open. *)
Definition connect (db : DB) : Client := mkClient db None [].

(** The database as the connection's next statement sees it. *)
Definition view (c : Client) : DB :=
  match scope c with
  | Some d => d
  | None => committed c
  end.

(** A statement's write: into the open transaction, or committed at once when
    there is none. *)
Definition store (d : DB) (c : Client) : Client :=
  match scope c with
  | Some _ => mkClient (committed c) (Some d) (sent c)
  | None => mkClient d None (sent c)
  end.

Definition M (A : Type) : Type := Client -> Result A * Client.

Definition ret {A} (a : A) : M A := fun c => (Return a, c).
Definition throw {A} (e : Error) : M A := fun c => (Throw e, c).

Definition bind {A B} (m : M A) (k : A -> M B) : M B :=
  fun c =>
    match m c with
    | (Return a, c') => k a c'
    | (Throw e, c') => (Throw e, c')
    end.

(** [try { m } catch (err) { handler err }]. *)
Definition try_catch {A} (m : M A) (handler : Error -> M A) : M A :=
  fun c =>
    match m c with
    | (Return a, c') => (Return a, c')
    | (Throw e, c') => handler e c'
    end.

Declare Scope pg_scope.
Delimit Scope pg_scope with pg.
Notation "x <- m ;; k" := (bind m (fun x => k))
  (at level 61, m at next level, right associativity) : pg_scope.
Notation "m ;; k" := (bind m (fun _ => k))
  (at level 61, right associativity) : pg_scope.
Local Open Scope pg_scope.

(** The connection notes each statement as it arrives. *)
Definition send (s : Statement) : M unit :=
  fun c => (Return tt, mkClient (committed c) (scope c) (sent c ++ [s])).

Definition read {A} (q : DB -> A) : M A := fun c => (Return (q (view c)), c).
Definition write (f : DB -> DB) : M unit := fun c => (Return tt, store (f (view c)) c).

Definition query_BEGIN : M unit :=
  send BEGIN ;;
  fun c => (Return tt, mkClient (committed c) (Some (view c)) (sent c)).

Definition query_COMMIT : M unit :=
  send COMMIT ;;
  fun c => (Return tt, mkClient (view c) None (sent c)).

Definition query_ROLLBACK : M unit :=
  send ROLLBACK ;;
  fun c => (Return tt, mkClient (committed c) None (sent c)).

(* ================================================================== *)
(** ** The statements of walletService.js

    Each query is a function of the database the statement sees; the
    connection notes the statement and evaluates it.

    A number bound to a BIGINT parameter travels as the text that
    [Number.prototype.toString] gives it, which Postgres parses; it is
    rejected when out of range.  Up to 2^53 that text is the exact decimal
    of the number, and so is the text of [JS.toString]; above 2^53 it is the
    shortest decimal that reads back as the same double, in general another
    integer.  The statements below store the number's own value, so they
    follow Postgres for numbers up to 2^53.  BIGINT columns come back as
    decimal text.

    Three more cases are outside the statements as written here, and the
    properties say where they stay clear of them: a user id outside the INT
    range (Postgres rejects the statement, [is_int]); a key of more than 128
    characters whose excess is all spaces (Postgres stores its first 128
    characters, [exceeds_key_column]); and the order among history rows
    created at the same instant, which SQL leaves open. *)

(** [SELECT response_code, response_body FROM idempotency_keys WHERE key = $1] *)
Definition idempotency_rows (key : string) (db : DB) : list IdempotencyKey :=
  filter (fun r => String.eqb (ik_key r) key) (idempotency_keys db).

Definition select_idempotency_key (key : string) : M (list IdempotencyKey) :=
  send (SELECT_idempotency_key key) ;;
  read (idempotency_rows key).

(** [SELECT w.id FROM wallets w JOIN asset_types a ON a.id = w.asset_type_id
     WHERE w.user_id = $1 AND a.code = $2] *)
Definition wallet_ids (userId : Z) (assetCode : string) (db : DB) : list Z :=
  map (fun wa => w_id (fst wa))
    (filter (fun wa => (w_user_id (fst wa) =? userId)
                       && String.eqb (a_code (snd wa)) assetCode)
       (join (wallets db) (asset_types db)
             (fun w a => a_id a =? w_asset_type_id w))).

Definition select_wallet (userId : Z) (assetCode : string) : M (list Z) :=
  send (SELECT_wallet userId assetCode) ;;
  read (wallet_ids userId assetCode).

(** [SELECT w.id FROM wallets w JOIN users u ON u.id = w.user_id
     JOIN asset_types a ON a.id = w.asset_type_id
     WHERE u.user_type = 'system' AND a.code = $1 LIMIT 1] *)
Definition treasury_wallet_ids (assetCode : string) (db : DB) : list Z :=
  firstn 1
    (map (fun wua => w_id (fst (fst wua)))
       (filter (fun wua => UserType_eqb (u_user_type (snd (fst wua))) system
                           && String.eqb (a_code (snd wua)) assetCode)
          (join (join (wallets db) (users db)
                      (fun w u => u_id u =? w_user_id w))
                (asset_types db)
                (fun wu a => a_id a =? w_asset_type_id (fst wu))))).

Definition select_treasury_wallet (assetCode : string) : M (list Z) :=
  send (SELECT_treasury_wallet assetCode) ;;
  read (treasury_wallet_ids assetCode).

(** A row of [SELECT id, balance FROM wallets ...]. *)
Record WalletRow := mkWalletRow {
  row_id : Z;
  row_balance : Z }.

(** [SELECT id, balance FROM wallets WHERE id = ANY($1) ORDER BY id FOR UPDATE]:
    the rows are locked in the order they are returned. *)
Definition wallets_by_id (ids : list Z) (db : DB) : list Wallet :=
  order_by w_id (filter (fun w => existsb (Z.eqb (w_id w)) ids) (wallets db)).

Definition select_wallets_for_update (ids : list Z) : M (list WalletRow) :=
  rows <- read (wallets_by_id ids) ;;
  send (SELECT_wallets_FOR_UPDATE ids (map w_id rows)) ;;
  ret (map (fun w => mkWalletRow (w_id w) (w_balance w)) rows).

(** [UPDATE wallets SET balance = $1, updated_at = NOW() WHERE id = $2] *)
Definition update_wallets (balance id : Z) : M unit :=
  send (UPDATE_wallets balance id) ;;
  if negb (is_bigint balance) then throw (DatabaseError bigint_out_of_range)
  else
    ws <- read wallets ;;
    if existsb (fun w => w_id w =? id) ws && (balance <? 0)
    then throw (DatabaseError wallets_balance_check)
    else write (fun db => with_wallets (set_balance id balance (wallets db)) db).

(** [INSERT INTO ledger_entries (transaction_id, wallet_id, entry_type, amount,
     balance_after, description) VALUES ($1, $2, <entry_type>, $3, $4, $5)];
    [created_at] defaults to [NOW()], the start time of the transaction. *)
Definition insert_ledger_entry (now : Z) (transaction_id : string)
    (wallet_id : Z) (entry_type : EntryType) (amount balance_after : Z)
    (description : string) : M unit :=
  send (INSERT_ledger_entry transaction_id wallet_id entry_type amount
          balance_after description) ;;
  if negb (is_bigint amount && is_bigint balance_after)
  then throw (DatabaseError bigint_out_of_range)
  else if amount <=? 0 then throw (DatabaseError ledger_entries_amount_check)
  else write (fun db =>
         with_ledger_entries
           (ledger_entries db ++
            [mkLedgerEntry transaction_id wallet_id entry_type amount
               balance_after description now]) db).

(** [INSERT INTO idempotency_keys (key, response_code, response_body)
     VALUES ($1, $2, $3)], the body sent as [JSON.stringify(responseBody)];
    the JSONB column gives back an object with the same fields and values.
    A key that does not fit VARCHAR(128) is rejected. *)
Definition insert_idempotency_key (key : string) (response_code : Z)
    (response_body : ResponseBody) : M unit :=
  send (INSERT_idempotency_key key response_code response_body) ;;
  if (KEY_MAX_LENGTH <? String.length key)%nat
  then throw (DatabaseError value_too_long)
  else
    ks <- read idempotency_keys ;;
    if existsb (fun r => String.eqb (ik_key r) key) ks
    then throw (DatabaseError idempotency_keys_pkey)
    else write (fun db =>
           with_idempotency_keys
             (idempotency_keys db ++
              [mkIdempotencyKey key response_code response_body]) db).

(** A row of the history query. *)
Record TransactionRow := mkTransactionRow {
  transaction_id : string;
  entry_type : EntryType;
  tx_amount : Z;
  balance_after : Z;
  description : string;
  created_at : Z;
  asset_code : string }.

(** [SELECT le.transaction_id, le.entry_type, le.amount, le.balance_after,
            le.description, le.created_at, a.code AS asset_code
     FROM ledger_entries le JOIN wallets w ON w.id = le.wallet_id
     JOIN asset_types a ON a.id = w.asset_type_id
     WHERE w.user_id = $1 [AND a.code = $2] ORDER BY le.created_at DESC].
    Rows created at the same instant keep their table order (SQL leaves the
    order among them open). *)
Definition history_rows (userId : Z) (assetCode : option string) (db : DB)
  : list TransactionRow :=
  order_by (fun r => - created_at r)
    (map (fun lwa =>
            let le := fst (fst lwa) in
            mkTransactionRow (le_transaction_id le) (le_entry_type le)
              (le_amount le) (le_balance_after le) (le_description le)
              (le_created_at le) (a_code (snd lwa)))
       (filter (fun lwa =>
                  (w_user_id (snd (fst lwa)) =? userId)
                  && match assetCode with
                     | Some code => String.eqb (a_code (snd lwa)) code
                     | None => true
                     end)
          (join (join (ledger_entries db) (wallets db)
                      (fun le w => w_id w =? le_wallet_id le))
                (asset_types db)
                (fun lw a => a_id a =? w_asset_type_id (snd lw))))).

(** The same query with [LIMIT $n OFFSET $m] appended. *)
Definition select_ledger_entries (userId : Z) (assetCode : option string)
    (limit offset : Z) : M (list TransactionRow) :=
  send (SELECT_ledger_entries userId assetCode limit offset) ;;
  if negb (is_bigint limit && is_bigint offset)
  then throw (DatabaseError bigint_out_of_range)
  else if offset <? 0 then throw (DatabaseError negative_offset)
  else if limit <? 0 then throw (DatabaseError negative_limit)
  else read (fun db =>
         firstn (Z.to_nat limit)
           (skipn (Z.to_nat offset) (history_rows userId assetCode db))).

(* ================================================================== *)
(** ** walletService.js *)

(** The argument object of [executeTransfer]. *)
Record TransferArgs := mkTransferArgs {
  flow : string;
  userId : Z;
  assetCode : string;
  amount : Z;                        (* an integer-valued number *)
  idempotencyKey : option string }.  (* [None]: undefined *)

(** What one run takes from outside the database. *)
Record Runtime := mkRuntime {
  NOW : Z;                (* start time of the transaction *)
  uuidv4 : string }.      (* the value its call to [uuidv4()] returns *)

Definition resolveWalletId (userId : Z) (assetCode : string) : M Z :=
  rows <- select_wallet userId assetCode ;;
  match rows with
  | [] => throw (WalletNotFound userId assetCode)
  | id :: _ => ret id
  end.

Definition resolveTreasuryWalletId (assetCode : string) : M Z :=
  rows <- select_treasury_wallet assetCode ;;
  match rows with
  | [] => throw (TreasuryNotFound assetCode)
  | id :: _ => ret id
  end.

(** "Determine direction": source, destination and description, from the flow. *)
Definition direction (a : TransferArgs) (userWalletId treasuryWalletId : Z)
  : Z * Z * string :=
  if (flow a =? "topup")%string then
    (treasuryWalletId, userWalletId,
     ("Top-up: " ++ JS.toString (amount a) ++ " " ++ assetCode a
        ++ " purchased by user " ++ JS.toString (userId a))%string)
  else if (flow a =? "bonus")%string then
    (treasuryWalletId, userWalletId,
     ("Bonus: " ++ JS.toString (amount a) ++ " " ++ assetCode a
        ++ " granted to user " ++ JS.toString (userId a))%string)
  else
    (userWalletId, treasuryWalletId,
     ("Spend: " ++ JS.toString (amount a) ++ " " ++ assetCode a
        ++ " spent by user " ++ JS.toString (userId a))%string).

(** The body of the [try] block of [executeTransfer]. *)
Definition executeTransfer_try (rt : Runtime) (a : TransferArgs)
  : M TransferResult :=
  query_BEGIN ;;
  (* Step 1: idempotency check *)
  replay <- match JS.truthy (idempotencyKey a) with
            | Some key =>
                existing <- select_idempotency_key key ;;
                match existing with
                | r :: _ =>
                    query_COMMIT ;;
                    ret (Some (mkTransferResult true (ik_response_code r)
                                 (ik_response_body r)))
                | [] => ret None
                end
            | None => ret None
            end ;;
  match replay with
  | Some result => ret result
  | None =>
    userWalletId <- resolveWalletId (userId a) (assetCode a) ;;
    treasuryWalletId <- resolveTreasuryWalletId (assetCode a) ;;
    let '(sourceWalletId, destWalletId, description) :=
      direction a userWalletId treasuryWalletId in
    (* Step 2: lock wallets in consistent order *)
    let walletIds := order_by (fun i : Z => i) [sourceWalletId; destWalletId] in
    lockedWallets <- select_wallets_for_update walletIds ;;
    match find (fun w => row_id w =? sourceWalletId) lockedWallets,
          find (fun w => row_id w =? destWalletId) lockedWallets with
    | Some sourceWallet, Some destWallet =>
      (* Step 3: validate sufficient balance *)
      let sourceBalance := JS.BigInt (row_balance sourceWallet) in
      let transferAmount := JS.BigInt (amount a) in
      if sourceBalance <? transferAmount then
        throw (InsufficientBalance sourceBalance transferAmount)
      else
        (* Step 4: update balances *)
        let newSourceBalance := JS.Number (sourceBalance - transferAmount) in
        let newDestBalance :=
          JS.Number (JS.BigInt (row_balance destWallet) + transferAmount) in
        update_wallets newSourceBalance sourceWalletId ;;
        update_wallets newDestBalance destWalletId ;;
        (* Step 5: insert ledger entries *)
        let transactionId := uuidv4 rt in
        insert_ledger_entry (NOW rt) transactionId sourceWalletId DEBIT
          (amount a) newSourceBalance description ;;
        insert_ledger_entry (NOW rt) transactionId destWalletId CREDIT
          (amount a) newDestBalance description ;;
        (* Step 6: store idempotency key *)
        let responseBody :=
          mkResponseBody transactionId sourceWalletId destWalletId (amount a)
            newSourceBalance newDestBalance description in
        match JS.truthy (idempotencyKey a) with
        | Some key => insert_idempotency_key key 200 responseBody
        | None => ret tt
        end ;;
        query_COMMIT ;;
        ret (mkTransferResult false 200 responseBody)
    | _, _ => throw WalletsNotFound
    end
  end.

(** What a call leaves behind: the value or exception of the promise, the
    committed database, and the statements the connection received. *)
Record Outcome (A : Type) := mkOutcome {
  result : Result A;
  database : DB;
  statements : list Statement }.
Arguments mkOutcome {A}.
Arguments result {A}.
Arguments database {A}.
Arguments statements {A}.

(** [pool.connect()], the action, [client.release()]. *)
Definition run {A} (m : M A) (db : DB) : Outcome A :=
  let '(r, c) := m (connect db) in
  mkOutcome r (committed c) (sent c).

Definition executeTransfer (rt : Runtime) (a : TransferArgs) (db : DB)
  : Outcome TransferResult :=
  run (try_catch (executeTransfer_try rt a)
         (fun err => query_ROLLBACK ;; throw err)) db.

Definition topUp (rt : Runtime) (userId : Z) (assetCode : string) (amount : Z)
    (idempotencyKey : option string) :=
  executeTransfer rt (mkTransferArgs "topup" userId assetCode amount idempotencyKey).

Definition bonus (rt : Runtime) (userId : Z) (assetCode : string) (amount : Z)
    (idempotencyKey : option string) :=
  executeTransfer rt (mkTransferArgs "bonus" userId assetCode amount idempotencyKey).

Definition spend (rt : Runtime) (userId : Z) (assetCode : string) (amount : Z)
    (idempotencyKey : option string) :=
  executeTransfer rt (mkTransferArgs "spend" userId assetCode amount idempotencyKey).

(** The options object of [getTransactions]; [None] is [undefined]. *)
Record HistoryOptions := mkHistoryOptions {
  h_assetCode : option string;
  h_limit : option Z;
  h_offset : option Z }.

Definition default {A} (d : A) (v : option A) : A :=
  match v with Some x => x | None => d end.

(** [getTransactions(userId, { assetCode, limit = 20, offset = 0 } = {})];
    [pool.query] runs the statement outside any transaction. *)
Definition getTransactions (userId : Z) (o : HistoryOptions) (db : DB)
  : Outcome (list TransactionRow) :=
  run (select_ledger_entries userId (JS.truthy (h_assetCode o))
         (default 20 (h_limit o)) (default 0 (h_offset o))) db.

(** The same request sent again and again, one run after the other. *)
Fixpoint retries (rts : list Runtime) (a : TransferArgs) (db : DB)
  : list (Result TransferResult) * DB :=
  match rts with
  | [] => ([], db)
  | rt :: rts' =>
      let o := executeTransfer rt a db in
      let '(rs, db') := retries rts' a (database o) in
      (result o :: rs, db')
  end.

(** The wallets a request moves value between, [(source, destination)], when
    both resolve. *)
Definition endpoints (a : TransferArgs) (db : DB) : option (Z * Z) :=
  match wallet_ids (userId a) (assetCode a) db,
        treasury_wallet_ids (assetCode a) db with
  | userWalletId :: _, treasuryWalletId :: _ =>
      Some (fst (direction a userWalletId treasuryWalletId))
  | _, _ => None
  end.

(** The description a request's entries carry. *)
Definition description_of (a : TransferArgs) : string :=
  snd (direction a 0 0).

(** The row stored under a request's key, when the key is truthy. *)
Definition stored_reply (a : TransferArgs) (db : DB) : option IdempotencyKey :=
  match JS.truthy (idempotencyKey a) with
  | Some key => hd_error (idempotency_rows key db)
  | None => None
  end.

(** The statements a first-time transfer sends, up to the ledger entries. *)
Definition transfer_statements (rt : Runtime) (a : TransferArgs) (db : DB)
    (src dst nsb ndb : Z) : list Statement :=
  [SELECT_wallet (userId a) (assetCode a);
   SELECT_treasury_wallet (assetCode a);
   SELECT_wallets_FOR_UPDATE (order_by (fun i : Z => i) [src; dst])
     (map w_id (wallets_by_id (order_by (fun i : Z => i) [src; dst]) db));
   UPDATE_wallets nsb src;
   UPDATE_wallets ndb dst;
   INSERT_ledger_entry (uuidv4 rt) src DEBIT (amount a) nsb (description_of a);
   INSERT_ledger_entry (uuidv4 rt) dst CREDIT (amount a) ndb (description_of a)].

(** Statements that write a balance or a ledger entry. *)
Definition touches_ledger_or_balance (s : Statement) : bool :=
  match s with
  | UPDATE_wallets _ _ | INSERT_ledger_entry _ _ _ _ _ _ => true
  | _ => false
  end.

(** Statements that read or write [idempotency_keys]. *)
Definition touches_idempotency_keys (s : Statement) : bool :=
  match s with
  | SELECT_idempotency_key _ | INSERT_idempotency_key _ _ _ => true
  | _ => false
  end.

(** The sum of the balance column. *)
Definition total_balance (db : DB) : Z :=
  fold_right Z.add 0 (map w_balance (wallets db)).

(* ================================================================== *)
(** ** The seeded database (db/seed.sql) *)

Definition seed : DB :=
  mkDB
    [mkAssetType 1 "GOLD_COINS" "Gold Coins";
     mkAssetType 2 "DIAMONDS" "Diamonds";
     mkAssetType 3 "LOYALTY_POINTS" "Loyalty Points"]
    [mkUser 1 "treasury" system;
     mkUser 2 "shivansh" user;
     mkUser 3 "lokendra" user]
    [mkWallet 1 1 1 1000000000; mkWallet 2 1 2 1000000000;
     mkWallet 3 1 3 1000000000;
     mkWallet 4 2 1 1000; mkWallet 5 2 2 500; mkWallet 6 2 3 200;
     mkWallet 7 3 1 750; mkWallet 8 3 2 300; mkWallet 9 3 3 150]
    [] [].

(** The seeded database with the balance of one wallet replaced. *)
Definition seed_with_balance (id b : Z) : DB :=
  with_wallets (set_balance id b (wallets seed)) seed.

Definition a_runtime : Runtime :=
  mkRuntime 1700000000 "3f8a0c1e-7d2b-4c59-9a61-5e0f4b7cb2c1".

Definition another_runtime : Runtime :=
  mkRuntime 1700000060 "b81d5a44-0e6f-4f0a-8c3d-2a9e61f7d905".


(* ================================================================== *)
(** ** Constraints of 001_schema.sql on a database *)

(** Range of the INT columns ([users.id], [wallets.user_id], ...): a user id
    outside it is rejected by Postgres before any row is looked at. *)
Definition INT_MIN : Z := - 2 ^ 31.
Definition INT_MAX : Z := 2 ^ 31 - 1.
Definition is_int (v : Z) : bool := (INT_MIN <=? v) && (v <=? INT_MAX).

(** [wallets]: primary key [id]; [balance BIGINT CHECK (balance >= 0)]. *)
Definition wallets_ok (db : DB) : Prop :=
  NoDup (map w_id (wallets db)) /\
  Forall (fun w => 0 <= w_balance w /\ is_bigint (w_balance w) = true)
         (wallets db).

(** [ledger_entries]: [amount BIGINT CHECK (amount > 0)], [balance_after BIGINT]. *)
Definition ledger_entries_ok (db : DB) : Prop :=
  Forall (fun e => 0 < le_amount e /\ is_bigint (le_amount e) = true
                   /\ is_bigint (le_balance_after e) = true)
         (ledger_entries db).

(** [idempotency_keys]: primary key [key VARCHAR(128)]. *)
Definition idempotency_keys_ok (db : DB) : Prop :=
  NoDup (map ik_key (idempotency_keys db)) /\
  Forall (fun r => (String.length (ik_key r) <= KEY_MAX_LENGTH)%nat)
         (idempotency_keys db).

Definition constraints_hold (db : DB) : Prop :=
  wallets_ok db /\ ledger_entries_ok db /\ idempotency_keys_ok db.

(** [SUM(amount)] over the entries of one type. *)
Definition entries_total (ty : EntryType) (l : list LedgerEntry) : Z :=
  fold_right Z.add 0
    (map le_amount (filter (fun e => EntryType_eqb (le_entry_type e) ty) l)).

(** [SUM(CREDIT) - SUM(DEBIT)] over the entries of one wallet. *)
Definition ledger_net (id : Z) (l : list LedgerEntry) : Z :=
  entries_total CREDIT (filter (fun e => le_wallet_id e =? id) l)
  - entries_total DEBIT (filter (fun e => le_wallet_id e =? id) l).

(* ================================================================== *)
(** ** walletService.js: getBalance *)

(** A row of the balance query. *)
Record BalanceRow := mkBalanceRow {
  br_balance : Z;
  br_asset_code : string;
  br_asset_name : string }.

(** [SELECT w.balance, a.code AS asset_code, a.name AS asset_name
     FROM wallets w JOIN asset_types a ON a.id = w.asset_type_id
     WHERE w.user_id = $1 AND a.code = $2] *)
Definition balance_rows (userId : Z) (assetCode : string) (db : DB)
  : list BalanceRow :=
  map (fun wa => mkBalanceRow (w_balance (fst wa)) (a_code (snd wa))
                   (a_name (snd wa)))
    (filter (fun wa => (w_user_id (fst wa) =? userId)
                       && String.eqb (a_code (snd wa)) assetCode)
       (join (wallets db) (asset_types db)
             (fun w a => a_id a =? w_asset_type_id w))).

(** [getBalance(userId, assetCode)]: one SELECT through [pool.query], outside
    any transaction; it reads the committed database. *)
Definition getBalance (userId : Z) (assetCode : string) (db : DB)
  : Result BalanceRow :=
  match balance_rows userId assetCode db with
  | [] => Throw (WalletNotFound userId assetCode)
  | row :: _ => Return row
  end.

(* ================================================================== *)
(** ** routes/walletRoutes.js and middleware/errorHandler.js *)

(** A value of a field of [req.body], as far as the routes look at it. *)
Inductive JsValue :=
| JsUndefined                   (* the field is missing *)
| JsNull
| JsBoolean (b : bool)
| JsInteger (z : Z)             (* a number whose value is an integer *)
| JsFraction                    (* a finite number that is not an integer *)
| JsNaN
| JsInfinity (negative : bool)
| JsString (s : string)
| JsObject.                     (* an object or an array *)

(** [!v] *)
Definition falsy (v : JsValue) : bool :=
  match v with
  | JsUndefined | JsNull | JsNaN => true
  | JsBoolean b => negb b
  | JsInteger z => z =? 0
  | JsString s => String.eqb s EmptyString
  | JsFraction | JsInfinity _ | JsObject => false
  end.

(** [Number.isInteger(v)] *)
Definition isInteger (v : JsValue) : bool :=
  match v with
  | JsInteger _ => true
  | _ => false
  end.

Record RequestBody := mkRequestBody {
  req_userId : JsValue;
  req_assetCode : JsValue;
  req_amount : JsValue;
  req_idempotencyKey : JsValue }.

(** What the routes answer. *)
Inductive Response :=
| Rejected (status : Z) (error : string)
    (* [res.status(status).json({ error })], by the validator *)
| Succeeded (status : Z) (idempotent : bool) (data : ResponseBody)
    (* [res.status(status).json({ success: true, idempotent, data })] *)
| Failed (status : Z) (err : Error).
    (* by [errorHandler]: [{ success: false, error: err.message }] *)

(** [validateTransactionBody]: [None] is [next()]. *)
Definition validateTransactionBody (b : RequestBody) : option Response :=
  if falsy (req_userId b) || falsy (req_assetCode b) || falsy (req_amount b)
  then Some (Rejected 400 "Missing required fields: userId, assetCode, amount")
  else if negb (isInteger (req_amount b))
          || match req_amount b with JsInteger z => z <=? 0 | _ => false end
  then Some (Rejected 400 "amount must be a positive integer")
  else if falsy (req_idempotencyKey b)
  then Some (Rejected 400
               "Missing required field: idempotencyKey (required for safe retries)")
  else None.

(** [errorHandler]: [err.statusCode || 500]. *)
Definition errorHandler (err : Error) : Response :=
  Failed (default 500 (statusCode err)) err.

(** The arguments the service is called with, for a body whose user id is
    an integer in the INT range, whose amount is an integer and whose asset
    code and key are strings.  (How the driver and Postgres treat values of
    other types, or a user id out of range, is not modelled.) *)
Definition service_arguments (b : RequestBody)
  : option (Z * string * Z * option string) :=
  match req_userId b, req_assetCode b, req_amount b, req_idempotencyKey b with
  | JsInteger u, JsString c, JsInteger m, JsString k =>
      if is_int u then Some (u, c, m, Some k) else None
  | _, _, _, _ => None
  end.

(** [router.post(path, validateTransactionBody, handler)] for the service
    function [service] ([topUp], [bonus] or [spend]): the response and the
    committed database.  [None]: the body passed the validator with a field
    of a type outside [service_arguments]. *)
Definition post
    (service : Runtime -> Z -> string -> Z -> option string -> DB
               -> Outcome TransferResult)
    (rt : Runtime) (b : RequestBody) (db : DB) : option (Response * DB) :=
  match validateTransactionBody b with
  | Some rejection => Some (rejection, db)
  | None =>
      match service_arguments b with
      | Some (userId, assetCode, amount, idempotencyKey) =>
          let o := service rt userId assetCode amount idempotencyKey db in
          match result o with
          | Return res =>
              let status := if idempotent res then 200 else 201 in
              Some (Succeeded status (idempotent res) (body res), database o)
          | Throw err => Some (errorHandler err, database o)
          end
      | None => None
      end
  end.

Definition post_topup := post topUp.
Definition post_bonus := post bonus.
Definition post_spend := post spend.

(* ================================================================== *)
(** ** Counting results *)

(** How many of the results are returned values. *)
Definition succeeded (rs : list (Result TransferResult)) : Z :=
  Z.of_nat (List.length
              (filter (fun r => match r with Return _ => true | Throw _ => false end) rs)).

(** Whether Postgres rejects a value for the VARCHAR(128) column
    [idempotency_keys.key]: it does when a character beyond the 128th is not
    a space (a value whose excess is all spaces is cut to 128 characters and
    stored). *)
Definition exceeds_key_column (key : string) : bool :=
  existsb (fun c => negb (Ascii.eqb c " "%char))
          (skipn KEY_MAX_LENGTH (list_ascii_of_string key)).

(* ================================================================== *)
(** * Properties *)

(** ** Numbers *)

Lemma Number_exact (x : Z) : Z.abs x <= JS.two53 -> JS.Number x = x.
Proof.
  unfold JS.two53. intros Hx.
  destruct (Z.eq_dec (Z.abs x) (2 ^ 53)) as [E|NE].
  - destruct (Z.abs_eq_or_opp x) as [H|H]; rewrite H in E.
    + subst x. reflexivity.
    + assert (x = - 2 ^ 53) by lia. subst x. reflexivity.
  - unfold JS.Number.
    destruct (Z.eq_dec x 0) as [->|Hnz]; [reflexivity|].
    assert (Hlog : Z.log2 (Z.abs x) < 53) by (apply Z.log2_lt_pow2; lia).
    destruct (Z.log2 (Z.abs x) - 52 <=? 0) eqn:E; [reflexivity|].
    apply Z.leb_gt in E. lia.
Qed.

Lemma Number_nonneg (x : Z) : 0 <= x -> 0 <= JS.Number x.
Proof.
  intros Hx. unfold JS.Number.
  destruct (Z.log2 (Z.abs x) - 52 <=? 0) eqn:E; [exact Hx|].
  apply Z.leb_gt in E.
  set (e := Z.log2 (Z.abs x) - 52) in *.
  assert (Hq : 0 <= Z.shiftr (Z.abs x) e) by (apply Z.shiftr_nonneg; lia).
  apply Z.mul_nonneg_nonneg.
  - destruct (Z.eq_dec x 0) as [->|]; [discriminate|]. rewrite Z.sgn_pos; lia.
  - apply Z.shiftl_nonneg.
    repeat match goal with |- context [if ?b then _ else _] => destruct b end; lia.
Qed.

(** ** Lists: [find] through the queries *)

Section Find.
Context {A : Type} (key : A -> Z).

Lemma find_insert_by (k : Z) (x : A) (l : list A) :
  find (fun y => key y =? k) (insert_by key x l)
  = if key x =? k then Some x else find (fun y => key y =? k) l.
Proof.
  induction l as [|y l IH]; simpl.
  - reflexivity.
  - destruct (key x <=? key y) eqn:Hle; simpl.
    + reflexivity.
    + rewrite IH.
      destruct (key y =? k) eqn:Hy, (key x =? k) eqn:Hx; try reflexivity.
      apply Z.eqb_eq in Hy, Hx. apply Z.leb_gt in Hle. lia.
Qed.

Lemma find_order_by (k : Z) (l : list A) :
  find (fun y => key y =? k) (order_by key l) = find (fun y => key y =? k) l.
Proof.
  induction l as [|x l IH]; simpl.
  - reflexivity.
  - rewrite find_insert_by, IH. reflexivity.
Qed.

Lemma find_filter (k : Z) (q : A -> bool) (l : list A) :
  (forall y, key y = k -> q y = true) ->
  find (fun y => key y =? k) (filter q l) = find (fun y => key y =? k) l.
Proof.
  intros Hq. induction l as [|x l IH]; simpl.
  - reflexivity.
  - destruct (key x =? k) eqn:Hx.
    + rewrite (Hq x) by (apply Z.eqb_eq; exact Hx). simpl. rewrite Hx. reflexivity.
    + destruct (q x); simpl; [rewrite Hx|]; exact IH.
Qed.
End Find.

Lemma find_map_row (k : Z) (l : list Wallet) :
  find (fun r => row_id r =? k)
       (map (fun w => mkWalletRow (w_id w) (w_balance w)) l)
  = option_map (fun w => mkWalletRow (w_id w) (w_balance w))
      (find (fun w => w_id w =? k) l).
Proof.
  induction l as [|w l IH]; simpl.
  - reflexivity.
  - destruct (w_id w =? k); [reflexivity | exact IH].
Qed.

Lemma In_insert_by {A} (key : A -> Z) (x y : A) (l : list A) :
  In y (insert_by key x l) <-> y = x \/ In y l.
Proof.
  induction l as [|z l IH]; simpl.
  - intuition congruence.
  - destruct (key x <=? key z); simpl; [intuition congruence|].
    rewrite IH. intuition congruence.
Qed.

Lemma In_order_by {A} (key : A -> Z) (y : A) (l : list A) :
  In y (order_by key l) <-> In y l.
Proof.
  induction l as [|x l IH]; simpl.
  - reflexivity.
  - rewrite In_insert_by, IH. intuition congruence.
Qed.

(** The row that [lockedWallets.find] picks is the wallet's own row. *)
Lemma find_locked (src dst k : Z) (db : DB) :
  k = src \/ k = dst ->
  find (fun r => row_id r =? k)
       (map (fun w => mkWalletRow (w_id w) (w_balance w))
            (wallets_by_id (order_by (fun i : Z => i) [src; dst]) db))
  = option_map (fun w => mkWalletRow (w_id w) (w_balance w))
      (find (fun w => w_id w =? k) (wallets db)).
Proof.
  intros Hk. rewrite find_map_row. f_equal.
  unfold wallets_by_id. rewrite find_order_by.
  apply find_filter. intros w Hw.
  apply existsb_exists. exists k. split.
  - apply In_order_by. simpl. intuition congruence.
  - apply Z.eqb_eq. exact Hw.
Qed.

(** ** Running the connection monad *)

Ltac run_pg :=
  cbv beta iota zeta delta
    [bind ret throw try_catch send read write store view
     query_BEGIN query_COMMIT query_ROLLBACK
     select_idempotency_key select_wallet select_treasury_wallet
     select_wallets_for_update resolveWalletId resolveTreasuryWalletId
     update_wallets insert_ledger_entry insert_idempotency_key
     select_ledger_entries
     run connect executeTransfer executeTransfer_try getTransactions
     committed scope sent result database statements
     negb andb JS.BigInt].

Ltac run_pg_in H :=
  cbv beta iota zeta delta
    [bind ret throw try_catch send read write store view
     query_BEGIN query_COMMIT query_ROLLBACK
     select_idempotency_key select_wallet select_treasury_wallet
     select_wallets_for_update resolveWalletId resolveTreasuryWalletId
     update_wallets insert_ledger_entry insert_idempotency_key
     select_ledger_entries
     run connect executeTransfer executeTransfer_try getTransactions
     committed scope sent result database statements
     negb andb JS.BigInt] in H.

(** Split on the innermost test the run is waiting for. *)
Ltac next_case :=
  match goal with
  | |- context [match ?x with _ => _ end] =>
      lazymatch x with
      | context [match _ with _ => _ end] => fail
      | _ => destruct x eqn:?
      end
  end.

Lemma direction_cases (a : TransferArgs) (u t src dst : Z) (desc : string) :
  direction a u t = (src, dst, desc) ->
  desc = description_of a /\ ((src = t /\ dst = u) \/ (src = u /\ dst = t)).
Proof.
  unfold description_of, direction.
  destruct (flow a =? "topup")%string; [|destruct (flow a =? "bonus")%string];
    intros H; inversion H; subst; simpl; auto.
Qed.

Lemma locked_balance (src dst k : Z) (db : DB) (row : WalletRow) :
  k = src \/ k = dst ->
  find (fun r => row_id r =? k)
       (map (fun w => mkWalletRow (w_id w) (w_balance w))
            (wallets_by_id (order_by (fun i : Z => i) [src; dst]) db))
  = Some row ->
  balance_of db k = Some (row_balance row).
Proof.
  intros Hk H. rewrite (find_locked src dst k db Hk) in H.
  unfold balance_of. destruct (find _ (wallets db)) as [w|]; simpl in *.
  - inversion H. reflexivity.
  - discriminate.
Qed.


Ltac simpl_db :=
  cbn [wallets ledger_entries idempotency_keys asset_types users
       with_wallets with_ledger_entries with_idempotency_keys] in *.

(** Every run of [executeTransfer], case by case. *)
Ltac run_transfer := run_pg; repeat (next_case; run_pg); simpl_db.

Lemma executeTransfer_committed rt a db r :
  result (executeTransfer rt a db) = Return r -> idempotent r = false ->
  exists src dst sb dbal,
    let nsb := JS.Number (sb - amount a) in
    let ndb := JS.Number (dbal + amount a) in
    let rb := mkResponseBody (uuidv4 rt) src dst (amount a) nsb ndb
                (description_of a) in
    let o := executeTransfer rt a db in
    stored_reply a db = None /\
    endpoints a db = Some (src, dst) /\
    balance_of db src = Some sb /\
    balance_of db dst = Some dbal /\
    amount a <= sb /\ 0 < amount a /\
    r = mkTransferResult false 200 rb /\
    asset_types (database o) = asset_types db /\
    users (database o) = users db /\
    wallets (database o) = set_balance dst ndb (set_balance src nsb (wallets db)) /\
    ledger_entries (database o)
    = ledger_entries db ++
      [mkLedgerEntry (uuidv4 rt) src DEBIT (amount a) nsb (description_of a) (NOW rt);
       mkLedgerEntry (uuidv4 rt) dst CREDIT (amount a) ndb (description_of a) (NOW rt)] /\
    idempotency_keys (database o)
    = idempotency_keys db ++
      match JS.truthy (idempotencyKey a) with
      | Some key => [mkIdempotencyKey key 200 rb]
      | None => []
      end /\
    statements o
    = [BEGIN] ++
      match JS.truthy (idempotencyKey a) with
      | Some key => [SELECT_idempotency_key key]
      | None => []
      end ++
      transfer_statements rt a db src dst nsb ndb ++
      match JS.truthy (idempotencyKey a) with
      | Some key => [INSERT_idempotency_key key 200 rb]
      | None => []
      end ++ [COMMIT].
Proof.
  unfold stored_reply, endpoints, transfer_statements.
  run_transfer; intros H; inversion H; subst; clear H; simpl;
    try (intros; discriminate); intros _.
  all: match goal with
       | Hd : direction _ _ _ = (?src, ?dst, _),
         Hs : find _ _ = Some ?sw, Ht : find _ _ = Some ?dw |- _ =>
           apply direction_cases in Hd as Hdc; destruct Hdc as [-> _];
           exists src, dst, (row_balance sw), (row_balance dw); simpl
       end.
  all: repeat match goal with
       | H : find _ (map _ (wallets_by_id (order_by _ [?src; ?dst]) _)) = Some _ |- _ =>
           apply locked_balance in H; [|auto]
       end.
  all: repeat match goal with H : (_ <? _) = false |- _ => apply Z.ltb_ge in H end.
  all: repeat match goal with H : (_ <=? _) = false |- _ => apply Z.leb_gt in H end.
  all: repeat split; try assumption; try reflexivity; try lia.
  all: try (rewrite app_nil_r; reflexivity).
  all: try (rewrite <- app_assoc; reflexivity).
Qed.

Lemma idempotency_rows_nil (key : string) (db : DB) :
  idempotency_rows key db = [] ->
  existsb (fun r => String.eqb (ik_key r) key) (idempotency_keys db) = false.
Proof.
  unfold idempotency_rows. induction (idempotency_keys db) as [|r l IH]; simpl.
  - reflexivity.
  - destruct (ik_key r =? key)%string; [discriminate | exact IH].
Qed.

Lemma locked_missing (src dst k : Z) (db : DB) :
  k = src \/ k = dst ->
  find (fun r => row_id r =? k)
       (map (fun w => mkWalletRow (w_id w) (w_balance w))
            (wallets_by_id (order_by (fun i : Z => i) [src; dst]) db))
  = None ->
  balance_of db k = None.
Proof.
  intros Hk H. rewrite (find_locked src dst k db Hk) in H.
  unfold balance_of. destruct (find _ (wallets db)); [discriminate | reflexivity].
Qed.

(** A replayed key: the stored row is handed back and nothing else happens. *)
Lemma executeTransfer_replay rt a db key r rest :
  JS.truthy (idempotencyKey a) = Some key ->
  idempotency_rows key db = r :: rest ->
  executeTransfer rt a db
  = mkOutcome
      (Return (mkTransferResult true (ik_response_code r) (ik_response_body r)))
      db [BEGIN; SELECT_idempotency_key key; COMMIT].
Proof.
  intros Hkey Hrows. run_pg. rewrite Hkey. run_pg. rewrite Hrows. run_pg.
  reflexivity.
Qed.

(** A run that throws leaves the committed database as it found it, ends
    with ROLLBACK, never sent COMMIT, and throws what its [try] block threw. *)
Lemma executeTransfer_thrown rt a db e :
  result (executeTransfer rt a db) = Throw e ->
  database (executeTransfer rt a db) = db /\
  fst (executeTransfer_try rt a (connect db)) = Throw e /\
  exists pre, statements (executeTransfer rt a db) = pre ++ [ROLLBACK]
              /\ ~ In COMMIT pre.
Proof.
  run_transfer; intros H; inversion H; subst; clear H.
  all: split; [reflexivity|]; split; [reflexivity|].
  all: eexists; split; [reflexivity|]; simpl; intuition discriminate.
Qed.

(** Use what is known about a test instead of splitting on it. *)
Ltac next_known :=
  match goal with
  | H : ?x = _ |- context [match ?x with _ => _ end] => rewrite H
  end.

Ltac run_known :=
  run_pg; repeat (first [next_known | next_case]; run_pg; cbn [row_balance row_id]).

Lemma locked_found (src dst k b : Z) (db : DB) :
  k = src \/ k = dst ->
  balance_of db k = Some b ->
  exists id,
    find (fun r => row_id r =? k)
         (map (fun w => mkWalletRow (w_id w) (w_balance w))
              (wallets_by_id (order_by (fun i : Z => i) [src; dst]) db))
    = Some (mkWalletRow id b).
Proof.
  intros Hk Hb. rewrite (find_locked src dst k db Hk).
  unfold balance_of in Hb.
  destruct (find _ (wallets db)) as [w|]; simpl in *; [|discriminate].
  inversion Hb. exists (w_id w). reflexivity.
Qed.

Lemma executeTransfer_commits rt a db src dst sb dbal :
  let nsb := JS.Number (sb - amount a) in
  let ndb := JS.Number (dbal + amount a) in
  stored_reply a db = None ->
  endpoints a db = Some (src, dst) ->
  balance_of db src = Some sb ->
  balance_of db dst = Some dbal ->
  amount a <= sb -> 0 < amount a -> is_bigint (amount a) = true ->
  is_bigint nsb = true -> is_bigint ndb = true -> 0 <= nsb -> 0 <= ndb ->
  (forall key, JS.truthy (idempotencyKey a) = Some key ->
               (String.length key <= KEY_MAX_LENGTH)%nat) ->
  result (executeTransfer rt a db)
  = Return (mkTransferResult false 200
              (mkResponseBody (uuidv4 rt) src dst (amount a) nsb ndb
                 (description_of a))).
Proof.
  intros nsb ndb Hst He Hs Hd Hle Hpos Ha Hnsb Hndb Hnsb0 Hndb0 Hkey.
  subst nsb ndb. unfold stored_reply, endpoints in *.
  destruct (wallet_ids (userId a) (assetCode a) db) as [|u us] eqn:Hu;
    [discriminate|].
  destruct (treasury_wallet_ids (assetCode a) db) as [|t ts] eqn:Ht;
    [discriminate|].
  destruct (direction a u t) as [[s d] desc] eqn:Hdir.
  simpl in He. inversion He; subst s d; clear He.
  apply direction_cases in Hdir as Hdc. destruct Hdc as [-> _].
  destruct (locked_found src dst src sb db (or_introl eq_refl) Hs) as [i1 Hf1].
  destruct (locked_found src dst dst dbal db (or_intror eq_refl) Hd) as [i2 Hf2].
  apply Z.ltb_ge in Hle. apply Z.leb_gt in Hpos.
  apply Z.ltb_ge in Hnsb0, Hndb0.
  destruct (JS.truthy (idempotencyKey a)) as [key|] eqn:Hk.
  - destruct (idempotency_rows key db) as [|r rest] eqn:Hrows; [|discriminate].
    pose proof (idempotency_rows_nil key db Hrows) as Hfresh.
    assert (Hlen : (KEY_MAX_LENGTH <? String.length key)%nat = false)
      by (apply Nat.ltb_ge; apply Hkey; reflexivity).
    run_known; simpl_db; try reflexivity; congruence.
  - run_known; simpl_db; try reflexivity; congruence.
Qed.

(** ** Balances after UPDATE *)

Lemma find_set_balance (k k' b : Z) (ws : list Wallet) :
  find (fun w => w_id w =? k) (set_balance k' b ws)
  = option_map
      (fun w => if w_id w =? k'
                then mkWallet (w_id w) (w_user_id w) (w_asset_type_id w) b
                else w)
      (find (fun w => w_id w =? k) ws).
Proof.
  induction ws as [|w ws IH]; simpl.
  - reflexivity.
  - destruct (w_id w =? k') eqn:E'; simpl; destruct (w_id w =? k); simpl;
      rewrite ?E'; auto.
Qed.

(** After the two updates of a transfer the destination holds what was
    written last; the source holds its own value when it is another row;
    every other row is as before. *)
Lemma balance_after_updates (db db' : DB) (src dst nsb ndb : Z) :
  wallets db' = set_balance dst ndb (set_balance src nsb (wallets db)) ->
  (forall b, balance_of db dst = Some b -> balance_of db' dst = Some ndb) /\
  (forall b, src <> dst -> balance_of db src = Some b ->
             balance_of db' src = Some nsb) /\
  (forall k, k <> src -> k <> dst -> balance_of db' k = balance_of db k).
Proof.
  intros Hw. unfold balance_of. rewrite Hw. repeat split.
  - intros b Hb. rewrite !find_set_balance.
    destruct (find _ (wallets db)) as [w|] eqn:Hf; [|discriminate].
    apply find_some in Hf. destruct Hf as [_ Hid]. simpl.
    destruct (w_id w =? src); simpl; rewrite Hid; reflexivity.
  - intros b Hne Hb. rewrite !find_set_balance.
    destruct (find _ (wallets db)) as [w|] eqn:Hf; [|discriminate].
    apply find_some in Hf. destruct Hf as [_ Hid]. simpl. rewrite Hid. simpl.
    apply Z.eqb_eq in Hid. subst src.
    destruct (w_id w =? dst) eqn:E; [apply Z.eqb_eq in E; lia | reflexivity].
  - intros k Hs Hd. rewrite !find_set_balance.
    destruct (find _ (wallets db)) as [w|] eqn:Hf; [|reflexivity].
    apply find_some in Hf. destruct Hf as [_ Hid]. apply Z.eqb_eq in Hid. simpl.
    destruct (w_id w =? src) eqn:E1; [apply Z.eqb_eq in E1; lia|].
    destruct (w_id w =? dst) eqn:E2; [apply Z.eqb_eq in E2; lia|]. reflexivity.
Qed.

(** ** Resolution does not look at balances *)

Lemma join_map_l {A B} (f : A -> A) (on : A -> B -> bool) (l1 : list A) (l2 : list B) :
  (forall x y, on (f x) y = on x y) ->
  join (map f l1) l2 on = map (fun xy => (f (fst xy), snd xy)) (join l1 l2 on).
Proof.
  intros Hon. unfold join. induction l1 as [|x l1 IH]; simpl.
  - reflexivity.
  - rewrite map_app, IH. f_equal.
    rewrite map_map. simpl.
    rewrite (filter_ext (on (f x)) (on x)) by (intros y; apply Hon).
    reflexivity.
Qed.

Lemma filter_map_comm {A B} (g : A -> B) (p : B -> bool) (l : list A) :
  filter p (map g l) = map g (filter (fun x => p (g x)) l).
Proof.
  induction l as [|x l IH]; simpl.
  - reflexivity.
  - destruct (p (g x)); simpl; rewrite IH; reflexivity.
Qed.

Lemma set_balance_as_map (k b : Z) (ws : list Wallet) :
  set_balance k b ws
  = map (fun w => if w_id w =? k
                  then mkWallet (w_id w) (w_user_id w) (w_asset_type_id w) b
                  else w) ws.
Proof. reflexivity. Qed.

Lemma wallet_ids_set_balance (u : Z) (c : string) (db db' : DB) (k b : Z) :
  asset_types db' = asset_types db ->
  wallets db' = set_balance k b (wallets db) ->
  wallet_ids u c db' = wallet_ids u c db.
Proof.
  intros Ha Hw. unfold wallet_ids. rewrite Ha, Hw, set_balance_as_map.
  rewrite join_map_l by (intros w a; destruct (w_id w =? k); reflexivity).
  rewrite filter_map_comm, map_map. simpl.
  rewrite (filter_ext _ (fun wa => (w_user_id (fst wa) =? u)
                                  && String.eqb (a_code (snd wa)) c))
    by (intros [w a]; simpl; destruct (w_id w =? k); reflexivity).
  apply map_ext. intros [w a]. simpl. destruct (w_id w =? k); reflexivity.
Qed.

Lemma treasury_wallet_ids_set_balance (c : string) (db db' : DB) (k b : Z) :
  asset_types db' = asset_types db ->
  users db' = users db ->
  wallets db' = set_balance k b (wallets db) ->
  treasury_wallet_ids c db' = treasury_wallet_ids c db.
Proof.
  intros Ha Hu Hw. unfold treasury_wallet_ids.
  rewrite Ha, Hu, Hw, set_balance_as_map. f_equal.
  rewrite join_map_l by (intros w a; destruct (w_id w =? k); reflexivity).
  rewrite (join_map_l (fun xy => _)) by
    (intros [w us] a; simpl; destruct (w_id w =? k); reflexivity).
  rewrite filter_map_comm, map_map. simpl.
  apply map_ext. intros [[w us] a]. simpl. destruct (w_id w =? k); reflexivity.
Qed.

(** The endpoints of a request are the same before and after a transfer. *)
Lemma endpoints_after_updates (a : TransferArgs) (db db' : DB)
    (src dst nsb ndb : Z) :
  asset_types db' = asset_types db ->
  users db' = users db ->
  wallets db' = set_balance dst ndb (set_balance src nsb (wallets db)) ->
  endpoints a db' = endpoints a db.
Proof.
  intros Ha Hu Hw. unfold endpoints.
  set (mid := with_wallets (set_balance src nsb (wallets db)) db).
  rewrite (wallet_ids_set_balance _ _ mid db' dst ndb),
          (wallet_ids_set_balance _ _ db mid src nsb),
          (treasury_wallet_ids_set_balance _ mid db' dst ndb),
          (treasury_wallet_ids_set_balance _ db mid src nsb);
    auto.
Qed.

(** ** What resolves is a row of the table *)

Lemma In_join {A B} (l1 : list A) (l2 : list B) (on : A -> B -> bool) x y :
  In (x, y) (join l1 l2 on) <-> In x l1 /\ In y l2 /\ on x y = true.
Proof.
  unfold join. rewrite in_flat_map. split.
  - intros [x' [Hx Hxy]]. apply in_map_iff in Hxy.
    destruct Hxy as [y' [E Hy]]. inversion E; subst.
    apply filter_In in Hy. tauto.
  - intros [Hx [Hy Hon]]. exists x. split; [exact Hx|].
    apply in_map. apply filter_In. tauto.
Qed.

Lemma In_firstn {A} (n : nat) (l : list A) (x : A) :
  In x (firstn n l) -> In x l.
Proof.
  intros H. rewrite <- (firstn_skipn n l). apply in_or_app. left. exact H.
Qed.

Lemma In_skipn {A} (n : nat) (l : list A) (x : A) :
  In x (skipn n l) -> In x l.
Proof.
  intros H. rewrite <- (firstn_skipn n l). apply in_or_app. right. exact H.
Qed.

Lemma balance_of_In (db : DB) (w : Wallet) :
  In w (wallets db) -> exists b, balance_of db (w_id w) = Some b.
Proof.
  intros Hin. unfold balance_of.
  destruct (find (fun w' => w_id w' =? w_id w) (wallets db)) as [w'|] eqn:Hf.
  - exists (w_balance w'). reflexivity.
  - exfalso. apply (find_none _ _ Hf) in Hin. rewrite Z.eqb_refl in Hin. discriminate.
Qed.

Lemma wallet_ids_exist (u : Z) (c : string) (db : DB) (id : Z) :
  In id (wallet_ids u c db) -> exists b, balance_of db id = Some b.
Proof.
  unfold wallet_ids. intros Hin. apply in_map_iff in Hin.
  destruct Hin as [[w a] [<- Hin]]. apply filter_In in Hin.
  destruct Hin as [Hin _]. apply In_join in Hin.
  apply balance_of_In. tauto.
Qed.

Lemma treasury_wallet_ids_exist (c : string) (db : DB) (id : Z) :
  In id (treasury_wallet_ids c db) -> exists b, balance_of db id = Some b.
Proof.
  unfold treasury_wallet_ids. intros Hin. apply In_firstn in Hin.
  apply in_map_iff in Hin.
  destruct Hin as [[[w us] a] [<- Hin]]. apply filter_In in Hin.
  destruct Hin as [Hin _]. apply In_join in Hin. destruct Hin as [Hin _].
  apply In_join in Hin. apply balance_of_In. tauto.
Qed.

(** Both endpoints are rows of [wallets]: 'One or more wallets not found'
    cannot arise on a single connection. *)
Lemma endpoints_exist (a : TransferArgs) (db : DB) (src dst : Z) :
  endpoints a db = Some (src, dst) ->
  (exists b, balance_of db src = Some b) /\
  (exists b, balance_of db dst = Some b).
Proof.
  unfold endpoints.
  destruct (wallet_ids (userId a) (assetCode a) db) as [|u us] eqn:Hu;
    [discriminate|].
  destruct (treasury_wallet_ids (assetCode a) db) as [|t ts] eqn:Ht;
    [discriminate|].
  assert (Hue : exists b, balance_of db u = Some b)
    by (apply (wallet_ids_exist (userId a) (assetCode a)); rewrite Hu; left; reflexivity).
  assert (Hte : exists b, balance_of db t = Some b)
    by (apply (treasury_wallet_ids_exist (assetCode a)); rewrite Ht; left; reflexivity).
  destruct (direction a u t) as [[s d] desc] eqn:Hd.
  apply direction_cases in Hd. simpl. intros H; inversion H; subst.
  destruct Hd as [_ [[-> ->]|[-> ->]]]; auto.
Qed.

(* ================================================================== *)
(** * The claims *)

(** ** Idempotent replay *)

Lemma idempotency_rows_unique (db : DB) (row : IdempotencyKey) :
  NoDup (map ik_key (idempotency_keys db)) ->
  In row (idempotency_keys db) ->
  idempotency_rows (ik_key row) db = [row].
Proof.
  unfold idempotency_rows.
  induction (idempotency_keys db) as [|r l IH]; simpl; intros Hnd Hin.
  - contradiction.
  - inversion Hnd as [|k ks Hnotin Hnd']; subst.
    destruct Hin as [->|Hin].
    + rewrite String.eqb_refl. f_equal.
      clear IH Hnd Hnd'. induction l as [|r' l IH]; simpl; [reflexivity|].
      destruct (ik_key r' =? ik_key row)%string eqn:E.
      * apply String.eqb_eq in E. exfalso. apply Hnotin. left. exact E.
      * apply IH. intros H. apply Hnotin. right. exact H.
    + destruct (ik_key r =? ik_key row)%string eqn:E.
      * apply String.eqb_eq in E. exfalso. apply Hnotin. rewrite E.
        apply in_map. exact Hin.
      * apply IH; assumption.
Qed.

(** C2.  When the request's key is truthy and a row is stored under it, the
    call returns that row's status and body with [idempotent = true]; the
    committed database is the one it started from (no balance, ledger or
    idempotency write) and the only statements sent are BEGIN, the key
    lookup and COMMIT.  Sent again any number of times, the request gets the
    same response every time. *)
Theorem replay_returns_stored_result
    (rt : Runtime) (a : TransferArgs) (db : DB) (row : IdempotencyKey) :
  JS.truthy (idempotencyKey a) = Some (ik_key row) ->
  NoDup (map ik_key (idempotency_keys db)) ->
  In row (idempotency_keys db) ->
  let stored :=
    mkTransferResult true (ik_response_code row) (ik_response_body row) in
  executeTransfer rt a db
  = mkOutcome (Return stored) db
      [BEGIN; SELECT_idempotency_key (ik_key row); COMMIT]
  /\ forall rts : list Runtime,
       retries rts a db = (map (fun _ => Return stored) rts, db).
Proof.
  intros Hkey Hpk Hin stored.
  pose proof (idempotency_rows_unique db row Hpk Hin) as Hrows.
  assert (Hone : forall rt', executeTransfer rt' a db
                 = mkOutcome (Return stored) db
                     [BEGIN; SELECT_idempotency_key (ik_key row); COMMIT])
    by (intros rt'; exact (executeTransfer_replay rt' a db _ row [] Hkey Hrows)).
  split; [apply Hone|].
  induction rts as [|rt' rts IH]; simpl.
  - reflexivity.
  - rewrite Hone. simpl. rewrite IH. reflexivity.
Qed.

Lemma replay_returns_stored_result_witness :
  let db := database (spend a_runtime 2 "GOLD_COINS" 200 (Some "k1"%string) seed) in
  exists row,
    In row (idempotency_keys db) /\
    balance_of db 4 = Some 800 /\
    retries [another_runtime; a_runtime]
      (mkTransferArgs "spend" 2 "GOLD_COINS" 200 (Some "k1"%string)) db
    = ([Return (mkTransferResult true 200 (ik_response_body row));
        Return (mkTransferResult true 200 (ik_response_body row))], db).
Proof.
  intros db.
  set (row := mkIdempotencyKey "k1" 200
                (mkResponseBody (uuidv4 a_runtime) 4 1 200 800 1000000200
                   "Spend: 200 GOLD_COINS spent by user 2")).
  exists row.
  assert (Hin : In row (idempotency_keys db)) by (left; reflexivity).
  split; [exact Hin|]. split; [reflexivity|].
  apply (proj2 (replay_returns_stored_result a_runtime
                  (mkTransferArgs "spend" 2 "GOLD_COINS" 200 (Some "k1"%string))
                  db row eq_refl
                  ltac:(repeat constructor; simpl; intuition) Hin)).
Defined.

(** ** Failure *)

Lemma executeTransfer_insufficient rt a db src dst sb :
  stored_reply a db = None ->
  endpoints a db = Some (src, dst) ->
  balance_of db src = Some sb ->
  sb < amount a ->
  result (executeTransfer rt a db) = Throw (InsufficientBalance sb (amount a)).
Proof.
  intros Hst He Hs Hlt.
  destruct (endpoints_exist a db src dst He) as [_ [dbal Hd]].
  unfold stored_reply, endpoints in *.
  destruct (wallet_ids (userId a) (assetCode a) db) as [|u us] eqn:Hu;
    [discriminate|].
  destruct (treasury_wallet_ids (assetCode a) db) as [|t ts] eqn:Ht;
    [discriminate|].
  destruct (direction a u t) as [[s d] desc] eqn:Hdir.
  simpl in He. inversion He; subst s d; clear He.
  destruct (locked_found src dst src sb db (or_introl eq_refl) Hs) as [i1 Hf1].
  destruct (locked_found src dst dst dbal db (or_intror eq_refl) Hd) as [i2 Hf2].
  apply Z.ltb_lt in Hlt.
  destruct (JS.truthy (idempotencyKey a)) as [key|] eqn:Hk.
  - destruct (idempotency_rows key db) as [|r rest] eqn:Hrows; [|discriminate].
    run_known. reflexivity.
  - run_known. reflexivity.
Qed.

(** C3.  (1) A request that is not a replay, whose wallets resolve and whose
    source holds less than the amount, is rejected with the
    insufficient-balance error (status 400), and the committed database is
    unchanged.  (2) Whatever a call throws, the committed database is the one
    it started from, the connection was sent ROLLBACK last and never COMMIT,
    and the error is the one raised inside the [try] block. *)
Theorem failure_leaves_no_trace :
  (forall rt a db src dst sb,
      stored_reply a db = None ->
      endpoints a db = Some (src, dst) ->
      balance_of db src = Some sb ->
      sb < amount a ->
      let o := executeTransfer rt a db in
      result o = Throw (InsufficientBalance sb (amount a)) /\
      statusCode (InsufficientBalance sb (amount a)) = Some 400 /\
      database o = db)
  /\
  (forall rt a db e,
      let o := executeTransfer rt a db in
      result o = Throw e ->
      database o = db /\
      fst (executeTransfer_try rt a (connect db)) = Throw e /\
      exists pre, statements o = pre ++ [ROLLBACK] /\ ~ In COMMIT pre).
Proof.
  split.
  - intros rt a db src dst sb Hst He Hs Hlt o.
    pose proof (executeTransfer_insufficient rt a db src dst sb Hst He Hs Hlt) as Hr.
    split; [exact Hr|]. split; [reflexivity|].
    apply (executeTransfer_thrown rt a db _ Hr).
  - intros rt a db e o Hr. exact (executeTransfer_thrown rt a db e Hr).
Qed.

(** Scenario of the spec: a spend of 900 from a wallet holding 800. *)
Lemma failure_leaves_no_trace_witness :
  let db := seed_with_balance 4 800 in
  let a := mkTransferArgs "spend" 2 "GOLD_COINS" 900 (Some "k2"%string) in
  balance_of db 4 = Some 800 /\
  result (executeTransfer a_runtime a db) = Throw (InsufficientBalance 800 900) /\
  database (executeTransfer a_runtime a db) = db /\
  balance_of (database (executeTransfer a_runtime a db)) 4 = Some 800.
Proof.
  intros db a.
  destruct failure_leaves_no_trace as [Hinsufficient Hany].
  destruct (Hinsufficient a_runtime a db 4 1 800
              eq_refl eq_refl eq_refl ltac:(simpl; lia)) as [Hr [_ Hdb]].
  destruct (Hany a_runtime a db _ Hr) as [Hdb' _].
  split; [reflexivity|]. split; [exact Hr|]. split; [exact Hdb'|].
  rewrite Hdb'. reflexivity.
Defined.

(** ** The ledger and the response of a committed transfer *)

Lemma filter_none {A} (p : A -> bool) (l : list A) :
  (forall x, In x l -> p x = false) -> filter p l = [].
Proof.
  induction l as [|x l IH]; simpl; intros H.
  - reflexivity.
  - rewrite (H x) by (left; reflexivity). apply IH. intros y Hy. apply H. right. exact Hy.
Qed.

Lemma endpoints_of_flow (a : TransferArgs) (db : DB) (u t : Z) :
  hd_error (wallet_ids (userId a) (assetCode a) db) = Some u ->
  hd_error (treasury_wallet_ids (assetCode a) db) = Some t ->
  endpoints a db
  = Some (if String.eqb (flow a) "topup" || String.eqb (flow a) "bonus"
          then (t, u) else (u, t)).
Proof.
  unfold endpoints, direction.
  destruct (wallet_ids _ _ db) as [|u' us]; [discriminate|].
  destruct (treasury_wallet_ids _ db) as [|t' ts]; [discriminate|].
  simpl. intros Hu Ht. inversion Hu; inversion Ht; subst.
  destruct (flow a =? "topup")%string; [reflexivity|].
  destruct (flow a =? "bonus")%string; reflexivity.
Qed.

(** C4 as stated fails when source and destination are one wallet.  The
    owner of the treasury wallet (user 1, wallet 1, holding 1000000000) tops
    up 5 GOLD_COINS: the transfer commits, the DEBIT entry on wallet 1
    carries 999999995, the value of the first UPDATE, while the second
    UPDATE leaves the wallet at 1000000005; the DEBIT does not carry the
    post-mutation balance of its wallet. *)
Lemma same_wallet_debit_misses_the_balance :
  let a := mkTransferArgs "topup" 1 "GOLD_COINS" 5 (Some "k1"%string) in
  let o := executeTransfer a_runtime a seed in
  result o
  = Return (mkTransferResult false 200
              (mkResponseBody (uuidv4 a_runtime) 1 1 5 999999995 1000000005
                 "Top-up: 5 GOLD_COINS purchased by user 1")) /\
  ledger_entries (database o)
  = [mkLedgerEntry (uuidv4 a_runtime) 1 DEBIT 5 999999995
       "Top-up: 5 GOLD_COINS purchased by user 1" (NOW a_runtime);
     mkLedgerEntry (uuidv4 a_runtime) 1 CREDIT 5 1000000005
       "Top-up: 5 GOLD_COINS purchased by user 1" (NOW a_runtime)] /\
  balance_of (database o) 1 = Some 1000000005 /\
  balance_of (database o) 1 <> Some 999999995.
Proof.
  intros a o.
  repeat (split; [vm_compute; reflexivity|]).
  vm_compute. discriminate.
Qed.

(** C4, amended.  A call that returns a first-time result between two
    different wallets whose balances stay within 2^53 appended exactly two
    ledger entries, both under the id its one call of [uuidv4()] produced: a
    DEBIT on the source and a CREDIT on the destination (the treasury wallet
    and the user's wallet for a top-up or a bonus, the other way round
    otherwise), each for the request's amount and each carrying the
    committed balance of its own wallet, [sb - amount] and [dbal + amount].
    The two UPDATEs were sent before the two INSERTs, and these four are the
    only statements on balances or ledger.  The code does not check that the
    id is new: when it was not in the ledger before, the two entries are the
    only ones that carry it. *)
Theorem committed_transfer_appends_debit_and_credit
    (rt : Runtime) (a : TransferArgs) (db : DB) (r : TransferResult)
    (u t sb dbal : Z) :
  result (executeTransfer rt a db) = Return r ->
  idempotent r = false ->
  hd_error (wallet_ids (userId a) (assetCode a) db) = Some u ->
  hd_error (treasury_wallet_ids (assetCode a) db) = Some t ->
  u <> t ->
  let credited := String.eqb (flow a) "topup" || String.eqb (flow a) "bonus" in
  let src := if credited then t else u in
  let dst := if credited then u else t in
  balance_of db src = Some sb ->
  balance_of db dst = Some dbal ->
  sb <= JS.two53 -> 0 <= dbal -> dbal + amount a <= JS.two53 ->
  let o := executeTransfer rt a db in
  exists debit credit,
    ledger_entries (database o) = ledger_entries db ++ [debit; credit] /\
    le_transaction_id debit = uuidv4 rt /\
    le_transaction_id credit = uuidv4 rt /\
    le_entry_type debit = DEBIT /\ le_wallet_id debit = src /\
    le_entry_type credit = CREDIT /\ le_wallet_id credit = dst /\
    le_amount debit = amount a /\ le_amount credit = amount a /\
    le_balance_after debit = sb - amount a /\
    le_balance_after credit = dbal + amount a /\
    balance_of (database o) src = Some (le_balance_after debit) /\
    balance_of (database o) dst = Some (le_balance_after credit) /\
    (exists pre post,
        statements o
        = pre ++
          [UPDATE_wallets (sb - amount a) src;
           UPDATE_wallets (dbal + amount a) dst;
           INSERT_ledger_entry (uuidv4 rt) src DEBIT (amount a)
             (sb - amount a) (le_description debit);
           INSERT_ledger_entry (uuidv4 rt) dst CREDIT (amount a)
             (dbal + amount a) (le_description credit)] ++ post /\
        filter touches_ledger_or_balance pre = [] /\
        filter touches_ledger_or_balance post = []) /\
    ((forall e, In e (ledger_entries db) -> le_transaction_id e <> uuidv4 rt) ->
     filter (fun e => String.eqb (le_transaction_id e) (uuidv4 rt))
            (ledger_entries (database o)) = [debit; credit]).
Proof.
  intros Hr Hi Hu Ht Hne credited src dst Hsb Hdb Hb1 Hb2 Hb3 o.
  destruct (executeTransfer_committed rt a db r Hr Hi)
    as (src' & dst' & sb' & dbal' & _ & He & Hs & Hd & Hle & Hpos & _ & _ & _
        & Hw & Hl & _ & Hst).
  fold o in Hw, Hl, Hst.
  rewrite (endpoints_of_flow a db u t Hu Ht) in He. fold credited in He.
  assert (Esrc : src' = src) by (subst src dst; destruct credited; congruence).
  assert (Edst : dst' = dst) by (subst src dst; destruct credited; congruence).
  subst src' dst'.
  assert (Hne' : src <> dst) by (subst src dst; destruct credited; congruence).
  rewrite Hsb in Hs. rewrite Hdb in Hd. inversion Hs; inversion Hd; subst sb' dbal'.
  rewrite !Number_exact in Hw, Hl, Hst by (unfold JS.two53 in *; lia).
  destruct (balance_after_updates db (database o) src dst _ _ Hw) as (Bd & Bs & _).
  clearbody o.
  eexists; eexists.
  split; [exact Hl|]. simpl.
  do 10 (split; [reflexivity|]).
  split; [exact (Bs _ Hne' Hsb)|].
  split; [exact (Bd _ Hdb)|].
  split.
  - rewrite Hst. unfold transfer_statements.
    exists ([BEGIN] ++
            match JS.truthy (idempotencyKey a) with
            | Some key => [SELECT_idempotency_key key]
            | None => []
            end ++
            [SELECT_wallet (userId a) (assetCode a);
             SELECT_treasury_wallet (assetCode a);
             SELECT_wallets_FOR_UPDATE (order_by (fun i : Z => i) [src; dst])
               (map w_id (wallets_by_id (order_by (fun i : Z => i) [src; dst]) db))]).
    exists (match JS.truthy (idempotencyKey a) with
            | Some key =>
                [INSERT_idempotency_key key 200
                   (mkResponseBody (uuidv4 rt) src dst (amount a)
                      (sb - amount a) (dbal + amount a)
                      (description_of a))]
            | None => []
            end ++ [COMMIT]).
    destruct (JS.truthy (idempotencyKey a)); simpl;
      (split; [reflexivity | split; reflexivity]).
  - intros Hfresh. rewrite Hl, filter_app. simpl.
    rewrite String.eqb_refl.
    rewrite filter_none; [reflexivity|].
    intros e He'. apply String.eqb_neq. apply Hfresh. exact He'.
Qed.

(** Scenario of the spec: wallet A (id 4) holds 1000 GOLD_COINS and spends
    200 under key "k1"; the treasury wallet (id 1) receives them. *)
Lemma committed_transfer_appends_debit_and_credit_witness :
  let a := mkTransferArgs "spend" 2 "GOLD_COINS" 200 (Some "k1"%string) in
  let o := executeTransfer a_runtime a seed in
  exists debit credit,
    ledger_entries (database o) = [debit; credit] /\
    le_wallet_id debit = 4 /\ le_balance_after debit = 800 /\
    le_wallet_id credit = 1 /\ le_balance_after credit = 1000000200 /\
    balance_of (database o) 4 = Some 800 /\
    balance_of (database o) 1 = Some 1000000200.
Proof.
  intros a o.
  assert (Hr : result (executeTransfer a_runtime a seed)
               = Return (mkTransferResult false 200
                           (mkResponseBody (uuidv4 a_runtime) 4 1 200 800
                              1000000200 "Spend: 200 GOLD_COINS spent by user 2")))
    by (vm_compute; reflexivity).
  assert (Hu : hd_error (wallet_ids (userId a) (assetCode a) seed) = Some 4)
    by (vm_compute; reflexivity).
  assert (Ht : hd_error (treasury_wallet_ids (assetCode a) seed) = Some 1)
    by (vm_compute; reflexivity).
  assert (Hs : balance_of seed 4 = Some 1000) by (vm_compute; reflexivity).
  assert (Hd : balance_of seed 1 = Some 1000000000) by (vm_compute; reflexivity).
  destruct (committed_transfer_appends_debit_and_credit a_runtime a seed
              _ 4 1 1000 1000000000 Hr eq_refl Hu Ht
              ltac:(discriminate) Hs Hd
              ltac:(vm_compute; discriminate) ltac:(lia)
              ltac:(vm_compute; discriminate))
    as (debit & credit & Hl & _ & _ & _ & W1 & _ & W2 & _ & _ & B1 & B2 & S1 & S2 & _).
  exists debit, credit.
  change (ledger_entries seed ++ [debit; credit]) with [debit; credit] in Hl.
  split; [exact Hl|].
  split; [exact W1|]. split; [rewrite B1; reflexivity|].
  split; [exact W2|]. split; [rewrite B2; reflexivity|].
  rewrite B1 in S1. rewrite B2 in S2.
  split; [exact S1 | exact S2].
Defined.

(** C6 as stated fails when source and destination are one wallet.  The
    owner of the treasury wallet (user 1, wallet 1, holding 1000000000) is
    granted a bonus of 5 GOLD_COINS under key "k1": the body that is
    returned, and stored under the key, reports 999999995 as the new source
    balance, while the wallet is left at 1000000005; the body does not
    contain the post-mutation balance of the source. *)
Lemma same_wallet_body_misses_the_balance :
  let a := mkTransferArgs "bonus" 1 "GOLD_COINS" 5 (Some "k1"%string) in
  let o := executeTransfer a_runtime a seed in
  let b := mkResponseBody (uuidv4 a_runtime) 1 1 5 999999995 1000000005
             "Bonus: 5 GOLD_COINS granted to user 1" in
  result o = Return (mkTransferResult false 200 b) /\
  idempotency_keys (database o) = [mkIdempotencyKey "k1" 200 b] /\
  sourceWalletId b = 1 /\
  balance_of (database o) 1 = Some 1000000005 /\
  balance_of (database o) 1 <> Some (newSourceBalance b).
Proof.
  intros a o b.
  repeat (split; [vm_compute; reflexivity|]).
  vm_compute. discriminate.
Qed.

(** C6, amended.  A call with a non-empty key of at most 128 characters that
    returns a first-time result between two different wallets whose balances
    stay within 2^53 returns status 200 and a body made of the generated
    transaction id, the source and destination wallet ids (the treasury
    wallet and the user's wallet for a top-up or a bonus, the other way round
    otherwise), the request's amount, the committed balances of the two
    wallets, [sb - amount] and [dbal + amount], and the description of the
    flow; the row appended to [idempotency_keys] under the key holds status
    200 and that same body, and it is the row a later lookup of the key
    finds. *)
Theorem first_time_result_is_what_is_stored
    (rt : Runtime) (a : TransferArgs) (db : DB) (r : TransferResult)
    (key : string) (u t sb dbal : Z) :
  result (executeTransfer rt a db) = Return r ->
  idempotent r = false ->
  idempotencyKey a = Some key ->
  key <> EmptyString ->
  (String.length key <= KEY_MAX_LENGTH)%nat ->
  hd_error (wallet_ids (userId a) (assetCode a) db) = Some u ->
  hd_error (treasury_wallet_ids (assetCode a) db) = Some t ->
  u <> t ->
  let credited := String.eqb (flow a) "topup" || String.eqb (flow a) "bonus" in
  let src := if credited then t else u in
  let dst := if credited then u else t in
  balance_of db src = Some sb ->
  balance_of db dst = Some dbal ->
  sb <= JS.two53 -> 0 <= dbal -> dbal + amount a <= JS.two53 ->
  let o := executeTransfer rt a db in
  let text :=
    (if String.eqb (flow a) "topup" then
       "Top-up: " ++ JS.toString (amount a) ++ " " ++ assetCode a
         ++ " purchased by user " ++ JS.toString (userId a)
     else if String.eqb (flow a) "bonus" then
       "Bonus: " ++ JS.toString (amount a) ++ " " ++ assetCode a
         ++ " granted to user " ++ JS.toString (userId a)
     else
       "Spend: " ++ JS.toString (amount a) ++ " " ++ assetCode a
         ++ " spent by user " ++ JS.toString (userId a))%string in
  tr_statusCode r = 200 /\
  body r = mkResponseBody (uuidv4 rt) src dst (amount a)
             (sb - amount a) (dbal + amount a) text /\
  balance_of (database o) src = Some (newSourceBalance (body r)) /\
  balance_of (database o) dst = Some (newDestBalance (body r)) /\
  idempotency_keys (database o)
  = idempotency_keys db ++ [mkIdempotencyKey key 200 (body r)] /\
  hd_error (idempotency_rows key (database o))
  = Some (mkIdempotencyKey key 200 (body r)) /\
  stored_reply a (database o) = Some (mkIdempotencyKey key 200 (body r)).
Proof.
  intros Hr Hi Hsome Hnonempty _ Hu Ht Hne credited src dst Hsb Hdb Hb1 Hb2 Hb3 o text.
  assert (Hkey : JS.truthy (idempotencyKey a) = Some key).
  { rewrite Hsome. unfold JS.truthy.
    destruct (String.eqb key EmptyString) eqn:E; [|reflexivity].
    apply String.eqb_eq in E. contradiction. }
  destruct (executeTransfer_committed rt a db r Hr Hi)
    as (src' & dst' & sb' & dbal' & Hnone & He & Hs & Hd & Hle & Hpos & Hrr & _ & _
        & Hw & _ & Hk & _).
  fold o in Hw, Hk.
  rewrite (endpoints_of_flow a db u t Hu Ht) in He. fold credited in He.
  assert (Esrc : src' = src) by (subst src dst; destruct credited; congruence).
  assert (Edst : dst' = dst) by (subst src dst; destruct credited; congruence).
  subst src' dst'.
  assert (Hne' : src <> dst) by (subst src dst; destruct credited; congruence).
  rewrite Hsb in Hs. rewrite Hdb in Hd. inversion Hs; inversion Hd; subst sb' dbal'.
  rewrite !Number_exact in Hw, Hk, Hrr by (unfold JS.two53 in *; lia).
  destruct (balance_after_updates db (database o) src dst _ _ Hw) as (Bd & Bs & _).
  assert (Htext : description_of a = text).
  { unfold description_of, direction. subst text.
    destruct (String.eqb (flow a) "topup"); [reflexivity|].
    destruct (String.eqb (flow a) "bonus"); reflexivity. }
  rewrite Htext in Hrr, Hk.
  clearbody o. rewrite Hkey in Hk. subst r. simpl.
  split; [reflexivity|].
  split; [reflexivity|].
  split; [exact (Bs _ Hne' Hsb)|].
  split; [exact (Bd _ Hdb)|].
  split; [exact Hk|].
  assert (Hrows : hd_error (idempotency_rows key (with_idempotency_keys
                     (idempotency_keys db ++
                      [mkIdempotencyKey key 200
                         (mkResponseBody (uuidv4 rt) src dst (amount a)
                            (sb - amount a) (dbal + amount a) text)]) db))
                  = Some (mkIdempotencyKey key 200
                            (mkResponseBody (uuidv4 rt) src dst (amount a)
                               (sb - amount a) (dbal + amount a) text))).
  { unfold stored_reply in Hnone. rewrite Hkey in Hnone.
    unfold idempotency_rows in *. simpl. rewrite filter_app.
    destruct (filter _ (idempotency_keys db)); [|discriminate].
    simpl. rewrite String.eqb_refl. reflexivity. }
  assert (Hrows' : hd_error (idempotency_rows key (database o))
                   = Some (mkIdempotencyKey key 200
                             (mkResponseBody (uuidv4 rt) src dst (amount a)
                                (sb - amount a) (dbal + amount a) text))).
  { unfold idempotency_rows in *. simpl in Hrows. rewrite Hk. exact Hrows. }
  split; [exact Hrows'|].
  unfold stored_reply. rewrite Hkey. exact Hrows'.
Qed.

(** The README's example: user 2 tops up 500 GOLD_COINS under key
    "topup-shivansh-001"; the treasury wallet (id 1) is the source. *)
Lemma first_time_result_is_what_is_stored_witness :
  let a := mkTransferArgs "topup" 2 "GOLD_COINS" 500 (Some "topup-shivansh-001"%string) in
  let o := executeTransfer a_runtime a seed in
  let b := mkResponseBody (uuidv4 a_runtime) 1 4 500 999999500 1500
             "Top-up: 500 GOLD_COINS purchased by user 2" in
  result o = Return (mkTransferResult false 200 b) /\
  balance_of (database o) 1 = Some 999999500 /\
  balance_of (database o) 4 = Some 1500 /\
  idempotency_keys (database o)
  = [mkIdempotencyKey "topup-shivansh-001" 200 b].
Proof.
  intros a o b.
  assert (Hr : result (executeTransfer a_runtime a seed)
               = Return (mkTransferResult false 200 b))
    by (vm_compute; reflexivity).
  assert (Hu : hd_error (wallet_ids (userId a) (assetCode a) seed) = Some 4)
    by (vm_compute; reflexivity).
  assert (Ht : hd_error (treasury_wallet_ids (assetCode a) seed) = Some 1)
    by (vm_compute; reflexivity).
  assert (Hs : balance_of seed 1 = Some 1000000000) by (vm_compute; reflexivity).
  assert (Hd : balance_of seed 4 = Some 1000) by (vm_compute; reflexivity).
  destruct (first_time_result_is_what_is_stored a_runtime a seed _
              "topup-shivansh-001" 4 1 1000000000 1000 Hr eq_refl eq_refl
              ltac:(discriminate)
              ltac:(unfold KEY_MAX_LENGTH; simpl; lia)
              Hu Ht ltac:(discriminate) Hs Hd
              ltac:(vm_compute; discriminate) ltac:(lia)
              ltac:(vm_compute; discriminate))
    as (_ & _ & B1 & B2 & Hk & _).
  split; [exact Hr|].
  split; [exact B1|]. split; [exact B2|]. exact Hk.
Defined.

(** ** Balances *)

(** Between two wallets whose balances stay within 2^53 a committed transfer
    moves exactly the amount: the source ends at [sb - amount], which is not
    negative, the destination at [dbal + amount], and their sum is kept. *)
Lemma transfer_is_exact_up_to_two53
    (rt : Runtime) (a : TransferArgs) (db : DB) (r : TransferResult)
    (sb dbal : Z) :
  result (executeTransfer rt a db) = Return r ->
  idempotent r = false ->
  let src := sourceWalletId (body r) in
  let dst := destWalletId (body r) in
  let db' := database (executeTransfer rt a db) in
  src <> dst ->
  balance_of db src = Some sb ->
  balance_of db dst = Some dbal ->
  sb <= JS.two53 -> 0 <= dbal -> dbal + amount a <= JS.two53 ->
  balance_of db' src = Some (sb - amount a) /\
  balance_of db' dst = Some (dbal + amount a) /\
  0 <= sb - amount a /\
  (sb - amount a) + (dbal + amount a) = sb + dbal.
Proof.
  intros Hr Hi src dst db' Hne Hs Hd Hsb Hd0 Hdb.
  destruct (executeTransfer_committed rt a db r Hr Hi)
    as (src' & dst' & sb' & dbal' & _ & _ & Hs' & Hd' & Hle & Hpos & Hrr & _ & _
        & Hw & _).
  fold db' in Hw.
  destruct (balance_after_updates db db' src' dst' _ _ Hw) as (Bd & Bs & _).
  clearbody db'. subst r. simpl in src, dst. subst src dst.
  rewrite Hs in Hs'. rewrite Hd in Hd'. inversion Hs'; inversion Hd'; subst sb' dbal'.
  rewrite (Bs _ Hne Hs), (Bd _ Hd).
  rewrite !Number_exact by (unfold JS.two53 in *; lia).
  repeat split; lia.
Qed.

(** C1, at an input where it fails.  The treasury wallet (id 1) holds 2^53
    and user 2 spends 1 from a wallet (id 4) holding 1000: the transfer
    commits, the source goes to 999, and the destination is written
    [Number(2^53 + 1)], which is 2^53 again; the sum of the two balances
    drops by one. *)
Theorem conservation_fails_above_two53 :
  let db := seed_with_balance 1 (2 ^ 53) in
  let o := spend a_runtime 2 "GOLD_COINS" 1 (Some "k1"%string) db in
  (exists b, result o = Return (mkTransferResult false 200 b)
             /\ sourceWalletId b = 4 /\ destWalletId b = 1) /\
  balance_of db 4 = Some 1000 /\
  balance_of db 1 = Some 9007199254740992 /\
  balance_of (database o) 4 = Some 999 /\
  balance_of (database o) 1 = Some 9007199254740992 /\
  999 + 9007199254740992 <> 1000 + 9007199254740992.
Proof.
  intros db o. split.
  - eexists. split; [vm_compute; reflexivity|]. split; reflexivity.
  - repeat split; try (vm_compute; reflexivity). lia.
Qed.

(** C5, at an input where it fails.  The treasury wallet holds 2^53 + 2 and
    tops user 2 up by 1.  All three integers fit in 64 bits; the new source
    balance the code computes, returns and writes is 2^53, not 2^53 + 1. *)
Theorem balance_update_rounds_above_two53 :
  let sb := 9007199254740994 in
  let db := seed_with_balance 1 sb in
  let o := topUp a_runtime 2 "GOLD_COINS" 1 (Some "k1"%string) db in
  is_bigint sb = true /\ is_bigint 1000 = true /\ is_bigint 1 = true /\
  balance_of db 1 = Some sb /\
  (exists b, result o = Return (mkTransferResult false 200 b)
             /\ sourceWalletId b = 1
             /\ newSourceBalance b = 9007199254740992
             /\ newSourceBalance b <> sb - 1
             /\ newDestBalance b = 1001) /\
  balance_of (database o) 1 = Some 9007199254740992.
Proof.
  intros sb db o.
  repeat (split; [vm_compute; reflexivity|]). split.
  - eexists. split; [vm_compute; reflexivity|]. simpl.
    repeat split; try reflexivity. subst sb. lia.
  - vm_compute. reflexivity.
Qed.

(** ** Requests without a key *)

Lemma is_bigint_up_to_two53 (x : Z) :
  0 <= x <= JS.two53 -> is_bigint x = true.
Proof.
  unfold is_bigint, BIGINT_MIN, BIGINT_MAX, JS.two53. intros H.
  apply andb_true_intro. split; apply Z.leb_le; lia.
Qed.

(** Within 2^53 a first-time request with enough balance commits. *)
Lemma commits_up_to_two53 rt a db src dst sb dbal :
  stored_reply a db = None ->
  endpoints a db = Some (src, dst) ->
  balance_of db src = Some sb ->
  balance_of db dst = Some dbal ->
  0 < amount a -> amount a <= sb -> sb <= JS.two53 ->
  0 <= dbal -> dbal + amount a <= JS.two53 ->
  (forall key, JS.truthy (idempotencyKey a) = Some key ->
               (String.length key <= KEY_MAX_LENGTH)%nat) ->
  result (executeTransfer rt a db)
  = Return (mkTransferResult false 200
              (mkResponseBody (uuidv4 rt) src dst (amount a)
                 (sb - amount a) (dbal + amount a) (description_of a))).
Proof.
  intros Hst He Hs Hd Hpos Hle Hsb Hd0 Hdb Hkey.
  pose proof (executeTransfer_commits rt a db src dst sb dbal) as H.
  cbv zeta in H.
  rewrite !Number_exact in H by (unfold JS.two53 in *; lia).
  apply H; auto; try lia; apply is_bigint_up_to_two53; lia.
Qed.

Lemma executeTransfer_without_key rt a db :
  JS.truthy (idempotencyKey a) = None ->
  let o := executeTransfer rt a db in
  idempotency_keys (database o) = idempotency_keys db /\
  filter touches_idempotency_keys (statements o) = [] /\
  (forall r, result o = Return r -> idempotent r = false).
Proof.
  intros Hk. cbv zeta. run_known; simpl_db.
  all: split; [reflexivity|]; split; [reflexivity|].
  all: intros r H; inversion H; reflexivity.
Qed.

(** One more keyless transfer between two wallets, within 2^53. *)
Lemma keyless_transfer_step rt a db src dst sb dbal :
  JS.truthy (idempotencyKey a) = None ->
  endpoints a db = Some (src, dst) ->
  src <> dst ->
  balance_of db src = Some sb ->
  balance_of db dst = Some dbal ->
  0 < amount a -> amount a <= sb -> sb <= JS.two53 ->
  0 <= dbal -> dbal + amount a <= JS.two53 ->
  let o := executeTransfer rt a db in
  (exists r, result o = Return r /\ idempotent r = false) /\
  endpoints a (database o) = Some (src, dst) /\
  balance_of (database o) src = Some (sb - amount a) /\
  balance_of (database o) dst = Some (dbal + amount a) /\
  idempotency_keys (database o) = idempotency_keys db.
Proof.
  intros Hk He Hne Hs Hd Hpos Hle Hsb Hd0 Hdb o.
  assert (Hst : stored_reply a db = None) by (unfold stored_reply; rewrite Hk; reflexivity).
  assert (Hr := commits_up_to_two53 rt a db src dst sb dbal Hst He Hs Hd Hpos Hle
                  Hsb Hd0 Hdb ltac:(intros key E; rewrite Hk in E; discriminate)).
  destruct (executeTransfer_committed rt a db _ Hr eq_refl)
    as (src' & dst' & sb' & dbal' & _ & He' & Hs' & Hd' & _ & _ & _ & Ha & Hu
        & Hw & _ & Hik & _).
  fold o in Hr, Ha, Hu, Hw, Hik. clearbody o.
  rewrite He in He'. inversion He'; subst src' dst'.
  rewrite Hs in Hs'. rewrite Hd in Hd'. inversion Hs'; inversion Hd'; subst sb' dbal'.
  rewrite !Number_exact in Hw by (unfold JS.two53 in *; lia).
  destruct (balance_after_updates db (database o) src dst _ _ Hw) as (Bd & Bs & _).
  split; [eexists; split; [exact Hr | reflexivity]|].
  split; [rewrite (endpoints_after_updates a db (database o) src dst _ _ Ha Hu Hw); exact He|].
  split; [exact (Bs _ Hne Hs)|]. split; [exact (Bd _ Hd)|].
  rewrite Hik, Hk. apply app_nil_r.
Qed.

(** C10.  With an absent or empty key: (1) no statement of a call reads or
    writes [idempotency_keys], the table is left as it was, and a call that
    returns never reports a replay; (2) sent [n] times to two wallets with
    enough balance (within 2^53), the same request commits [n] times, each
    time as a first-time transfer, and moves [n * amount] in total. *)
Theorem without_key_every_call_transfers (a : TransferArgs) :
  JS.truthy (idempotencyKey a) = None ->
  (forall rt db,
      let o := executeTransfer rt a db in
      idempotency_keys (database o) = idempotency_keys db /\
      filter touches_idempotency_keys (statements o) = [] /\
      (forall r, result o = Return r -> idempotent r = false))
  /\
  (forall rts db src dst sb dbal,
      let n := Z.of_nat (List.length rts) in
      endpoints a db = Some (src, dst) ->
      src <> dst ->
      balance_of db src = Some sb ->
      balance_of db dst = Some dbal ->
      0 < amount a -> n * amount a <= sb -> sb <= JS.two53 ->
      0 <= dbal -> dbal + n * amount a <= JS.two53 ->
      let rs := fst (retries rts a db) in
      let db' := snd (retries rts a db) in
      List.length rs = List.length rts /\
      Forall (fun res => exists r, res = Return r /\ idempotent r = false) rs /\
      balance_of db' src = Some (sb - n * amount a) /\
      balance_of db' dst = Some (dbal + n * amount a) /\
      idempotency_keys db' = idempotency_keys db).
Proof.
  intros Hk. split.
  - intros rt db. exact (executeTransfer_without_key rt a db Hk).
  - induction rts as [|rt rts IH]; intros db src dst sb dbal n He Hne Hs Hd Hpos Hle Hsb Hd0 Hdb.
    + simpl. subst n. simpl. rewrite Z.sub_0_r, Z.add_0_r. auto.
    + subst n. rewrite length_cons, Nat2Z.inj_succ in *.
      set (m := Z.of_nat (List.length rts)) in *.
      assert (Hm : 0 <= m) by (subst m; lia).
      destruct (keyless_transfer_step rt a db src dst sb dbal Hk He Hne Hs Hd Hpos
                  ltac:(nia) Hsb Hd0 ltac:(nia))
        as ((r & Hr & Hi) & He1 & Hs1 & Hd1 & Hk1).
      specialize (IH (database (executeTransfer rt a db)) src dst
                     (sb - amount a) (dbal + amount a) He1 Hne Hs1 Hd1 Hpos
                     ltac:(fold m; nia) ltac:(lia) ltac:(lia) ltac:(fold m; nia)).
      cbv zeta in IH. fold m in IH.
      simpl. destruct (retries rts a (database (executeTransfer rt a db))) as [rs db'].
      simpl in *. destruct IH as (Hlen & Hall & Hbs & Hbd & Hks).
      split; [congruence|].
      split; [constructor; [exists r; auto | exact Hall]|].
      split; [rewrite Hbs; f_equal; lia|].
      split; [rewrite Hbd; f_equal; lia|].
      congruence.
Qed.

(** Two keyless spends of 200 from the wallet holding 1000. *)
Lemma without_key_every_call_transfers_witness :
  let a := mkTransferArgs "spend" 2 "GOLD_COINS" 200 None in
  let db' := snd (retries [a_runtime; another_runtime] a seed) in
  balance_of seed 4 = Some 1000 /\
  balance_of db' 4 = Some 600 /\
  balance_of db' 1 = Some 1000000400 /\
  idempotency_keys db' = [].
Proof.
  intros a db'.
  destruct (without_key_every_call_transfers a eq_refl) as [_ H].
  destruct (H [a_runtime; another_runtime] seed 4 1 1000 1000000000
              eq_refl ltac:(lia) eq_refl eq_refl
              ltac:(simpl; lia) ltac:(simpl; lia) ltac:(vm_compute; discriminate)
              ltac:(lia) ltac:(vm_compute; discriminate))
    as (_ & _ & Hs & Hd & Hk).
  split; [reflexivity|]. split; [exact Hs|]. split; [exact Hd|]. exact Hk.
Defined.

(** ** A transfer from a wallet to itself *)

Lemma set_balance_absent (k b : Z) (ws : list Wallet) :
  ~ In k (map w_id ws) -> set_balance k b ws = ws.
Proof.
  induction ws as [|w ws IH]; simpl; intros Hn.
  - reflexivity.
  - destruct (w_id w =? k) eqn:E.
    + apply Z.eqb_eq in E. exfalso. apply Hn. left. exact E.
    + f_equal. apply IH. intros H. apply Hn. right. exact H.
Qed.

Lemma map_w_id_set_balance (k b : Z) (ws : list Wallet) :
  map w_id (set_balance k b ws) = map w_id ws.
Proof.
  unfold set_balance. rewrite map_map. apply map_ext.
  intros w. destruct (w_id w =? k); reflexivity.
Qed.

Lemma total_set_balance (k b b' : Z) (ws : list Wallet) :
  NoDup (map w_id ws) ->
  option_map w_balance (find (fun w => w_id w =? k) ws) = Some b ->
  fold_right Z.add 0 (map w_balance (set_balance k b' ws))
  = fold_right Z.add 0 (map w_balance ws) - b + b'.
Proof.
  induction ws as [|w ws IH]; simpl; intros Hnd Hf.
  - discriminate.
  - inversion Hnd as [|i ids Hni Hnd']; subst.
    destruct (w_id w =? k) eqn:E; simpl in *.
    + apply Z.eqb_eq in E. inversion Hf; subst.
      fold (set_balance (w_id w) b' ws). rewrite set_balance_absent by exact Hni. lia.
    + fold (set_balance k b' ws). rewrite (IH Hnd' Hf). lia.
Qed.

Lemma endpoints_same_wallet (a : TransferArgs) (db : DB) (w : Z) :
  hd_error (wallet_ids (userId a) (assetCode a) db) = Some w ->
  hd_error (treasury_wallet_ids (assetCode a) db) = Some w ->
  endpoints a db = Some (w, w).
Proof.
  unfold endpoints.
  destruct (wallet_ids _ _ db) as [|u us]; [discriminate|].
  destruct (treasury_wallet_ids _ db) as [|t ts]; [discriminate|].
  simpl. intros Hu Ht. inversion Hu; inversion Ht; subst.
  destruct (direction a w w) as [[s d] desc] eqn:Hd.
  apply direction_cases in Hd. simpl.
  destruct Hd as [_ [[-> ->]|[-> ->]]]; reflexivity.
Qed.

(** C9 as stated fails: the treasury wallet holds 2^62 and its own owner tops
    up by 2^62, an amount not above the balance; the credit side, 2^63, is
    outside BIGINT, the UPDATE is rejected and nothing is committed. *)
Lemma same_wallet_transfer_can_be_rejected :
  let db := seed_with_balance 1 (2 ^ 62) in
  let a := mkTransferArgs "topup" 1 "GOLD_COINS" (2 ^ 62) (Some "k1"%string) in
  let o := executeTransfer a_runtime a db in
  hd_error (wallet_ids (userId a) (assetCode a) db) = Some 1 /\
  hd_error (treasury_wallet_ids (assetCode a) db) = Some 1 /\
  balance_of db 1 = Some (2 ^ 62) /\
  amount a <= 2 ^ 62 /\
  result o = Throw (DatabaseError bigint_out_of_range) /\
  balance_of (database o) 1 <> Some (2 ^ 62 + amount a).
Proof.
  intros db a o.
  repeat (split; [vm_compute; reflexivity|]).
  split; [vm_compute; discriminate|].
  split; [vm_compute; reflexivity|].
  vm_compute. discriminate.
Qed.

(** C9, amended.  When the owner's wallet and the treasury wallet are the
    same row [w] holding [b], a first-time request of any flow for a
    positive amount not above [b], with [b + amount] within 2^53, commits as
    a transfer from [w] to [w]: the wallet is first written [b - amount] and
    then [b + amount], which is its committed balance; no other wallet
    changes, and with unique wallet ids the sum of all balances has grown by
    the amount. *)
Theorem same_wallet_transfer_mints
    (rt : Runtime) (a : TransferArgs) (db : DB) (w b : Z) :
  hd_error (wallet_ids (userId a) (assetCode a) db) = Some w ->
  hd_error (treasury_wallet_ids (assetCode a) db) = Some w ->
  balance_of db w = Some b ->
  stored_reply a db = None ->
  (forall key, JS.truthy (idempotencyKey a) = Some key ->
               (String.length key <= KEY_MAX_LENGTH)%nat) ->
  0 < amount a -> amount a <= b -> b + amount a <= JS.two53 ->
  let o := executeTransfer rt a db in
  (exists r, result o = Return r /\ idempotent r = false /\
             sourceWalletId (body r) = w /\ destWalletId (body r) = w) /\
  (exists pre post,
      statements o
      = pre ++ [UPDATE_wallets (b - amount a) w;
                UPDATE_wallets (b + amount a) w] ++ post) /\
  balance_of (database o) w = Some (b + amount a) /\
  (forall k, k <> w -> balance_of (database o) k = balance_of db k) /\
  (NoDup (map w_id (wallets db)) ->
   total_balance (database o) = total_balance db + amount a).
Proof.
  intros Hu Ht Hb Hst Hkey Hpos Hle Hmax o.
  pose proof (endpoints_same_wallet a db w Hu Ht) as He.
  assert (Hr := commits_up_to_two53 rt a db w w b b Hst He Hb Hb Hpos Hle
                  ltac:(lia) ltac:(lia) Hmax Hkey).
  destruct (executeTransfer_committed rt a db _ Hr eq_refl)
    as (src' & dst' & sb' & dbal' & _ & He' & Hs' & Hd' & _ & _ & _ & _ & _
        & Hw & _ & _ & Hstm).
  fold o in Hr, Hw, Hstm. clearbody o.
  rewrite He in He'. inversion He'; subst src' dst'.
  rewrite Hb in Hs', Hd'. inversion Hs'; inversion Hd'; subst sb' dbal'.
  rewrite !Number_exact in Hw, Hstm by (unfold JS.two53 in *; lia).
  destruct (balance_after_updates db (database o) w w _ _ Hw) as (Bd & _ & Bo).
  split; [eexists; split; [exact Hr | repeat split]|].
  split.
  - rewrite Hstm. unfold transfer_statements.
    exists ([BEGIN] ++
            match JS.truthy (idempotencyKey a) with
            | Some key => [SELECT_idempotency_key key]
            | None => []
            end ++
            [SELECT_wallet (userId a) (assetCode a);
             SELECT_treasury_wallet (assetCode a);
             SELECT_wallets_FOR_UPDATE (order_by (fun i : Z => i) [w; w])
               (map w_id (wallets_by_id (order_by (fun i : Z => i) [w; w]) db))]).
    eexists. rewrite <- !app_assoc. simpl. reflexivity.
  - split; [exact (Bd _ Hb)|].
    split; [intros k Hk; apply Bo; exact Hk|].
    intros Hnd. unfold total_balance. rewrite Hw.
    unfold balance_of in Hb.
    rewrite (total_set_balance w (b - amount a) (b + amount a)).
    + rewrite (total_set_balance w b (b - amount a)) by assumption. lia.
    + rewrite map_w_id_set_balance. exact Hnd.
    + rewrite find_set_balance.
      destruct (find _ (wallets db)) as [x|] eqn:Hf; [|discriminate].
      apply find_some in Hf. destruct Hf as [_ Hid]. simpl. rewrite Hid. reflexivity.
Qed.

(** The treasury's owner tops up its own GOLD_COINS wallet by 5. *)
Lemma same_wallet_transfer_mints_witness :
  let a := mkTransferArgs "topup" 1 "GOLD_COINS" 5 (Some "k1"%string) in
  let o := executeTransfer a_runtime a seed in
  balance_of seed 1 = Some 1000000000 /\
  balance_of (database o) 1 = Some 1000000005 /\
  total_balance (database o) = total_balance seed + 5.
Proof.
  intros a o.
  destruct (same_wallet_transfer_mints a_runtime a seed 1 1000000000
              eq_refl eq_refl eq_refl eq_refl
              ltac:(intros key E; inversion E; unfold KEY_MAX_LENGTH; simpl; lia)
              ltac:(simpl; lia) ltac:(simpl; lia) ltac:(vm_compute; discriminate))
    as (_ & _ & Hb & _ & Ht).
  split; [reflexivity|]. split; [exact Hb|].
  apply Ht. vm_compute.
  repeat (constructor; [simpl; intuition discriminate|]). constructor.
Defined.

(** ** The history query *)

Section OrderByFacts.
Context {A : Type} (key : A -> Z).

Lemma insert_by_sorted (x : A) (l : list A) :
  StronglySorted (fun x y => key x <= key y) l -> StronglySorted (fun x y => key x <= key y) (insert_by key x l).
Proof.
  induction l as [|y l IH]; simpl; intros Hs.
  - constructor; constructor.
  - inversion Hs as [|y' l' Hs' Hall]; subst.
    destruct (key x <=? key y) eqn:E.
    + apply Z.leb_le in E. constructor; [exact Hs|].
      constructor; [exact E|].
      eapply Forall_impl; [|exact Hall]. simpl. intros z Hz. lia.
    + apply Z.leb_gt in E. constructor; [apply IH; exact Hs'|].
      apply Forall_forall. intros z Hz. apply In_insert_by in Hz.
      destruct Hz as [->|Hz].
      * lia.
      * rewrite Forall_forall in Hall. apply Hall. exact Hz.
Qed.

Lemma order_by_sorted (l : list A) : StronglySorted (fun x y => key x <= key y) (order_by key l).
Proof.
  induction l as [|x l IH]; simpl.
  - constructor.
  - apply insert_by_sorted. exact IH.
Qed.
End OrderByFacts.

Lemma StronglySorted_skipn {A} (R : A -> A -> Prop) (n : nat) (l : list A) :
  StronglySorted R l -> StronglySorted R (skipn n l).
Proof.
  revert l. induction n as [|n IH]; intros l Hs; simpl.
  - exact Hs.
  - destruct l as [|x l]; [constructor|].
    apply IH. inversion Hs; assumption.
Qed.

Lemma StronglySorted_firstn {A} (R : A -> A -> Prop) (n : nat) (l : list A) :
  StronglySorted R l -> StronglySorted R (firstn n l).
Proof.
  revert l. induction n as [|n IH]; intros l Hs; simpl.
  - constructor.
  - destruct l as [|x l]; [constructor|].
    inversion Hs as [|x' l' Hs' Hall]; subst.
    constructor; [apply IH; exact Hs'|].
    apply Forall_forall. intros y Hy. apply In_firstn in Hy.
    rewrite Forall_forall in Hall. apply Hall. exact Hy.
Qed.

Lemma StronglySorted_weaken {A} (R R' : A -> A -> Prop) (l : list A) :
  (forall x y, R x y -> R' x y) ->
  StronglySorted R l -> StronglySorted R' l.
Proof.
  intros HR. induction 1 as [|x l Hs IH Hall]; constructor.
  - exact IH.
  - eapply Forall_impl; [|exact Hall]. intros y. apply HR.
Qed.

Lemma history_rows_newest_first (userId : Z) (code : option string) (db : DB) :
  StronglySorted (fun r1 r2 => created_at r1 >= created_at r2)
    (history_rows userId code db).
Proof.
  unfold history_rows.
  eapply StronglySorted_weaken; [|apply order_by_sorted].
  simpl. intros x y H. lia.
Qed.

(** Which rows the history holds: one for each ledger entry of a wallet of
    the user (of the asset, when one is given), with the asset's code. *)
Lemma history_rows_content (userId : Z) (code : option string) (db : DB)
    (row : TransactionRow) :
  In row (history_rows userId code db) <->
  exists le w asset,
    In le (ledger_entries db) /\ In w (wallets db) /\ In asset (asset_types db) /\
    w_id w = le_wallet_id le /\ a_id asset = w_asset_type_id w /\
    w_user_id w = userId /\
    (forall c, code = Some c -> a_code asset = c) /\
    row = mkTransactionRow (le_transaction_id le) (le_entry_type le)
            (le_amount le) (le_balance_after le) (le_description le)
            (le_created_at le) (a_code asset).
Proof.
  unfold history_rows. rewrite In_order_by, in_map_iff. split.
  - intros [[[le w] asset] [<- Hin]]. apply filter_In in Hin.
    destruct Hin as [Hin Hp]. apply In_join in Hin. destruct Hin as (Hlw & Hat & Hon2).
    apply In_join in Hlw. destruct Hlw as (Hle & Hw & Hon1). simpl in *.
    apply andb_prop in Hp. destruct Hp as [Hu Hc].
    exists le, w, asset. repeat split; auto.
    + apply Z.eqb_eq. exact Hon1.
    + apply Z.eqb_eq. exact Hon2.
    + apply Z.eqb_eq. exact Hu.
    + intros c ->. apply String.eqb_eq. exact Hc.
  - intros (le & w & asset & Hle & Hw & Hat & E1 & E2 & E3 & Hc & ->).
    exists (le, w, asset). split; [reflexivity|].
    apply filter_In. split.
    + apply In_join. split; [|split; [exact Hat | simpl; apply Z.eqb_eq; exact E2]].
      apply In_join. split; [exact Hle | split; [exact Hw | apply Z.eqb_eq; exact E1]].
    + simpl. apply andb_true_intro. split; [apply Z.eqb_eq; exact E3|].
      destruct code as [c|]; [|reflexivity].
      apply String.eqb_eq. apply Hc. reflexivity.
Qed.

(** C8.  For a user id in the INT range, [getTransactions] sends one SELECT
    and leaves the database as it was.  What it returns is a page of the
    user's history: the history holds exactly the ledger entries of the
    user's wallets, each with the code of its asset (only those of the given
    asset when a non-empty asset code is supplied; all of them when the code
    is absent or empty), and is ordered by [created_at], newest first; rows
    created at the same instant come in an order SQL leaves open, and when
    there are none the history is the list [history_rows] computes.  With a
    limit and an offset that are not negative the call returns the rows
    [offset, offset + limit) of the history; every page is ordered newest
    first and has at most [limit] rows. *)
Theorem history_is_paged_newest_first
    (userId : Z) (o : HistoryOptions) (db : DB) :
  is_int userId = true ->
  let code := JS.truthy (h_assetCode o) in
  let limit := default 20 (h_limit o) in
  let offset := default 0 (h_offset o) in
  let out := getTransactions userId o db in
  let newest_first := fun r1 r2 : TransactionRow => created_at r1 >= created_at r2 in
  database out = db /\
  statements out = [SELECT_ledger_entries userId code limit offset] /\
  exists history,
    (forall row,
       In row history <->
       exists le w asset,
         In le (ledger_entries db) /\ In w (wallets db) /\
         In asset (asset_types db) /\
         w_id w = le_wallet_id le /\ a_id asset = w_asset_type_id w /\
         w_user_id w = userId /\
         (forall c, h_assetCode o = Some c -> c <> EmptyString ->
                    a_code asset = c) /\
         row = mkTransactionRow (le_transaction_id le) (le_entry_type le)
                 (le_amount le) (le_balance_after le) (le_description le)
                 (le_created_at le) (a_code asset)) /\
    Permutation history (history_rows userId code db) /\
    StronglySorted newest_first history /\
    (NoDup (map created_at history) -> history = history_rows userId code db) /\
    (0 <= limit <= BIGINT_MAX -> 0 <= offset <= BIGINT_MAX ->
     result out
     = Return (firstn (Z.to_nat limit) (skipn (Z.to_nat offset) history))) /\
    (forall rows, result out = Return rows ->
       rows = firstn (Z.to_nat limit) (skipn (Z.to_nat offset) history) /\
       (List.length rows <= Z.to_nat limit)%nat /\
       StronglySorted newest_first rows).
Proof.
  intros _ code limit offset out newest_first.
  assert (Hsorted := history_rows_newest_first userId code db).
  assert (Hpage : forall rows, result out = Return rows ->
            rows = firstn (Z.to_nat limit)
                     (skipn (Z.to_nat offset) (history_rows userId code db))).
  { subst out. unfold getTransactions. fold code limit offset. run_pg.
    repeat (next_case; run_pg); intros rows H; inversion H; reflexivity. }
  split; [|split].
  - subst out. unfold getTransactions. run_pg. repeat (next_case; run_pg); reflexivity.
  - subst out. unfold getTransactions. run_pg. repeat (next_case; run_pg); reflexivity.
  - exists (history_rows userId code db).
    split; [|split; [|split; [|split; [|split]]]].
    + intros row. rewrite history_rows_content.
      split; intros (le & w & asset & H1 & H2 & H3 & H4 & H5 & H6 & Hc & Hrow);
        exists le, w, asset; repeat (split; [assumption|]); (split; [|exact Hrow]).
      * intros c Hsome Hnonempty. apply Hc. subst code. rewrite Hsome.
        unfold JS.truthy. destruct (String.eqb c EmptyString) eqn:E; [|reflexivity].
        apply String.eqb_eq in E. contradiction.
      * intros c Hcode. subst code. unfold JS.truthy in Hcode.
        destruct (h_assetCode o) as [c'|] eqn:Hsome; [|discriminate].
        destruct (String.eqb c' EmptyString) eqn:E; [discriminate|].
        inversion Hcode; subst c'. apply (Hc c eq_refl).
        apply String.eqb_neq. exact E.
    + apply Permutation_refl.
    + exact Hsorted.
    + intros _. reflexivity.
    + intros Hl Ho. subst out. unfold getTransactions. fold code limit offset. run_pg.
      assert (E1 : is_bigint limit = true)
        by (unfold is_bigint, BIGINT_MIN; apply andb_true_intro; split; apply Z.leb_le; lia).
      assert (E2 : is_bigint offset = true)
        by (unfold is_bigint, BIGINT_MIN; apply andb_true_intro; split; apply Z.leb_le; lia).
      assert (E3 : (offset <? 0) = false) by (apply Z.ltb_ge; lia).
      assert (E4 : (limit <? 0) = false) by (apply Z.ltb_ge; lia).
      rewrite E1, E2, E3, E4. reflexivity.
    + intros rows Hr. pose proof (Hpage rows Hr) as ->.
      split; [reflexivity|]. split; [rewrite length_firstn; apply Nat.le_min_l|].
      apply StronglySorted_firstn, StronglySorted_skipn; exact Hsorted.
Qed.

(** User 2 tops up 500 GOLD_COINS and, a minute later, spends 100 DIAMONDS.
    The history filtered by GOLD_COINS holds the credit of the top-up alone;
    the unfiltered history starts with the newer debit of the spend, which
    is the first page of size 1. *)
Lemma history_is_paged_newest_first_witness :
  let db1 := database (topUp a_runtime 2 "GOLD_COINS" 500 (Some "k1"%string) seed) in
  let db2 := database (spend another_runtime 2 "DIAMONDS" 100 (Some "k2"%string) db1) in
  let gold := mkTransactionRow (uuidv4 a_runtime) CREDIT 500 1500
                "Top-up: 500 GOLD_COINS purchased by user 2" (NOW a_runtime)
                "GOLD_COINS" in
  let diamonds := mkTransactionRow (uuidv4 another_runtime) DEBIT 100 400
                    "Spend: 100 DIAMONDS spent by user 2" (NOW another_runtime)
                    "DIAMONDS" in
  result (getTransactions 2 (mkHistoryOptions (Some "GOLD_COINS"%string) (Some 10) None) db2)
  = Return [gold] /\
  result (getTransactions 2 (mkHistoryOptions None (Some 1) None) db2)
  = Return [diamonds] /\
  result (getTransactions 2 (mkHistoryOptions (Some EmptyString) None (Some 1)) db2)
  = Return [gold] /\
  database (getTransactions 2 (mkHistoryOptions None (Some 1) None) db2) = db2.
Proof.
  intros db1 db2 gold diamonds.
  assert (Hpage : forall o rows,
            history_rows 2 (JS.truthy (h_assetCode o)) db2 = rows ->
            NoDup (map created_at rows) ->
            0 <= default 20 (h_limit o) <= BIGINT_MAX ->
            0 <= default 0 (h_offset o) <= BIGINT_MAX ->
            result (getTransactions 2 o db2)
            = Return (firstn (Z.to_nat (default 20 (h_limit o)))
                        (skipn (Z.to_nat (default 0 (h_offset o))) rows))).
  { intros o rows Hrows Hnodup Hl Ho.
    destruct (history_is_paged_newest_first 2 o db2 eq_refl)
      as (_ & _ & h & _ & P & _ & D & R & _).
    rewrite Hrows in P, D.
    rewrite (R Hl Ho), D; [reflexivity|].
    apply (Permutation_NoDup (l := map created_at rows)); [|exact Hnodup].
    apply Permutation_sym, Permutation_map. exact P. }
  assert (Hgold : history_rows 2 (Some "GOLD_COINS"%string) db2 = [gold])
    by (vm_compute; reflexivity).
  assert (Hall : history_rows 2 None db2 = [diamonds; gold])
    by (vm_compute; reflexivity).
  assert (N1 : NoDup (map created_at [gold]))
    by (repeat (constructor; [simpl; intuition discriminate|]); constructor).
  assert (N2 : NoDup (map created_at [diamonds; gold]))
    by (repeat (constructor; [simpl; intuition discriminate|]); constructor).
  split; [|split; [|split]].
  - rewrite (Hpage (mkHistoryOptions (Some "GOLD_COINS"%string) (Some 10) None)
               [gold] Hgold N1)
      by (vm_compute; split; discriminate).
    reflexivity.
  - rewrite (Hpage (mkHistoryOptions None (Some 1) None) [diamonds; gold] Hall N2)
      by (vm_compute; split; discriminate).
    reflexivity.
  - rewrite (Hpage (mkHistoryOptions (Some EmptyString) None (Some 1))
               [diamonds; gold] Hall N2)
      by (vm_compute; split; discriminate).
    reflexivity.
  - destruct (history_is_paged_newest_first 2 (mkHistoryOptions None (Some 1) None)
                db2 eq_refl) as (Hdb & _).
    exact Hdb.
Defined.

(** ** Lock order *)

Lemma StronglySorted_map_key {A} (key : A -> Z) (l : list A) :
  StronglySorted (fun x y => key x <= key y) l ->
  StronglySorted Z.le (map key l).
Proof.
  induction 1 as [|x l Hs IH Hall]; simpl; constructor.
  - exact IH.
  - apply Forall_forall. intros k Hk. apply in_map_iff in Hk.
    destruct Hk as [y [<- Hy]]. rewrite Forall_forall in Hall. apply Hall. exact Hy.
Qed.

(** The ids handed to the locking SELECT are in ascending order, and so are
    the rows it returns and locks. *)
Lemma locks_are_taken_in_ascending_order (src dst : Z) (db : DB) :
  let ids := order_by (fun i : Z => i) [src; dst] in
  StronglySorted Z.le ids /\
  StronglySorted Z.le (map w_id (wallets_by_id ids db)).
Proof.
  split.
  - apply (order_by_sorted (fun i : Z => i)).
  - apply StronglySorted_map_key. unfold wallets_by_id. apply order_by_sorted.
Qed.

(* ================================================================== *)
(** * More on the transfer engine *)

(** What a first-time transfer that commits has passed on its way. *)
Lemma executeTransfer_committed_checks rt a db r :
  result (executeTransfer rt a db) = Return r -> idempotent r = false ->
  is_bigint (amount a) = true /\
  is_bigint (newSourceBalance (body r)) = true /\
  is_bigint (newDestBalance (body r)) = true /\
  (forall key, JS.truthy (idempotencyKey a) = Some key ->
     (String.length key <= KEY_MAX_LENGTH)%nat /\
     existsb (fun row => String.eqb (ik_key row) key) (idempotency_keys db) = false).
Proof.
  run_transfer; intros H; inversion H; subst; clear H; simpl;
    try (intros; discriminate); intros _.
  all: repeat split; try assumption.
  all: try congruence.
  all: match goal with E : Some _ = Some _ |- _ => inversion E; subst end.
  all: try (apply Nat.ltb_ge; assumption); assumption.
Qed.

(** Where each error of a run comes from. *)
Lemma executeTransfer_thrown_origin rt a db e :
  result (executeTransfer rt a db) = Throw e ->
  stored_reply a db = None /\
  match e with
  | WalletNotFound u c =>
      u = userId a /\ c = assetCode a /\
      wallet_ids (userId a) (assetCode a) db = []
  | TreasuryNotFound c =>
      c = assetCode a /\ treasury_wallet_ids (assetCode a) db = []
  | WalletsNotFound => False
  | InsufficientBalance available requested =>
      exists src dst,
        endpoints a db = Some (src, dst) /\
        balance_of db src = Some available /\
        requested = amount a /\ available < requested
  | DatabaseError v =>
      exists src dst sb dbal,
        endpoints a db = Some (src, dst) /\
        balance_of db src = Some sb /\ balance_of db dst = Some dbal /\
        amount a <= sb /\
        match v with
        | bigint_out_of_range =>
            is_bigint (amount a) = false \/
            is_bigint (JS.Number (sb - amount a)) = false \/
            is_bigint (JS.Number (dbal + amount a)) = false
        | wallets_balance_check => JS.Number (dbal + amount a) < 0
        | ledger_entries_amount_check => amount a <= 0
        | value_too_long =>
            exists key, JS.truthy (idempotencyKey a) = Some key /\
                        (KEY_MAX_LENGTH < String.length key)%nat
        | idempotency_keys_pkey | negative_limit | negative_offset => False
        end
  end.
Proof.
  unfold stored_reply, endpoints.
  run_transfer; intros H; inversion H; subst; clear H; simpl.
  all: split; [reflexivity|].
  all: try (repeat split; reflexivity).
  all: repeat match goal with
       | H : find _ (map _ (wallets_by_id (order_by _ [?src; ?dst]) _)) = Some _ |- _ =>
           apply locked_balance in H; [|auto]
       | H : find _ (map _ (wallets_by_id (order_by _ [?src; ?dst]) _)) = None |- _ =>
           apply locked_missing in H; [|auto]
       | H : (_ <? _) = false |- _ => apply Z.ltb_ge in H
       | H : (_ <? _) = true |- _ => apply Z.ltb_lt in H
       | H : (_ <=? _) = false |- _ => apply Z.leb_gt in H
       | H : (_ <=? _) = true |- _ => apply Z.leb_le in H
       | H : (_ <? _)%nat = true |- _ => apply Nat.ltb_lt in H
       end.
  all: try match goal with
       | Hu : wallet_ids _ _ ?db = ?u :: _, Ht : treasury_wallet_ids _ ?db = ?t :: _,
         Hd : direction ?a ?u ?t = (?src, ?dst, _), Hn : balance_of ?db _ = None |- False =>
           let He := fresh in
           assert (He : endpoints a db = Some (src, dst))
             by (unfold endpoints; rewrite Hu, Ht, Hd; reflexivity);
           destruct (endpoints_exist a db src dst He) as [[? ?] [? ?]]; congruence
       end.
  all: try (do 2 eexists; repeat split; eassumption).
  all: try match goal with
       | Hr : idempotency_rows ?k ?db = [], Hx : existsb _ (idempotency_keys ?db) = true |- _ =>
           rewrite (idempotency_rows_nil k db Hr) in Hx; discriminate
       end.
  all: try match goal with
       | Hn : JS.Number (?x - ?y) < 0, Hl : ?y <= ?x |- _ =>
           pose proof (Number_nonneg (x - y) ltac:(lia)); lia
       end.
  all: do 4 eexists; repeat split; try eassumption; auto.
  all: try (eexists; split; [reflexivity | assumption]).
Qed.

(** A run that reports a replay found a stored row and changed nothing. *)
Lemma executeTransfer_replayed rt a db r :
  result (executeTransfer rt a db) = Return r -> idempotent r = true ->
  exists key row rest,
    JS.truthy (idempotencyKey a) = Some key /\
    idempotency_rows key db = row :: rest /\
    r = mkTransferResult true (ik_response_code row) (ik_response_body row) /\
    database (executeTransfer rt a db) = db /\
    statements (executeTransfer rt a db)
    = [BEGIN; SELECT_idempotency_key key; COMMIT].
Proof.
  run_transfer; intros H; inversion H; subst; clear H; cbn [idempotent];
    try (intros; discriminate); intros _.
  match goal with
  | Hrows : idempotency_rows ?k _ = ?row :: ?rest |- _ => exists k, row, rest
  end.
  repeat split; try reflexivity; assumption.
Qed.

(** A run either leaves the committed database as it was or is a first-time
    transfer that committed. *)
Lemma executeTransfer_database_cases rt a db :
  database (executeTransfer rt a db) = db \/
  exists r, result (executeTransfer rt a db) = Return r /\ idempotent r = false.
Proof.
  destruct (result (executeTransfer rt a db)) as [r|e] eqn:Hr.
  - destruct (idempotent r) eqn:Hi.
    + left. destruct (executeTransfer_replayed rt a db r Hr Hi)
        as (k & row & rest & _ & _ & _ & Hdb & _). exact Hdb.
    + right. exists r. split; [reflexivity | exact Hi].
  - left. apply (executeTransfer_thrown rt a db e Hr).
Qed.

(** ** The schema's constraints are kept *)

Lemma Forall_set_balance (P : Z -> Prop) (k b : Z) (ws : list Wallet) :
  P b ->
  Forall (fun w => P (w_balance w)) ws ->
  Forall (fun w => P (w_balance w)) (set_balance k b ws).
Proof.
  intros Hb Hall. unfold set_balance. apply Forall_forall.
  intros w Hin. apply in_map_iff in Hin. destruct Hin as [w0 [<- Hin0]].
  rewrite Forall_forall in Hall.
  destruct (w_id w0 =? k); [exact Hb | apply Hall; exact Hin0].
Qed.

Lemma balance_of_holds (P : Z -> Prop) (db : DB) (k b : Z) :
  Forall (fun w => P (w_balance w)) (wallets db) ->
  balance_of db k = Some b -> P b.
Proof.
  unfold balance_of. intros Hall Hb.
  destruct (find _ (wallets db)) as [w|] eqn:Hf; [|discriminate].
  inversion Hb; subst. apply find_some in Hf. destruct Hf as [Hin _].
  rewrite Forall_forall in Hall. apply (Hall w Hin).
Qed.

Lemma NoDup_snoc {A} (x : A) (l : list A) :
  NoDup l -> ~ In x l -> NoDup (l ++ [x]).
Proof.
  induction l as [|y l IH]; simpl; intros Hnd Hn.
  - constructor; [intros []|constructor].
  - inversion Hnd; subst. constructor.
    + rewrite in_app_iff. simpl. intros [H|[H|[]]]; [contradiction|].
      apply Hn. left. symmetry. exact H.
    + apply IH; [assumption|]. intros H. apply Hn. right. exact H.
Qed.

Lemma existsb_key_false (key : string) (l : list IdempotencyKey) :
  existsb (fun row => String.eqb (ik_key row) key) l = false ->
  ~ In key (map ik_key l).
Proof.
  intros Hex Hin. apply in_map_iff in Hin. destruct Hin as [row [E Hin]].
  assert (Ht : existsb (fun row => String.eqb (ik_key row) key) l = true).
  { apply existsb_exists. exists row. split; [exact Hin|]. apply String.eqb_eq. exact E. }
  congruence.
Qed.

(** X1.  Every call, whatever its outcome, takes a database that satisfies the
    constraints of the schema (unique wallet ids, balances that are not
    negative and fit BIGINT, ledger amounts that are positive, unique keys of
    at most 128 characters) to one that satisfies them. *)
Theorem executeTransfer_keeps_constraints
    (rt : Runtime) (a : TransferArgs) (db : DB) :
  constraints_hold db ->
  constraints_hold (database (executeTransfer rt a db)).
Proof.
  intros Hc.
  destruct (executeTransfer_database_cases rt a db) as [->|[r [Hr Hi]]]; [exact Hc|].
  destruct Hc as ((Hnd & Hbal) & Hled & (Hknd & Hklen)).
  destruct (executeTransfer_committed_checks rt a db r Hr Hi) as (Ca & Cs & Cd & Ck).
  destruct (executeTransfer_committed rt a db r Hr Hi)
    as (src & dst & sb & dbal & _ & _ & Hs & Hd & Hle & Hpos & -> & _ & _
        & Hw & Hl & Hk & _).
  simpl in Cs, Cd.
  set (o := executeTransfer rt a db) in *. clearbody o.
  assert (H0 : 0 <= dbal)
    by (apply (balance_of_holds (fun b => 0 <= b /\ is_bigint b = true) db dst dbal Hbal Hd)).
  pose proof (Number_nonneg (sb - amount a) ltac:(lia)) as Hn1.
  pose proof (Number_nonneg (dbal + amount a) ltac:(lia)) as Hn2.
  repeat split.
  - rewrite Hw, !map_w_id_set_balance. exact Hnd.
  - rewrite Hw.
    apply (Forall_set_balance (fun b => 0 <= b /\ is_bigint b = true)); [auto|].
    apply (Forall_set_balance (fun b => 0 <= b /\ is_bigint b = true)); auto.
  - unfold ledger_entries_ok. rewrite Hl. apply Forall_app. split; [exact Hled|].
    repeat constructor; simpl; auto.
  - rewrite Hk. destruct (JS.truthy (idempotencyKey a)) as [key|] eqn:Ht.
    + destruct (Ck key eq_refl) as [_ Hfresh].
      rewrite map_app. simpl. apply NoDup_snoc; [exact Hknd|].
      apply existsb_key_false. exact Hfresh.
    + rewrite app_nil_r. exact Hknd.
  - rewrite Hk. apply Forall_app. split; [exact Hklen|].
    destruct (JS.truthy (idempotencyKey a)) as [key|] eqn:Ht; [|constructor].
    destruct (Ck key eq_refl) as [Hlen _]. constructor; [exact Hlen | constructor].
Qed.

Ltac nodup_by_computation :=
  repeat (constructor; [simpl; intuition discriminate|]); constructor.

Lemma executeTransfer_keeps_constraints_witness :
  constraints_hold seed /\
  constraints_hold
    (database (spend a_runtime 2 "GOLD_COINS" 200 (Some "k1"%string) seed)).
Proof.
  assert (Hseed : constraints_hold seed).
  { repeat split; simpl.
    - nodup_by_computation.
    - repeat (constructor; [simpl; split; [lia | reflexivity]|]). constructor.
    - unfold ledger_entries_ok. simpl. constructor.
    - constructor.
    - constructor. }
  split; [exact Hseed|].
  exact (executeTransfer_keeps_constraints a_runtime
           (mkTransferArgs "spend" 2 "GOLD_COINS" 200 (Some "k1"%string))
           seed Hseed).
Defined.

(** ** What a call never touches *)

(** X2.  A call never changes [asset_types] or [users], never adds, removes or
    re-keys a wallet row (only balances change), never alters or removes a
    ledger entry or a stored key: the ledger grows by two entries or not at
    all, and [idempotency_keys] by at most one row. *)
Theorem executeTransfer_only_appends
    (rt : Runtime) (a : TransferArgs) (db : DB) :
  let db' := database (executeTransfer rt a db) in
  asset_types db' = asset_types db /\
  users db' = users db /\
  map (fun w => (w_id w, w_user_id w, w_asset_type_id w)) (wallets db')
  = map (fun w => (w_id w, w_user_id w, w_asset_type_id w)) (wallets db) /\
  (exists entries,
      ledger_entries db' = ledger_entries db ++ entries /\
      (entries = [] \/ List.length entries = 2%nat)) /\
  (exists rows,
      idempotency_keys db' = idempotency_keys db ++ rows /\
      (List.length rows <= 1)%nat).
Proof.
  intros db'. subst db'.
  destruct (executeTransfer_database_cases rt a db) as [->|[r [Hr Hi]]].
  - repeat split; try reflexivity.
    + exists []. split; [symmetry; apply app_nil_r | left; reflexivity].
    + exists []. split; [symmetry; apply app_nil_r | simpl; lia].
  - destruct (executeTransfer_committed rt a db r Hr Hi)
      as (src & dst & sb & dbal & _ & _ & _ & _ & _ & _ & _ & Ha & Hu
          & Hw & Hl & Hk & _).
    set (o := executeTransfer rt a db) in *. clearbody o.
    split; [exact Ha|]. split; [exact Hu|]. split; [|split].
    + rewrite Hw. unfold set_balance. rewrite !map_map. apply map_ext.
      intros w. destruct (w_id w =? src); simpl; destruct (_ =? dst); reflexivity.
    + eexists. split; [exact Hl | right; reflexivity].
    + eexists. split; [exact Hk|].
      destruct (JS.truthy (idempotencyKey a)); simpl; lia.
Qed.

(** ** Double entry *)

Lemma entries_total_app (ty : EntryType) (l l' : list LedgerEntry) :
  entries_total ty (l ++ l') = entries_total ty l + entries_total ty l'.
Proof.
  unfold entries_total. rewrite filter_app, map_app.
  induction (map le_amount (filter _ l)) as [|x xs IH]; simpl; lia.
Qed.

(** X3.  Whatever a call does, it adds as much to the DEBIT total of the ledger
    as to its CREDIT total; so [SUM(DEBIT) = SUM(CREDIT)] holds after the
    call when it held before. *)
Theorem executeTransfer_keeps_debits_equal_credits
    (rt : Runtime) (a : TransferArgs) (db : DB) :
  let db' := database (executeTransfer rt a db) in
  entries_total DEBIT (ledger_entries db') - entries_total DEBIT (ledger_entries db)
  = entries_total CREDIT (ledger_entries db') - entries_total CREDIT (ledger_entries db)
  /\ (entries_total DEBIT (ledger_entries db)
      = entries_total CREDIT (ledger_entries db) ->
      entries_total DEBIT (ledger_entries db')
      = entries_total CREDIT (ledger_entries db')).
Proof.
  intros db'. subst db'.
  assert (H : entries_total DEBIT (ledger_entries (database (executeTransfer rt a db)))
              - entries_total DEBIT (ledger_entries db)
            = entries_total CREDIT (ledger_entries (database (executeTransfer rt a db)))
              - entries_total CREDIT (ledger_entries db)).
  { destruct (executeTransfer_database_cases rt a db) as [->|[r [Hr Hi]]]; [lia|].
    destruct (executeTransfer_committed rt a db r Hr Hi)
      as (src & dst & sb & dbal & _ & _ & _ & _ & _ & _ & _ & _ & _ & _ & Hl & _).
    rewrite Hl, !entries_total_app.
    match goal with
    | |- context [entries_total DEBIT (?d :: ?c :: nil)] =>
        assert (E1 : entries_total DEBIT [d; c] = amount a)
          by (unfold entries_total; simpl; lia);
        assert (E2 : entries_total CREDIT [d; c] = amount a)
          by (unfold entries_total; simpl; lia)
    end.
    lia. }
  split; [exact H | lia].
Qed.

Lemma executeTransfer_keeps_debits_equal_credits_witness :
  let db' := database (spend a_runtime 2 "GOLD_COINS" 200 (Some "k1"%string) seed) in
  entries_total DEBIT (ledger_entries seed) = 0 /\
  entries_total CREDIT (ledger_entries seed) = 0 /\
  entries_total DEBIT (ledger_entries db') = 200 /\
  entries_total DEBIT (ledger_entries db') = entries_total CREDIT (ledger_entries db').
Proof.
  intros db'.
  destruct (executeTransfer_keeps_debits_equal_credits a_runtime
              (mkTransferArgs "spend" 2 "GOLD_COINS" 200 (Some "k1"%string)) seed)
    as [_ H].
  split; [reflexivity|]. split; [reflexivity|].
  split; [vm_compute; reflexivity|].
  apply H. reflexivity.
Defined.

(** ** Balances and the ledger *)

Lemma ledger_net_app (k : Z) (l l' : list LedgerEntry) :
  ledger_net k (l ++ l') = ledger_net k l + ledger_net k l'.
Proof.
  unfold ledger_net. rewrite filter_app, !entries_total_app. lia.
Qed.

Lemma ledger_net_pair (k src dst amt : Z) (d c : LedgerEntry) :
  le_wallet_id d = src -> le_entry_type d = DEBIT -> le_amount d = amt ->
  le_wallet_id c = dst -> le_entry_type c = CREDIT -> le_amount c = amt ->
  ledger_net k [d; c]
  = (if dst =? k then amt else 0) - (if src =? k then amt else 0).
Proof.
  intros D1 D2 D3 C1 C2 C3. unfold ledger_net, entries_total. simpl.
  rewrite D1, C1.
  destruct (src =? k), (dst =? k); simpl; rewrite ?D2, ?C2; simpl; lia.
Qed.

(** X4.  Between two different wallets, and within 2^53, a committed transfer
    changes every wallet's balance by exactly what it adds to that wallet's
    ledger: [balance - (SUM(CREDIT) - SUM(DEBIT))] is the same before and
    after, for every wallet. *)
Theorem transfer_keeps_balance_in_step_with_ledger
    (rt : Runtime) (a : TransferArgs) (db : DB) (r : TransferResult)
    (sb dbal : Z) :
  result (executeTransfer rt a db) = Return r ->
  idempotent r = false ->
  let src := sourceWalletId (body r) in
  let dst := destWalletId (body r) in
  let db' := database (executeTransfer rt a db) in
  src <> dst ->
  balance_of db src = Some sb ->
  balance_of db dst = Some dbal ->
  sb <= JS.two53 -> 0 <= dbal -> dbal + amount a <= JS.two53 ->
  forall k b,
    balance_of db k = Some b ->
    exists b',
      balance_of db' k = Some b' /\
      b' - ledger_net k (ledger_entries db')
      = b - ledger_net k (ledger_entries db).
Proof.
  intros Hr Hi src dst db' Hne Hs Hd Hsb Hd0 Hdb k b Hb.
  destruct (transfer_is_exact_up_to_two53 rt a db r sb dbal Hr Hi Hne Hs Hd Hsb Hd0 Hdb)
    as (Bs & Bd & _ & _).
  destruct (executeTransfer_committed rt a db r Hr Hi)
    as (src' & dst' & sb' & dbal' & _ & _ & _ & _ & _ & _ & Hrr & _ & _
        & Hw & Hl & _).
  fold db' in Bs, Bd, Hw, Hl.
  destruct (balance_after_updates db db' src' dst' _ _ Hw) as (_ & _ & Bo).
  clearbody db'. subst r. simpl in src, dst. subst src dst.
  rewrite Hl, ledger_net_app.
  rewrite (ledger_net_pair k src' dst' (amount a)) by reflexivity.
  destruct (Z.eq_dec k src') as [->|Hks].
  - exists (sb - amount a). split; [exact Bs|].
    rewrite Z.eqb_refl.
    destruct (dst' =? src') eqn:E; [apply Z.eqb_eq in E; congruence|].
    assert (b = sb) by congruence. lia.
  - destruct (Z.eq_dec k dst') as [->|Hkd].
    + exists (dbal + amount a). split; [exact Bd|].
      rewrite Z.eqb_refl.
      destruct (src' =? dst') eqn:E; [apply Z.eqb_eq in E; congruence|].
      assert (b = dbal) by congruence. lia.
    + exists b. split; [rewrite (Bo k Hks Hkd); exact Hb|].
      destruct (dst' =? k) eqn:E1; [apply Z.eqb_eq in E1; congruence|].
      destruct (src' =? k) eqn:E2; [apply Z.eqb_eq in E2; congruence|]. lia.
Qed.

Lemma transfer_keeps_balance_in_step_with_ledger_witness :
  let a := mkTransferArgs "spend" 2 "GOLD_COINS" 200 (Some "k1"%string) in
  let db' := database (executeTransfer a_runtime a seed) in
  exists b',
    balance_of db' 4 = Some b' /\
    b' - ledger_net 4 (ledger_entries db') = 1000 - ledger_net 4 (ledger_entries seed).
Proof.
  intros a db'.
  assert (Hr : result (executeTransfer a_runtime a seed)
               = Return (mkTransferResult false 200
                           (mkResponseBody (uuidv4 a_runtime) 4 1 200 800
                              1000000200 "Spend: 200 GOLD_COINS spent by user 2")))
    by (vm_compute; reflexivity).
  exact (transfer_keeps_balance_in_step_with_ledger a_runtime a seed _
           1000 1000000000 Hr eq_refl ltac:(simpl; lia) eq_refl eq_refl
           ltac:(vm_compute; discriminate) ltac:(lia)
           ltac:(vm_compute; discriminate) 4 1000 eq_refl).
Defined.

(** X5.  A committed transfer from a wallet to itself (see
    [same_wallet_transfer_mints]) records a debit and a credit of the same
    amount on that wallet, so its ledger net does not move while its balance
    grows by the amount: the balance can no longer be recomputed from the
    ledger. *)
Theorem same_wallet_transfer_leaves_ledger_behind
    (rt : Runtime) (a : TransferArgs) (db : DB) (w b : Z) :
  hd_error (wallet_ids (userId a) (assetCode a) db) = Some w ->
  hd_error (treasury_wallet_ids (assetCode a) db) = Some w ->
  balance_of db w = Some b ->
  stored_reply a db = None ->
  (forall key, JS.truthy (idempotencyKey a) = Some key ->
               (String.length key <= KEY_MAX_LENGTH)%nat) ->
  0 < amount a -> amount a <= b -> b + amount a <= JS.two53 ->
  let db' := database (executeTransfer rt a db) in
  ledger_net w (ledger_entries db') = ledger_net w (ledger_entries db) /\
  balance_of db' w = Some (b + amount a) /\
  (b + amount a) - ledger_net w (ledger_entries db')
  = (b - ledger_net w (ledger_entries db)) + amount a.
Proof.
  intros Hu Ht Hb Hst Hkey Hpos Hle Hmax db'.
  pose proof (endpoints_same_wallet a db w Hu Ht) as He.
  assert (Hr := commits_up_to_two53 rt a db w w b b Hst He Hb Hb Hpos Hle
                  ltac:(lia) ltac:(lia) Hmax Hkey).
  destruct (executeTransfer_committed rt a db _ Hr eq_refl)
    as (src' & dst' & sb' & dbal' & _ & He' & Hs' & Hd' & _ & _ & _ & _ & _
        & Hw & Hl & _).
  fold db' in Hw, Hl. clearbody db'.
  rewrite He in He'. inversion He'; subst src' dst'.
  rewrite Hb in Hs', Hd'. inversion Hs'; inversion Hd'; subst sb' dbal'.
  rewrite !Number_exact in Hw by (unfold JS.two53 in *; lia).
  destruct (balance_after_updates db db' w w _ _ Hw) as (Bd & _ & _).
  assert (Hn : ledger_net w (ledger_entries db') = ledger_net w (ledger_entries db)).
  { rewrite Hl, ledger_net_app.
    rewrite (ledger_net_pair w w w (amount a)) by reflexivity.
    rewrite Z.eqb_refl. lia. }
  split; [exact Hn|]. split; [exact (Bd _ Hb)|]. lia.
Qed.

Lemma same_wallet_transfer_leaves_ledger_behind_witness :
  let a := mkTransferArgs "bonus" 1 "DIAMONDS" 7 None in
  let db' := database (executeTransfer a_runtime a seed) in
  ledger_net 2 (ledger_entries db') = 0 /\
  balance_of db' 2 = Some 1000000007.
Proof.
  intros a db'.
  destruct (same_wallet_transfer_leaves_ledger_behind a_runtime a seed 2 1000000000
              eq_refl eq_refl eq_refl eq_refl
              ltac:(intros key E; inversion E)
              ltac:(simpl; lia) ltac:(simpl; lia) ltac:(vm_compute; discriminate))
    as (Hn & Hb & _).
  split; [etransitivity; [exact Hn | reflexivity] | exact Hb].
Defined.

(** ** Errors and edge cases of a transfer *)

(** X6.  The insufficient-balance error is thrown only when the source really
    holds less than the amount, and it reports that balance and that
    amount. *)
Theorem insufficient_balance_error_is_accurate
    (rt : Runtime) (a : TransferArgs) (db : DB) (available requested : Z) :
  result (executeTransfer rt a db)
  = Throw (InsufficientBalance available requested) ->
  exists src dst,
    endpoints a db = Some (src, dst) /\
    balance_of db src = Some available /\
    requested = amount a /\
    available < requested.
Proof.
  intros Hr. exact (proj2 (executeTransfer_thrown_origin rt a db _ Hr)).
Qed.

Lemma insufficient_balance_error_is_accurate_witness :
  exists src dst,
    endpoints (mkTransferArgs "spend" 2 "GOLD_COINS" 2000 None) seed
    = Some (src, dst) /\
    balance_of seed src = Some 1000 /\ 1000 < 2000.
Proof.
  destruct (insufficient_balance_error_is_accurate a_runtime
              (mkTransferArgs "spend" 2 "GOLD_COINS" 2000 None) seed 1000 2000
              eq_refl)
    as (src & dst & He & Hb & _ & Hlt).
  exists src, dst. auto.
Defined.

(** X7.  On one connection the 'One or more wallets not found' error is never
    thrown (what resolved is a row of [wallets]); and for a key of at most
    128 characters, which the column stores as it is, neither is a
    duplicate-key error (the key was looked up first). *)
Theorem wallets_not_found_is_never_thrown
    (rt : Runtime) (a : TransferArgs) (db : DB) :
  result (executeTransfer rt a db) <> Throw WalletsNotFound /\
  ((forall key, idempotencyKey a = Some key ->
                (String.length key <= KEY_MAX_LENGTH)%nat) ->
   result (executeTransfer rt a db) <> Throw (DatabaseError idempotency_keys_pkey)).
Proof.
  split; [|intros _]; intros Hr;
    destruct (executeTransfer_thrown_origin rt a db _ Hr) as [_ H]; simpl in H.
  - exact H.
  - destruct H as (src & dst & sb & dbal & _ & _ & _ & _ & []).
Qed.

(** A request whose wallets resolve and whose key has two characters. *)
Lemma wallets_not_found_is_never_thrown_witness :
  let a := mkTransferArgs "spend" 2 "GOLD_COINS" 200 (Some "k1"%string) in
  result (executeTransfer a_runtime a seed) <> Throw WalletsNotFound /\
  result (executeTransfer a_runtime a seed)
  <> Throw (DatabaseError idempotency_keys_pkey).
Proof.
  intros a.
  destruct (wallets_not_found_is_never_thrown a_runtime a seed) as [H1 H2].
  split; [exact H1|].
  apply H2. intros key E. inversion E. unfold KEY_MAX_LENGTH. simpl. lia.
Defined.

(** X8.  A request for an amount that is zero or negative is never applied: the
    committed database is unchanged, and the only result such a call can
    return is the replay of a stored one. *)
Theorem non_positive_amount_is_never_applied
    (rt : Runtime) (a : TransferArgs) (db : DB) :
  amount a <= 0 ->
  database (executeTransfer rt a db) = db /\
  (forall r, result (executeTransfer rt a db) = Return r -> idempotent r = true).
Proof.
  intros Hle.
  assert (Hno : forall r, result (executeTransfer rt a db) = Return r ->
                          idempotent r = true).
  { intros r Hr. destruct (idempotent r) eqn:Hi; [reflexivity|].
    destruct (executeTransfer_committed rt a db r Hr Hi)
      as (src & dst & sb & dbal & _ & _ & _ & _ & _ & Hpos & _). lia. }
  split; [|exact Hno].
  destruct (executeTransfer_database_cases rt a db) as [H|[r [Hr Hi]]]; [exact H|].
  rewrite (Hno r Hr) in Hi. discriminate.
Qed.

Lemma non_positive_amount_is_never_applied_witness :
  result (spend a_runtime 2 "GOLD_COINS" 0 (Some "k1"%string) seed)
  = Throw (DatabaseError ledger_entries_amount_check) /\
  database (spend a_runtime 2 "GOLD_COINS" 0 (Some "k1"%string) seed) = seed.
Proof.
  split; [vm_compute; reflexivity|].
  apply (non_positive_amount_is_never_applied a_runtime
           (mkTransferArgs "spend" 2 "GOLD_COINS" 0 (Some "k1"%string)) seed).
  simpl. lia.
Defined.

Lemma length_list_ascii_of_string (s : string) :
  List.length (list_ascii_of_string s) = String.length s.
Proof. induction s as [|c s IH]; simpl; [reflexivity | rewrite IH; reflexivity]. Qed.

Lemma exceeds_key_column_length (key : string) :
  exceeds_key_column key = true -> (KEY_MAX_LENGTH < String.length key)%nat.
Proof.
  unfold exceeds_key_column. intros H.
  rewrite <- length_list_ascii_of_string.
  destruct (Nat.le_gt_cases (List.length (list_ascii_of_string key)) KEY_MAX_LENGTH)
    as [Hle|Hgt]; [|exact Hgt].
  rewrite skipn_all2 in H by exact Hle. discriminate.
Qed.

(** X9.  A key with a character other than a space beyond the 128 that its
    column holds makes every call fail: the committed database is unchanged,
    and when the stored keys fit their column the call throws. *)
Theorem over_long_key_is_never_applied
    (rt : Runtime) (a : TransferArgs) (db : DB) (key : string) :
  idempotencyKey a = Some key ->
  exceeds_key_column key = true ->
  database (executeTransfer rt a db) = db /\
  (idempotency_keys_ok db -> exists e, result (executeTransfer rt a db) = Throw e).
Proof.
  intros Hsome Hex.
  pose proof (exceeds_key_column_length key Hex) as Hlen.
  assert (Hk : JS.truthy (idempotencyKey a) = Some key).
  { rewrite Hsome. unfold JS.truthy.
    destruct (String.eqb key EmptyString) eqn:E; [|reflexivity].
    apply String.eqb_eq in E. subst key. unfold KEY_MAX_LENGTH in Hlen.
    simpl in Hlen. lia. }
  split.
  - destruct (executeTransfer_database_cases rt a db) as [H|[r [Hr Hi]]]; [exact H|].
    destruct (executeTransfer_committed_checks rt a db r Hr Hi) as (_ & _ & _ & Ck).
    destruct (Ck key Hk) as [Hle _]. lia.
  - intros [_ Hfit].
    destruct (result (executeTransfer rt a db)) as [r|e] eqn:Hr; [|exists e; reflexivity].
    exfalso. destruct (idempotent r) eqn:Hi.
    + destruct (executeTransfer_replayed rt a db r Hr Hi)
        as (k & row & rest & Hk' & Hrows & _).
      rewrite Hk in Hk'. inversion Hk'; subst k.
      assert (Hin : In row (idempotency_rows key db)) by (rewrite Hrows; left; reflexivity).
      unfold idempotency_rows in Hin. apply filter_In in Hin.
      destruct Hin as [Hin E]. apply String.eqb_eq in E.
      rewrite Forall_forall in Hfit. specialize (Hfit row Hin). rewrite E in Hfit. lia.
    + destruct (executeTransfer_committed_checks rt a db r Hr Hi) as (_ & _ & _ & Ck).
      destruct (Ck key Hk) as [Hle _]. lia.
Qed.

(** The key of this request has 129 characters, none of them a space; a key
    of 128 characters followed by a space is not one the column rejects. *)
Lemma over_long_key_is_never_applied_witness :
  let key := String.concat "" (repeat "k"%string 129) in
  let o := spend a_runtime 2 "GOLD_COINS" 200 (Some key) seed in
  String.length key = 129%nat /\
  exceeds_key_column (String.concat "" (repeat "k"%string 128) ++ " ") = false /\
  database o = seed /\
  exists e, result o = Throw e.
Proof.
  intros key o.
  destruct (over_long_key_is_never_applied a_runtime
              (mkTransferArgs "spend" 2 "GOLD_COINS" 200 (Some key)) seed key
              eq_refl ltac:(vm_compute; reflexivity))
    as [Hdb Hthrow].
  split; [reflexivity|]. split; [vm_compute; reflexivity|]. split; [exact Hdb|].
  apply Hthrow. split; constructor.
Defined.

(** ** A first call and its repetition *)

Lemma replay_after_commit
    (rt rt' : Runtime) (a : TransferArgs) (db : DB) (r : TransferResult)
    (key : string) :
  result (executeTransfer rt a db) = Return r ->
  idempotent r = false ->
  JS.truthy (idempotencyKey a) = Some key ->
  let db' := database (executeTransfer rt a db) in
  let again := executeTransfer rt' a db' in
  result again = Return (mkTransferResult true 200 (body r)) /\
  database again = db' /\
  statements again = [BEGIN; SELECT_idempotency_key key; COMMIT].
Proof.
  intros Hr Hi Hk db' again.
  destruct (executeTransfer_committed rt a db r Hr Hi)
    as (src & dst & sb & dbal & Hnone & _ & _ & _ & _ & _ & Hrr & _ & _ & _ & _
        & Hkeys & _).
  fold db' in Hkeys. rewrite Hk in Hkeys.
  assert (Hrows : idempotency_rows key db'
                  = [mkIdempotencyKey key 200 (body r)]).
  { unfold stored_reply in Hnone. rewrite Hk in Hnone.
    unfold idempotency_rows in *. rewrite Hkeys, filter_app.
    destruct (filter _ (idempotency_keys db)); [|discriminate].
    subst r. simpl. rewrite String.eqb_refl. reflexivity. }
  subst again. clearbody db'.
  rewrite (executeTransfer_replay rt' a db' key _ [] Hk Hrows). simpl.
  repeat split; reflexivity.
Qed.

(** X10.  Once a request with a non-empty key of at most 128 characters has
    committed, sending it again (at any time, with any generated id) returns
    status 200, [idempotent = true] and the body of the first response, and
    changes nothing. *)
Theorem repeating_a_committed_request_replays_it
    (rt rt' : Runtime) (a : TransferArgs) (db : DB) (r : TransferResult)
    (key : string) :
  result (executeTransfer rt a db) = Return r ->
  idempotent r = false ->
  JS.truthy (idempotencyKey a) = Some key ->
  (String.length key <= KEY_MAX_LENGTH)%nat ->
  let db' := database (executeTransfer rt a db) in
  let again := executeTransfer rt' a db' in
  result again = Return (mkTransferResult true 200 (body r)) /\
  database again = db' /\
  statements again = [BEGIN; SELECT_idempotency_key key; COMMIT].
Proof. intros Hr Hi Hk _. exact (replay_after_commit rt rt' a db r key Hr Hi Hk). Qed.

Lemma repeating_a_committed_request_replays_it_witness :
  let a := mkTransferArgs "spend" 2 "GOLD_COINS" 200 (Some "k1"%string) in
  let db' := database (executeTransfer a_runtime a seed) in
  exists b,
    result (executeTransfer a_runtime a seed) = Return (mkTransferResult false 200 b) /\
    result (executeTransfer another_runtime a db') = Return (mkTransferResult true 200 b) /\
    balance_of (database (executeTransfer another_runtime a db')) 4 = Some 800.
Proof.
  intros a db'.
  set (b := mkResponseBody (uuidv4 a_runtime) 4 1 200 800 1000000200
              "Spend: 200 GOLD_COINS spent by user 2").
  assert (Hr : result (executeTransfer a_runtime a seed)
               = Return (mkTransferResult false 200 b))
    by (vm_compute; reflexivity).
  destruct (repeating_a_committed_request_replays_it a_runtime another_runtime
              a seed _ "k1" Hr eq_refl eq_refl
              ltac:(unfold KEY_MAX_LENGTH; simpl; lia)) as (Hagain & Hdb & _).
  exists b. split; [exact Hr|]. split; [exact Hagain|].
  subst db'. rewrite Hdb. vm_compute. reflexivity.
Defined.

(** ** Resolution *)

(** X11.  For a user id in the INT range, [resolveWalletId] changes nothing and
    returns the id of a wallet of the user whose asset type carries the code;
    it throws the 404 error exactly when the user has no such wallet. *)
Theorem resolveWalletId_finds_a_wallet_of_the_user
    (userId : Z) (assetCode : string) (c : Client) :
  is_int userId = true ->
  let res := fst (resolveWalletId userId assetCode c) in
  let c' := snd (resolveWalletId userId assetCode c) in
  committed c' = committed c /\ scope c' = scope c /\
  match res with
  | Return id =>
      exists w asset,
        In w (wallets (view c)) /\ In asset (asset_types (view c)) /\
        w_id w = id /\ w_user_id w = userId /\
        a_id asset = w_asset_type_id w /\ a_code asset = assetCode
  | Throw e =>
      e = WalletNotFound userId assetCode /\ statusCode e = Some 404 /\
      forall w asset,
        In w (wallets (view c)) -> In asset (asset_types (view c)) ->
        w_user_id w = userId -> a_id asset = w_asset_type_id w ->
        a_code asset <> assetCode
  end.
Proof.
  intros _. destruct c as [cm sc st]. cbv zeta. unfold resolveWalletId. run_pg.
  set (db := match sc with Some d => d | None => cm end).
  destruct (wallet_ids userId assetCode db) as [|id ids] eqn:Hids; simpl.
  - repeat split. intros w asset Hw Ha Hu Hj Hc.
    assert (Hin : In (w_id w) (wallet_ids userId assetCode db)).
    { unfold wallet_ids. apply in_map_iff. exists (w, asset). split; [reflexivity|].
      apply filter_In. split.
      - apply In_join. repeat split; auto. apply Z.eqb_eq. exact Hj.
      - simpl. apply andb_true_intro. split; [apply Z.eqb_eq | apply String.eqb_eq]; auto. }
    rewrite Hids in Hin. exact Hin.
  - repeat split.
    assert (Hin : In id (wallet_ids userId assetCode db))
      by (rewrite Hids; left; reflexivity).
    unfold wallet_ids in Hin. apply in_map_iff in Hin.
    destruct Hin as [[w asset] [<- Hin]]. apply filter_In in Hin.
    destruct Hin as [Hin Hp]. apply In_join in Hin. destruct Hin as (Hw & Ha & Hj).
    apply andb_prop in Hp. destruct Hp as [Hu Hc]. simpl in *.
    exists w, asset. repeat split; auto.
    + apply Z.eqb_eq. exact Hu.
    + apply Z.eqb_eq. exact Hj.
    + apply String.eqb_eq. exact Hc.
Qed.

Lemma resolveWalletId_finds_a_wallet_of_the_user_witness :
  fst (resolveWalletId 3 "DIAMONDS" (connect seed)) = Return 8 /\
  fst (resolveWalletId 3 "RUBIES" (connect seed))
  = Throw (WalletNotFound 3 "RUBIES").
Proof.
  pose proof (resolveWalletId_finds_a_wallet_of_the_user 3 "DIAMONDS"
                (connect seed) eq_refl) as H.
  split; reflexivity.
Defined.

(** X12.  [resolveTreasuryWalletId] changes nothing and returns the id of a wallet
    for the asset that belongs to a user of type 'system'; it throws the 500
    error exactly when there is none. *)
Theorem resolveTreasuryWalletId_finds_a_system_wallet
    (assetCode : string) (c : Client) :
  let res := fst (resolveTreasuryWalletId assetCode c) in
  let c' := snd (resolveTreasuryWalletId assetCode c) in
  committed c' = committed c /\ scope c' = scope c /\
  match res with
  | Return id =>
      exists w u asset,
        In w (wallets (view c)) /\ In u (users (view c)) /\
        In asset (asset_types (view c)) /\
        w_id w = id /\ u_id u = w_user_id w /\ u_user_type u = system /\
        a_id asset = w_asset_type_id w /\ a_code asset = assetCode
  | Throw e =>
      e = TreasuryNotFound assetCode /\ statusCode e = Some 500 /\
      forall w u asset,
        In w (wallets (view c)) -> In u (users (view c)) ->
        In asset (asset_types (view c)) ->
        u_id u = w_user_id w -> u_user_type u = system ->
        a_id asset = w_asset_type_id w ->
        a_code asset <> assetCode
  end.
Proof.
  destruct c as [cm sc st]. cbv zeta. unfold resolveTreasuryWalletId. run_pg.
  set (db := match sc with Some d => d | None => cm end).
  destruct (treasury_wallet_ids assetCode db) as [|id ids] eqn:Hids; simpl.
  - repeat split. intros w u asset Hw Hu Ha Hj1 Hs Hj2 Hc.
    unfold treasury_wallet_ids in Hids.
    match type of Hids with firstn 1 ?l = [] => assert (Hnil : l = []) by
      (destruct l; [reflexivity | discriminate]) end.
    assert (Hin : In (w_id w) (@nil Z)).
    { rewrite <- Hnil. apply in_map_iff. exists (w, u, asset). split; [reflexivity|].
      apply filter_In. split.
      - apply In_join. split; [|split; [exact Ha | apply Z.eqb_eq; exact Hj2]].
        apply In_join. repeat split; auto. apply Z.eqb_eq. exact Hj1.
      - simpl. rewrite Hs. simpl. apply String.eqb_eq. exact Hc. }
    exact Hin.
  - repeat split.
    assert (Hin : In id (treasury_wallet_ids assetCode db))
      by (rewrite Hids; left; reflexivity).
    unfold treasury_wallet_ids in Hin. apply In_firstn in Hin. apply in_map_iff in Hin.
    destruct Hin as [[[w u] asset] [<- Hin]]. apply filter_In in Hin.
    destruct Hin as [Hin Hp]. apply In_join in Hin. destruct Hin as (Hwu & Ha & Hj2).
    apply In_join in Hwu. destruct Hwu as (Hw & Hu & Hj1).
    apply andb_prop in Hp. destruct Hp as [Hs Hc]. simpl in *.
    exists w, u, asset. repeat split; auto.
    + apply Z.eqb_eq. exact Hj1.
    + destruct (u_user_type u); [discriminate | reflexivity].
    + apply Z.eqb_eq. exact Hj2.
    + apply String.eqb_eq. exact Hc.
Qed.

(** ** Composing transfers *)

Lemma stored_reply_after_commit (a1 a2 : TransferArgs) (db db' : DB) (row : list IdempotencyKey) :
  idempotency_keys db' = idempotency_keys db ++ row ->
  (forall x, In x row -> JS.truthy (idempotencyKey a2) <> Some (ik_key x)) ->
  stored_reply a2 db = None ->
  stored_reply a2 db' = None.
Proof.
  unfold stored_reply, idempotency_rows. intros Hk Hne Hnone.
  destruct (JS.truthy (idempotencyKey a2)) as [key|]; [|reflexivity].
  rewrite Hk, filter_app.
  destruct (filter _ (idempotency_keys db)); [|discriminate]. simpl.
  rewrite filter_none; [reflexivity|].
  intros x Hx. apply String.eqb_neq. intros E. apply (Hne x Hx). rewrite E. reflexivity.
Qed.

(** X13.  A top-up followed by a spend of the same amount, as two first-time
    requests under different keys (or none) and within 2^53, commits twice
    and leaves the user's wallet and the treasury wallet with the balances
    they started with. *)
Theorem top_up_then_spend_restores_balances
    (rt1 rt2 : Runtime) (user : Z) (code : string) (amt : Z)
    (key1 key2 : option string) (db : DB) (u t ub tb : Z) :
  let a1 := mkTransferArgs "topup" user code amt key1 in
  let a2 := mkTransferArgs "spend" user code amt key2 in
  hd_error (wallet_ids user code db) = Some u ->
  hd_error (treasury_wallet_ids code db) = Some t ->
  u <> t ->
  balance_of db u = Some ub ->
  balance_of db t = Some tb ->
  0 < amt -> amt <= tb -> tb <= JS.two53 -> 0 <= ub -> ub + amt <= JS.two53 ->
  stored_reply a1 db = None ->
  stored_reply a2 db = None ->
  (forall k, JS.truthy key1 = Some k ->
             (String.length k <= KEY_MAX_LENGTH)%nat /\ JS.truthy key2 <> Some k) ->
  (forall k, JS.truthy key2 = Some k -> (String.length k <= KEY_MAX_LENGTH)%nat) ->
  let o1 := executeTransfer rt1 a1 db in
  let o2 := executeTransfer rt2 a2 (database o1) in
  (exists r1, result o1 = Return r1 /\ idempotent r1 = false) /\
  (exists r2, result o2 = Return r2 /\ idempotent r2 = false) /\
  balance_of (database o1) u = Some (ub + amt) /\
  balance_of (database o1) t = Some (tb - amt) /\
  balance_of (database o2) u = Some ub /\
  balance_of (database o2) t = Some tb.
Proof.
  intros a1 a2 Hu Ht Hne Hub Htb Hpos Hle Htmax Hu0 Humax Hs1 Hs2 Hk1 Hk2 o1 o2.
  pose proof (endpoints_of_flow a1 db u t Hu Ht) as He1. simpl in He1.
  pose proof (endpoints_of_flow a2 db u t Hu Ht) as He2. simpl in He2.
  assert (Hr1 := commits_up_to_two53 rt1 a1 db t u tb ub Hs1 He1 Htb Hub Hpos Hle
                   Htmax Hu0 Humax (fun k E => proj1 (Hk1 k E))).
  destruct (executeTransfer_committed rt1 a1 db _ Hr1 eq_refl)
    as (s1 & d1 & sb1 & db1 & _ & He1' & Hs1' & Hd1' & _ & _ & _ & Ha1 & Hus1
        & Hw1 & _ & Hik1 & _).
  fold o1 in Hr1, Ha1, Hus1, Hw1, Hik1.
  rewrite He1 in He1'. inversion He1'; subst s1 d1.
  rewrite Htb in Hs1'. rewrite Hub in Hd1'. inversion Hs1'; inversion Hd1'; subst sb1 db1.
  simpl in Hw1. rewrite !Number_exact in Hw1 by (unfold JS.two53 in *; lia).
  destruct (balance_after_updates db (database o1) t u _ _ Hw1) as (Bd1 & Bs1 & _).
  pose proof (Bd1 _ Hub) as Hub1. pose proof (Bs1 _ (not_eq_sym Hne) Htb) as Htb1.
  assert (He2' : endpoints a2 (database o1) = Some (u, t))
    by (rewrite (endpoints_after_updates a2 db (database o1) t u _ _ Ha1 Hus1 Hw1); exact He2).
  assert (Hs2' : stored_reply a2 (database o1) = None).
  { apply (stored_reply_after_commit a1 a2 db (database o1) _ Hik1); [|exact Hs2].
    simpl. destruct (JS.truthy key1) as [k|] eqn:Ek; simpl; [|tauto].
    intros x [<-|[]]. simpl. apply (Hk1 k eq_refl). }
  clearbody o1.
  assert (Hr2 := commits_up_to_two53 rt2 a2 (database o1) u t (ub + amt) (tb - amt)
                   Hs2' He2' Hub1 Htb1 Hpos ltac:(simpl; lia) ltac:(lia) ltac:(lia)
                   ltac:(simpl; lia) Hk2).
  destruct (executeTransfer_committed rt2 a2 (database o1) _ Hr2 eq_refl)
    as (s2 & d2 & sb2 & db2 & _ & He2'' & Hs2'' & Hd2'' & _ & _ & _ & _ & _
        & Hw2 & _).
  fold o2 in Hr2, Hw2. clearbody o2.
  rewrite He2' in He2''. inversion He2''; subst s2 d2.
  rewrite Hub1 in Hs2''. rewrite Htb1 in Hd2''.
  inversion Hs2''; inversion Hd2''; subst sb2 db2.
  simpl in Hw2. rewrite !Number_exact in Hw2 by (unfold JS.two53 in *; lia).
  destruct (balance_after_updates (database o1) (database o2) u t _ _ Hw2) as (Bd2 & Bs2 & _).
  split; [eexists; split; [exact Hr1 | reflexivity]|].
  split; [eexists; split; [exact Hr2 | reflexivity]|].
  split; [exact Hub1|]. split; [exact Htb1|].
  split.
  - rewrite (Bs2 _ Hne Hub1). f_equal. lia.
  - rewrite (Bd2 _ Htb1). f_equal. lia.
Qed.

Lemma top_up_then_spend_restores_balances_witness :
  let o1 := topUp a_runtime 2 "GOLD_COINS" 500 (Some "k1"%string) seed in
  let o2 := spend another_runtime 2 "GOLD_COINS" 500 (Some "k2"%string) (database o1) in
  balance_of (database o1) 4 = Some 1500 /\
  balance_of (database o2) 4 = Some 1000 /\
  balance_of (database o2) 1 = Some 1000000000.
Proof.
  intros o1 o2.
  destruct (top_up_then_spend_restores_balances a_runtime another_runtime
              2 "GOLD_COINS" 500 (Some "k1"%string) (Some "k2"%string) seed
              4 1 1000 1000000000
              eq_refl eq_refl ltac:(lia) eq_refl eq_refl
              ltac:(lia) ltac:(lia) ltac:(vm_compute; discriminate) ltac:(lia)
              ltac:(vm_compute; discriminate) eq_refl eq_refl
              ltac:(intros k E; inversion E; split;
                    [unfold KEY_MAX_LENGTH; simpl; lia | discriminate])
              ltac:(intros k E; inversion E; unfold KEY_MAX_LENGTH; simpl; lia))
    as (_ & _ & H1 & _ & H2 & H3).
  split; [exact H1|]. split; [exact H2 | exact H3].
Defined.

(** ** Lock order in every run *)

Lemma locked_rows_among_ids (ids : list Z) (db : DB) :
  incl (map w_id (wallets_by_id ids db)) ids.
Proof.
  intros k Hk. apply in_map_iff in Hk. destruct Hk as [w [<- Hw]].
  unfold wallets_by_id in Hw. apply In_order_by in Hw. apply filter_In in Hw.
  destruct Hw as [_ Hex]. apply existsb_exists in Hex.
  destruct Hex as [i [Hi E]]. apply Z.eqb_eq in E. subst. exact Hi.
Qed.

(** X14.  Whether a run commits, replays or throws, every locking SELECT it sends
    asks for its ids in ascending order, locks its rows in ascending order of
    id, and locks no row it did not ask for. *)
Theorem every_lock_is_taken_in_ascending_order
    (rt : Runtime) (a : TransferArgs) (db : DB) (ids locked : list Z) :
  In (SELECT_wallets_FOR_UPDATE ids locked) (statements (executeTransfer rt a db)) ->
  StronglySorted Z.le ids /\ StronglySorted Z.le locked /\ incl locked ids.
Proof.
  run_transfer; cbn [In app]; intros H.
  all: repeat match goal with
       | H : _ \/ _ |- _ => destruct H as [H|H]
       | H : False |- _ => destruct H
       end; try discriminate.
  all: inversion H; subst; clear H.
  all: match goal with
       | Hd : direction _ _ _ = (?s, ?d, _) |- _ =>
           destruct (locks_are_taken_in_ascending_order s d db) as [H1 H2]
       end.
  all: split; [exact H1 | split; [exact H2 | apply locked_rows_among_ids]].
Qed.

Lemma every_lock_is_taken_in_ascending_order_witness :
  let a := mkTransferArgs "spend" 2 "GOLD_COINS" 200 None in
  In (SELECT_wallets_FOR_UPDATE [1; 4] [1; 4])
     (statements (executeTransfer a_runtime a seed)) /\
  StronglySorted Z.le [1; 4].
Proof.
  intros a.
  assert (Hin : In (SELECT_wallets_FOR_UPDATE [1; 4] [1; 4])
                   (statements (executeTransfer a_runtime a seed)))
    by (vm_compute; tauto).
  split; [exact Hin|].
  exact (proj1 (every_lock_is_taken_in_ascending_order a_runtime a seed
                  [1; 4] [1; 4] Hin)).
Defined.

(** ** getBalance *)

Lemma balance_rows_wallet_ids (userId : Z) (assetCode : string) (db : DB) :
  match balance_rows userId assetCode db, wallet_ids userId assetCode db with
  | [], [] => True
  | row :: _, id :: _ =>
      exists w asset,
        In w (wallets db) /\ In asset (asset_types db) /\
        w_id w = id /\ w_balance w = br_balance row /\
        a_code asset = assetCode /\
        br_asset_code row = a_code asset /\ br_asset_name row = a_name asset
  | _, _ => False
  end.
Proof.
  unfold balance_rows, wallet_ids.
  destruct (filter _ (join (wallets db) (asset_types db) _)) as [|[w asset] l] eqn:Hf;
    simpl; [exact I|].
  assert (Hin : In (w, asset) (filter
            (fun wa => (w_user_id (fst wa) =? userId)
                       && String.eqb (a_code (snd wa)) assetCode)
            (join (wallets db) (asset_types db)
                  (fun w a => a_id a =? w_asset_type_id w))))
    by (rewrite Hf; left; reflexivity).
  apply filter_In in Hin. destruct Hin as [Hin Hp].
  apply In_join in Hin. destruct Hin as (Hw & Ha & _).
  apply andb_prop in Hp. destruct Hp as [_ Hc]. apply String.eqb_eq in Hc.
  exists w, asset. repeat split; auto.
Qed.

Lemma balance_of_unique (db : DB) (w : Wallet) :
  NoDup (map w_id (wallets db)) -> In w (wallets db) ->
  balance_of db (w_id w) = Some (w_balance w).
Proof.
  unfold balance_of. induction (wallets db) as [|x l IH]; simpl; intros Hnd Hin.
  - contradiction.
  - inversion Hnd as [|i ids Hni Hnd']; subst.
    destruct Hin as [->|Hin].
    + rewrite Z.eqb_refl. reflexivity.
    + destruct (w_id x =? w_id w) eqn:E.
      * apply Z.eqb_eq in E. exfalso. apply Hni. rewrite E. apply in_map. exact Hin.
      * apply IH; assumption.
Qed.

(** X15.  For a user id in the INT range, [getBalance] throws the 404 error exactly
    when [resolveWalletId] finds no wallet; otherwise it returns the asset's
    code and name with, wallet ids being unique, the balance of the wallet
    [resolveWalletId] resolves. *)
Theorem getBalance_reads_the_resolved_wallet
    (userId : Z) (assetCode : string) (db : DB) :
  is_int userId = true ->
  match getBalance userId assetCode db with
  | Return row =>
      exists id asset,
        hd_error (wallet_ids userId assetCode db) = Some id /\
        In asset (asset_types db) /\
        br_asset_code row = assetCode /\ a_code asset = assetCode /\
        br_asset_name row = a_name asset /\
        (NoDup (map w_id (wallets db)) ->
         balance_of db id = Some (br_balance row))
  | Throw e =>
      e = WalletNotFound userId assetCode /\ statusCode e = Some 404 /\
      wallet_ids userId assetCode db = []
  end.
Proof.
  intros _. unfold getBalance.
  pose proof (balance_rows_wallet_ids userId assetCode db) as H.
  destruct (balance_rows userId assetCode db) as [|row rows],
           (wallet_ids userId assetCode db) as [|id ids]; try contradiction.
  - repeat split.
  - destruct H as (w & asset & Hw & Ha & <- & Hb & Hc & Hrc & Hrn).
    exists (w_id w), asset. repeat split; auto; try congruence.
    intros Hnd. rewrite <- Hb. apply balance_of_unique; assumption.
Qed.

Lemma getBalance_reads_the_resolved_wallet_witness :
  getBalance 2 "LOYALTY_POINTS" seed
  = Return (mkBalanceRow 200 "LOYALTY_POINTS" "Loyalty Points") /\
  balance_of seed 6 = Some 200.
Proof.
  pose proof (getBalance_reads_the_resolved_wallet 2 "LOYALTY_POINTS" seed eq_refl) as H.
  simpl in H. destruct H as (id & asset & Hid & _ & _ & _ & _ & Hb).
  inversion Hid; subst id.
  split; [reflexivity|].
  apply Hb. simpl. nodup_by_computation.
Defined.

(** X16.  After a committed transfer between two different wallets whose
    balances stay within 2^53 (wallet ids being unique), [getBalance] for the
    request's user and asset returns the balance that the response reported
    for the user's side: the new destination balance, [dbal + amount], for a
    top-up or a bonus; the new source balance, [sb - amount], for a spend.
    ([getBalance] hands the balance on as the decimal string the driver
    returns for a BIGINT; [br_balance] is the integer it denotes.) *)
Theorem getBalance_after_a_transfer_matches_the_response
    (rt : Runtime) (a : TransferArgs) (db : DB) (r : TransferResult)
    (sb dbal : Z) :
  result (executeTransfer rt a db) = Return r ->
  idempotent r = false ->
  sourceWalletId (body r) <> destWalletId (body r) ->
  NoDup (map w_id (wallets db)) ->
  balance_of db (sourceWalletId (body r)) = Some sb ->
  balance_of db (destWalletId (body r)) = Some dbal ->
  sb <= JS.two53 -> 0 <= dbal -> dbal + amount a <= JS.two53 ->
  let credited := String.eqb (flow a) "topup" || String.eqb (flow a) "bonus" in
  exists row,
    getBalance (userId a) (assetCode a) (database (executeTransfer rt a db))
    = Return row /\
    br_asset_code row = assetCode a /\
    br_balance row
    = (if credited then newDestBalance (body r) else newSourceBalance (body r)) /\
    br_balance row = (if credited then dbal + amount a else sb - amount a).
Proof.
  intros Hr Hi Hne Hnd Hsb Hdb Hb1 Hb2 Hb3 credited.
  destruct (executeTransfer_committed rt a db r Hr Hi)
    as (src & dst & sb' & dbal' & _ & He & Hs & Hd & Hle & Hpos & -> & Ha & Hu
        & Hw & _).
  simpl in Hne, Hsb, Hdb |- *.
  rewrite Hsb in Hs. rewrite Hdb in Hd. inversion Hs; inversion Hd; subst sb' dbal'.
  rewrite !Number_exact in * by (unfold JS.two53 in *; lia).
  set (db' := database (executeTransfer rt a db)) in *. clearbody db'.
  destruct (balance_after_updates db db' src dst _ _ Hw) as (Bd & Bs & _).
  assert (He' : endpoints a db' = Some (src, dst))
    by (rewrite (endpoints_after_updates a db db' src dst _ _ Ha Hu Hw); exact He).
  assert (Hnd' : NoDup (map w_id (wallets db')))
    by (rewrite Hw, !map_w_id_set_balance; exact Hnd).
  pose proof (getBalance_row := balance_rows_wallet_ids (userId a) (assetCode a) db').
  unfold getBalance. unfold endpoints in He'.
  destruct (wallet_ids (userId a) (assetCode a) db') as [|u us]; [discriminate|].
  destruct (treasury_wallet_ids (assetCode a) db') as [|t ts]; [discriminate|].
  destruct (balance_rows (userId a) (assetCode a) db') as [|row rows]; [contradiction|].
  destruct getBalance_row as (w & asset & Hwin & _ & Hid & Hb & Hc & Hrc & _).
  exists row. split; [reflexivity|]. split; [congruence|].
  pose proof (balance_of_unique db' w Hnd' Hwin) as Hbw. rewrite Hid, Hb in Hbw.
  unfold direction in He'. subst credited.
  destruct (flow a =? "topup")%string; simpl in *.
  - inversion He'; subst. rewrite (Bd _ Hdb) in Hbw. split; congruence.
  - destruct (flow a =? "bonus")%string; simpl in *; inversion He'; subst.
    + rewrite (Bd _ Hdb) in Hbw. split; congruence.
    + rewrite (Bs _ Hne Hsb) in Hbw. split; congruence.
Qed.

Lemma getBalance_after_a_transfer_matches_the_response_witness :
  let a := mkTransferArgs "spend" 2 "GOLD_COINS" 200 (Some "k1"%string) in
  exists row,
    getBalance 2 "GOLD_COINS" (database (executeTransfer a_runtime a seed)) = Return row /\
    br_balance row = 800.
Proof.
  intros a.
  assert (Hr : result (executeTransfer a_runtime a seed)
               = Return (mkTransferResult false 200
                           (mkResponseBody (uuidv4 a_runtime) 4 1 200 800
                              1000000200 "Spend: 200 GOLD_COINS spent by user 2")))
    by (vm_compute; reflexivity).
  destruct (getBalance_after_a_transfer_matches_the_response a_runtime a seed _
              1000 1000000000
              Hr eq_refl ltac:(simpl; lia) ltac:(simpl; nodup_by_computation)
              ltac:(vm_compute; reflexivity) ltac:(vm_compute; reflexivity)
              ltac:(vm_compute; discriminate) ltac:(lia)
              ltac:(vm_compute; discriminate))
    as (row & Hg & _ & Hb & _).
  exists row. split; [exact Hg | exact Hb].
Defined.

(** ** Pages of the history *)

Lemma firstn_add_skipn {A} (n m : nat) (l : list A) :
  firstn n l ++ firstn m (skipn n l) = firstn (n + m) l.
Proof.
  revert l. induction n as [|n IH]; intros l; simpl.
  - reflexivity.
  - destruct l as [|x l]; simpl.
    + destruct m; reflexivity.
    + rewrite IH. reflexivity.
Qed.

Lemma skipn_add {A} (n m : nat) (l : list A) :
  skipn m (skipn n l) = skipn (n + m) l.
Proof.
  revert l. induction n as [|n IH]; intros l; simpl.
  - reflexivity.
  - destruct l as [|x l]; simpl; [destruct m; reflexivity | apply IH].
Qed.

Lemma getTransactions_returns (userId : Z) (code : option string)
    (limit offset : Z) (db : DB) :
  0 <= limit <= BIGINT_MAX -> 0 <= offset <= BIGINT_MAX ->
  result (getTransactions userId (mkHistoryOptions code (Some limit) (Some offset)) db)
  = Return (firstn (Z.to_nat limit)
              (skipn (Z.to_nat offset)
                 (history_rows userId (JS.truthy code) db))).
Proof.
  intros Hl Ho. unfold getTransactions. simpl. run_pg.
  assert (E1 : is_bigint limit = true)
    by (unfold is_bigint, BIGINT_MIN; apply andb_true_intro; split; apply Z.leb_le; lia).
  assert (E2 : is_bigint offset = true)
    by (unfold is_bigint, BIGINT_MIN; apply andb_true_intro; split; apply Z.leb_le; lia).
  assert (E3 : (offset <? 0) = false) by (apply Z.ltb_ge; lia).
  assert (E4 : (limit <? 0) = false) by (apply Z.ltb_ge; lia).
  rewrite E1, E2, E3, E4. reflexivity.
Qed.

(** X17.  Pages tile the history: for a user id in the INT range whose rows were
    all created at different instants (SQL leaves the order among the others
    open, and with it the pages), the page of [n] rows at [offset] followed
    by the page of [m] rows at [offset + n] is the page of [n + m] rows at
    [offset]; reading page after page skips and repeats no entry. *)
Theorem consecutive_pages_concatenate
    (userId : Z) (code : option string) (n m offset : Z) (db : DB) :
  is_int userId = true ->
  NoDup (map created_at (history_rows userId (JS.truthy code) db)) ->
  0 <= n -> 0 <= m -> 0 <= offset ->
  n + m <= BIGINT_MAX -> offset + n <= BIGINT_MAX ->
  exists p1 p2,
    result (getTransactions userId
              (mkHistoryOptions code (Some n) (Some offset)) db) = Return p1 /\
    result (getTransactions userId
              (mkHistoryOptions code (Some m) (Some (offset + n))) db) = Return p2 /\
    result (getTransactions userId
              (mkHistoryOptions code (Some (n + m)) (Some offset)) db)
    = Return (p1 ++ p2).
Proof.
  intros _ _ Hn Hm Ho Hnm Hon.
  do 2 eexists.
  rewrite !getTransactions_returns by lia.
  split; [reflexivity|]. split; [reflexivity|]. f_equal.
  rewrite !Z2Nat.inj_add by lia.
  rewrite <- skipn_add. apply eq_sym, firstn_add_skipn.
Qed.

Lemma consecutive_pages_concatenate_witness :
  let db1 := database (topUp a_runtime 2 "GOLD_COINS" 500 (Some "k1"%string) seed) in
  let db2 := database (spend another_runtime 2 "GOLD_COINS" 200 (Some "k2"%string) db1) in
  exists p1 p2,
    result (getTransactions 2 (mkHistoryOptions None (Some 1) (Some 0)) db2) = Return p1 /\
    result (getTransactions 2 (mkHistoryOptions None (Some 1) (Some 1)) db2) = Return p2 /\
    result (getTransactions 2 (mkHistoryOptions None (Some 2) (Some 0)) db2)
    = Return (p1 ++ p2).
Proof.
  intros db1 db2.
  refine (consecutive_pages_concatenate 2 None 1 1 0 db2 eq_refl _
            ltac:(lia) ltac:(lia) ltac:(lia)
            ltac:(vm_compute; discriminate) ltac:(vm_compute; discriminate)).
  vm_compute. nodup_by_computation.
Defined.

(** ** A committed transfer in the user's history *)

Lemma wallet_ids_In (userId : Z) (assetCode : string) (db : DB) (id : Z) :
  In id (wallet_ids userId assetCode db) <->
  exists w asset,
    In w (wallets db) /\ In asset (asset_types db) /\
    w_id w = id /\ w_user_id w = userId /\
    a_id asset = w_asset_type_id w /\ a_code asset = assetCode.
Proof.
  unfold wallet_ids. rewrite in_map_iff. split.
  - intros [[w asset] [<- Hin]]. apply filter_In in Hin.
    destruct Hin as [Hin Hp]. apply In_join in Hin. destruct Hin as (Hw & Ha & Hj).
    apply andb_prop in Hp. destruct Hp as [Hu Hc]. simpl in *.
    exists w, asset. repeat split; auto.
    + apply Z.eqb_eq. exact Hu.
    + apply Z.eqb_eq. exact Hj.
    + apply String.eqb_eq. exact Hc.
  - intros (w & asset & Hw & Ha & <- & Hu & Hj & Hc).
    exists (w, asset). split; [reflexivity|]. apply filter_In. split.
    + apply In_join. repeat split; auto. apply Z.eqb_eq. exact Hj.
    + simpl. apply andb_true_intro. split; [apply Z.eqb_eq | apply String.eqb_eq]; auto.
Qed.

(** X18.  After a committed transfer with balances within 2^53 the history of
    the request's user for the request's asset holds its entry: under the
    generated id, for the request's amount, stamped with the transaction's
    time; a CREDIT with the new destination balance, [dbal + amount], for a
    top-up or bonus; a DEBIT with the new source balance, [sb - amount], for
    a spend. *)
Theorem committed_transfer_shows_in_history
    (rt : Runtime) (a : TransferArgs) (db : DB) (r : TransferResult)
    (sb dbal : Z) :
  result (executeTransfer rt a db) = Return r ->
  idempotent r = false ->
  balance_of db (sourceWalletId (body r)) = Some sb ->
  balance_of db (destWalletId (body r)) = Some dbal ->
  sb <= JS.two53 -> 0 <= dbal -> dbal + amount a <= JS.two53 ->
  let credited := String.eqb (flow a) "topup" || String.eqb (flow a) "bonus" in
  newSourceBalance (body r) = sb - amount a /\
  newDestBalance (body r) = dbal + amount a /\
  In (mkTransactionRow (uuidv4 rt)
        (if credited then CREDIT else DEBIT)
        (amount a)
        (if credited then dbal + amount a else sb - amount a)
        (description_of a) (NOW rt) (assetCode a))
     (history_rows (userId a) (Some (assetCode a))
        (database (executeTransfer rt a db))).
Proof.
  intros Hr Hi Hsb Hdb Hb1 Hb2 Hb3 credited.
  destruct (executeTransfer_committed rt a db r Hr Hi)
    as (src & dst & sb' & dbal' & _ & He & Hs & Hd & Hle & Hpos & -> & Ha & Hu
        & Hw & Hl & _).
  simpl in Hsb, Hdb |- *.
  rewrite Hsb in Hs. rewrite Hdb in Hd. inversion Hs; inversion Hd; subst sb' dbal'.
  rewrite !Number_exact in * by (unfold JS.two53 in *; lia).
  split; [reflexivity|]. split; [reflexivity|].
  set (db' := database (executeTransfer rt a db)) in *. clearbody db'.
  assert (He' : endpoints a db' = Some (src, dst))
    by (rewrite (endpoints_after_updates a db db' src dst _ _ Ha Hu Hw); exact He).
  unfold endpoints in He'.
  destruct (wallet_ids (userId a) (assetCode a) db') as [|u us] eqn:Hids; [discriminate|].
  destruct (treasury_wallet_ids (assetCode a) db') as [|t ts]; [discriminate|].
  assert (Hin : In u (wallet_ids (userId a) (assetCode a) db'))
    by (rewrite Hids; left; reflexivity).
  apply wallet_ids_In in Hin.
  destruct Hin as (w & asset & Hwin & Hain & Hid & Huser & Hj & Hc).
  apply history_rows_content.
  unfold direction in He'. subst credited. simpl.
  destruct (flow a =? "topup")%string eqn:F1; simpl in *;
    [|destruct (flow a =? "bonus")%string eqn:F2; simpl in *];
    inversion He'; subst.
  all: match goal with
       | |- exists _ _ _, _ /\ _ /\ _ /\ _ /\ _ /\ _ /\ _ /\
              {| entry_type := ?ty; balance_after := ?b |} = _ =>
           exists (mkLedgerEntry (uuidv4 rt) (w_id w) ty (amount a) b
                     (description_of a) (NOW rt)), w, asset
       end.
  all: split; [rewrite Hl; apply in_or_app; right; simpl; auto|].
  all: split; [exact Hwin|]; split; [exact Hain|]; split; [reflexivity|].
  all: split; [exact Hj|]; split; [exact Huser|].
  all: split; [intros c E; inversion E; subst; exact Hc|].
  all: simpl; rewrite Hc; reflexivity.
Qed.

Lemma committed_transfer_shows_in_history_witness :
  let a := mkTransferArgs "spend" 2 "GOLD_COINS" 200 (Some "k1"%string) in
  In (mkTransactionRow (uuidv4 a_runtime) DEBIT 200 800
        "Spend: 200 GOLD_COINS spent by user 2" (NOW a_runtime) "GOLD_COINS")
     (history_rows 2 (Some "GOLD_COINS"%string)
        (database (executeTransfer a_runtime a seed))).
Proof.
  intros a.
  assert (Hr : result (executeTransfer a_runtime a seed)
               = Return (mkTransferResult false 200
                           (mkResponseBody (uuidv4 a_runtime) 4 1 200 800
                              1000000200 "Spend: 200 GOLD_COINS spent by user 2")))
    by (vm_compute; reflexivity).
  exact (proj2 (proj2
           (committed_transfer_shows_in_history a_runtime a seed _ 1000 1000000000
              Hr eq_refl
              ltac:(vm_compute; reflexivity) ltac:(vm_compute; reflexivity)
              ltac:(vm_compute; discriminate) ltac:(lia)
              ltac:(vm_compute; discriminate)))).
Defined.

(* ================================================================== *)
(** * The routes *)

Lemma validateTransactionBody_cases (b : RequestBody) :
  (validateTransactionBody b = None <->
   falsy (req_userId b) = false /\
   falsy (req_assetCode b) = false /\
   falsy (req_idempotencyKey b) = false /\
   exists z, req_amount b = JsInteger z /\ 0 < z) /\
  (forall resp, validateTransactionBody b = Some resp ->
                exists text, resp = Rejected 400 text).
Proof.
  unfold validateTransactionBody.
  destruct (falsy (req_userId b)) eqn:Hu; simpl.
  { split; [split; [discriminate | intros (H & _); discriminate]|].
    intros resp H; inversion H; eexists; reflexivity. }
  destruct (falsy (req_assetCode b)) eqn:Hc; simpl.
  { split; [split; [discriminate | intros (_ & H & _); discriminate]|].
    intros resp H; inversion H; eexists; reflexivity. }
  destruct (req_amount b) as [| |x|z| | |n|s|] eqn:Ha; simpl;
    try (split; [split; [discriminate | intros (_ & _ & _ & z' & E & _); discriminate]|];
         intros resp H; inversion H; eexists; reflexivity).
  - destruct x; simpl;
      (split; [split; [discriminate | intros (_ & _ & _ & z' & E & _); discriminate]|];
       intros resp H; inversion H; eexists; reflexivity).
  - destruct (z =? 0) eqn:Hz0; simpl.
    { apply Z.eqb_eq in Hz0. split.
      - split; [discriminate|]. intros (_ & _ & _ & z' & E & Hp). inversion E. lia.
      - intros resp H; inversion H; eexists; reflexivity. }
    destruct (z <=? 0) eqn:Hz; simpl.
    { apply Z.leb_le in Hz. split.
      - split; [discriminate|]. intros (_ & _ & _ & z' & E & Hp). inversion E. lia.
      - intros resp H; inversion H; eexists; reflexivity. }
    apply Z.leb_gt in Hz.
    destruct (falsy (req_idempotencyKey b)) eqn:Hk; simpl.
    + split; [split; [discriminate | intros (_ & _ & H & _); discriminate]|].
      intros resp H; inversion H; eexists; reflexivity.
    + split; [|discriminate]. split; [|reflexivity].
      intros _. repeat split. exists z. split; [reflexivity | exact Hz].
  - destruct (s =? "")%string; simpl;
      (split; [split; [discriminate | intros (_ & _ & _ & z' & E & _); discriminate]|];
       intros resp H; inversion H; eexists; reflexivity).
Qed.

(** X19.  The validator lets a body through exactly when its user id, asset code
    and key are truthy and its amount is a number with a positive integer
    value (so an amount or a user id of 0 counts as a missing field);
    otherwise it answers 400. *)
Theorem validateTransactionBody_accepts (b : RequestBody) :
  (validateTransactionBody b = None <->
   falsy (req_userId b) = false /\
   falsy (req_assetCode b) = false /\
   falsy (req_idempotencyKey b) = false /\
   exists z, req_amount b = JsInteger z /\ 0 < z) /\
  (forall resp, validateTransactionBody b = Some resp ->
                exists text, resp = Rejected 400 text).
Proof. exact (validateTransactionBody_cases b). Qed.

(** X20.  What a POST route answers to a body it passes on to the service,
    when the key has at most 128 characters: 201 with the body of a
    first-time transfer, which is then committed and stored under the
    request's key; 200 with the stored body for a replay, the database
    unchanged; or the error's status (400, 404 or 500) with the database
    unchanged. *)
Theorem post_answers
    (service : Runtime -> Z -> string -> Z -> option string -> DB
               -> Outcome TransferResult)
    (flow : string) (rt : Runtime) (b : RequestBody) (db db' : DB)
    (resp : Response) :
  (forall rt u c m k d,
      service rt u c m k d = executeTransfer rt (mkTransferArgs flow u c m k) d) ->
  validateTransactionBody b = None ->
  (forall key, req_idempotencyKey b = JsString key ->
               (String.length key <= KEY_MAX_LENGTH)%nat) ->
  post service rt b db = Some (resp, db') ->
  exists u c m k,
    service_arguments b = Some (u, c, m, Some k) /\ 0 < m /\ k <> EmptyString /\
    (String.length k <= KEY_MAX_LENGTH)%nat /\
    let a := mkTransferArgs flow u c m (Some k) in
    match resp with
    | Succeeded status idem data =>
        (idem = false /\ status = 201 /\
         result (executeTransfer rt a db)
         = Return (mkTransferResult false 200 data) /\
         db' = database (executeTransfer rt a db) /\
         stored_reply a db' = Some (mkIdempotencyKey k 200 data))
        \/
        (idem = true /\ status = 200 /\ db' = db /\
         exists row, stored_reply a db = Some row /\ data = ik_response_body row)
    | Failed status err =>
        result (executeTransfer rt a db) = Throw err /\ db' = db /\
        status = default 500 (statusCode err) /\
        (status = 400 \/ status = 404 \/ status = 500)
    | Rejected _ _ => False
    end.
Proof.
  intros Hservice Hvalid Hlen Hpost. unfold post in Hpost. rewrite Hvalid in Hpost.
  destruct (proj1 (proj1 (validateTransactionBody_cases b)) Hvalid)
    as (_ & _ & Hk & z & Hz & Hpos).
  destruct (service_arguments b) as [[[[u c] m] k]|] eqn:Hargs; [|discriminate].
  unfold service_arguments in Hargs.
  destruct (req_userId b) as [| | |u'| | | | |]; try discriminate.
  destruct (req_assetCode b) as [| | | | | | |c'|]; try discriminate.
  destruct (req_amount b) as [| | |m'| | | | |]; try discriminate.
  destruct (req_idempotencyKey b) as [| | | | | | |k'|] eqn:Ek; try discriminate.
  destruct (is_int u'); [|discriminate].
  inversion Hargs; subst u' c' m' k; clear Hargs. inversion Hz; subst z.
  simpl in Hk. apply String.eqb_neq in Hk.
  exists u, c, m, k'. split; [reflexivity|]. split; [exact Hpos|]. split; [exact Hk|].
  split; [exact (Hlen k' eq_refl)|].
  cbv zeta. rewrite Hservice in Hpost.
  set (a := mkTransferArgs flow u c m (Some k')) in *.
  assert (Hkey : JS.truthy (idempotencyKey a) = Some k').
  { simpl. destruct (k' =? "")%string eqn:E; [|reflexivity].
    apply String.eqb_eq in E. contradiction. }
  destruct (result (executeTransfer rt a db)) as [res|err] eqn:Hr.
  - inversion Hpost; subst resp db'; clear Hpost.
    destruct (idempotent res) eqn:Hi.
    + right. destruct (executeTransfer_replayed rt a db res Hr Hi)
        as (key & row & rest & Hk1 & Hrows & -> & Hdb & _).
      repeat split; auto. exists row. split; [|reflexivity].
      unfold stored_reply. rewrite Hk1, Hrows. reflexivity.
    + left.
      destruct (executeTransfer_committed rt a db _ Hr Hi)
        as (src & dst & sb & dbal & Hnone & _ & _ & _ & _ & _ & Hrr & _ & _ & _ & _
            & Hkeys & _).
      subst res. simpl.
      repeat split; auto.
      rewrite Hkey in Hkeys. unfold stored_reply in *. rewrite Hkey in *.
      unfold idempotency_rows in *. rewrite Hkeys, filter_app.
      destruct (filter _ (idempotency_keys db)); [|discriminate].
      simpl. rewrite String.eqb_refl. reflexivity.
  - inversion Hpost; subst resp db'; clear Hpost.
    split; [reflexivity|].
    split; [apply (executeTransfer_thrown rt a db err Hr)|].
    split; [reflexivity|].
    destruct err; simpl; auto.
Qed.

Lemma post_answers_witness :
  let b := mkRequestBody (JsInteger 2) (JsString "GOLD_COINS") (JsInteger 200)
             (JsString "k1") in
  let a := mkTransferArgs "spend" 2 "GOLD_COINS" 200 (Some "k1"%string) in
  exists data,
    post_spend a_runtime b seed
    = Some (Succeeded 201 false data, database (executeTransfer a_runtime a seed)) /\
    stored_reply a (database (executeTransfer a_runtime a seed))
    = Some (mkIdempotencyKey "k1" 200 data).
Proof.
  intros b a.
  set (data := mkResponseBody (uuidv4 a_runtime) 4 1 200 800 1000000200
                 "Spend: 200 GOLD_COINS spent by user 2").
  assert (Hpost : post spend a_runtime b seed
                  = Some (Succeeded 201 false data,
                          database (executeTransfer a_runtime a seed)))
    by (vm_compute; reflexivity).
  exists data. split; [exact Hpost|].
  destruct (post_answers spend "spend" a_runtime b seed _ _
              (fun _ _ _ _ _ _ => eq_refl) eq_refl
              ltac:(intros key E; inversion E; unfold KEY_MAX_LENGTH; simpl; lia)
              Hpost)
    as (u & c & m & k & Hargs & _ & _ & _ & H).
  inversion Hargs; subst u c m k. cbv zeta in H.
  destruct H as [(_ & _ & _ & _ & Hstored)|(Hidem & _)]; [exact Hstored | discriminate].
Defined.

(** X21.  Posting a body whose key has at most 128 characters again after
    it got 201 gets 200 with the same data and [idempotent: true], and the
    database stays as the first request left it. *)
Theorem posting_again_replays
    (service : Runtime -> Z -> string -> Z -> option string -> DB
               -> Outcome TransferResult)
    (flow : string) (rt rt' : Runtime) (b : RequestBody) (db db1 : DB)
    (data : ResponseBody) :
  (forall rt u c m k d,
      service rt u c m k d = executeTransfer rt (mkTransferArgs flow u c m k) d) ->
  (forall key, req_idempotencyKey b = JsString key ->
               (String.length key <= KEY_MAX_LENGTH)%nat) ->
  post service rt b db = Some (Succeeded 201 false data, db1) ->
  post service rt' b db1 = Some (Succeeded 200 true data, db1).
Proof.
  intros Hservice _ Hpost. unfold post in *.
  destruct (validateTransactionBody b) as [rej|] eqn:Hvalid.
  { destruct (proj2 (validateTransactionBody_cases b) rej Hvalid) as [text ->].
    discriminate. }
  destruct (proj1 (proj1 (validateTransactionBody_cases b)) Hvalid)
    as (_ & _ & Hk & _).
  destruct (service_arguments b) as [[[[u c] m] k]|] eqn:Hargs; [|discriminate].
  cbv zeta in Hpost. rewrite Hservice in *.
  assert (Hkey : exists key, k = Some key /\ JS.truthy k = Some key).
  { unfold service_arguments in Hargs.
    destruct (req_userId b) as [| | |u'| | | | |], (req_assetCode b), (req_amount b),
             (req_idempotencyKey b) as [| | | | | | |k'|]; try discriminate.
    destruct (is_int u'); [|discriminate].
    inversion Hargs; subst. exists k'. split; [reflexivity|]. simpl in *.
    rewrite Hk. reflexivity. }
  destruct Hkey as (key & -> & Hkey).
  set (a := mkTransferArgs flow u c m (Some key)) in *.
  destruct (result (executeTransfer rt a db)) as [res|err] eqn:Hr;
    [|unfold errorHandler in Hpost; discriminate].
  destruct (idempotent res) eqn:Hi; [discriminate|].
  inversion Hpost as [[Hdata Hdb]]; clear Hpost.
  pose proof (replay_after_commit rt rt' a db res key Hr Hi Hkey)
    as (Hagain & Hdb' & _).
  rewrite Hdb in Hagain, Hdb'. cbv zeta. rewrite Hdb, Hagain, Hdb'. simpl. reflexivity.
Qed.

Lemma posting_again_replays_witness :
  let b := mkRequestBody (JsInteger 2) (JsString "GOLD_COINS") (JsInteger 200)
             (JsString "k1") in
  let a := mkTransferArgs "spend" 2 "GOLD_COINS" 200 (Some "k1"%string) in
  let db1 := database (executeTransfer a_runtime a seed) in
  exists data,
    post_spend a_runtime b seed = Some (Succeeded 201 false data, db1) /\
    post_spend another_runtime b db1 = Some (Succeeded 200 true data, db1).
Proof.
  intros b a db1.
  set (data := mkResponseBody (uuidv4 a_runtime) 4 1 200 800 1000000200
                 "Spend: 200 GOLD_COINS spent by user 2").
  assert (Hpost : post spend a_runtime b seed = Some (Succeeded 201 false data, db1))
    by (vm_compute; reflexivity).
  exists data. split; [exact Hpost|].
  exact (posting_again_replays spend "spend" a_runtime another_runtime b seed db1
           data (fun _ _ _ _ _ _ => eq_refl)
           ltac:(intros key E; inversion E; unfold KEY_MAX_LENGTH; simpl; lia)
           Hpost).
Defined.

(* ================================================================== *)
(** * Spending until the balance runs out *)


Lemma retries_insufficient (rts : list Runtime) (a : TransferArgs) (db : DB)
    (src dst sb : Z) :
  JS.truthy (idempotencyKey a) = None ->
  endpoints a db = Some (src, dst) ->
  balance_of db src = Some sb ->
  sb < amount a ->
  succeeded (fst (retries rts a db)) = 0 /\ snd (retries rts a db) = db.
Proof.
  intros Hk He Hs Hlt.
  assert (Hst : stored_reply a db = None) by (unfold stored_reply; rewrite Hk; reflexivity).
  induction rts as [|rt rts IH]; simpl.
  - split; reflexivity.
  - pose proof (executeTransfer_insufficient rt a db src dst sb Hst He Hs Hlt) as Hr.
    destruct (executeTransfer_thrown rt a db _ Hr) as (Hdb & _).
    rewrite Hdb, Hr.
    destruct (retries rts a db) as [rs db']. simpl in *.
    destruct IH as [IH1 IH2]. split; [exact IH1 | exact IH2].
Qed.

(** X22.  The same keyless request sent [n] times, one after the other, to two
    different wallets (within 2^53): it commits until the source holds less
    than the amount and is rejected from then on, so the number of successes
    is [min n (balance / amount)], the source ends with
    [balance - amount * successes], which is not negative, and the
    destination has received the same total. *)
Theorem spending_until_the_balance_runs_out
    (a : TransferArgs) (rts : list Runtime) (db : DB) (src dst sb dbal : Z) :
  JS.truthy (idempotencyKey a) = None ->
  endpoints a db = Some (src, dst) ->
  src <> dst ->
  balance_of db src = Some sb ->
  balance_of db dst = Some dbal ->
  0 < amount a -> 0 <= sb -> 0 <= dbal -> dbal + sb <= JS.two53 ->
  let n := succeeded (fst (retries rts a db)) in
  let db' := snd (retries rts a db) in
  n = Z.min (Z.of_nat (List.length rts)) (sb / amount a) /\
  balance_of db' src = Some (sb - amount a * n) /\
  0 <= sb - amount a * n /\
  balance_of db' dst = Some (dbal + amount a * n).
Proof.
  intros Hk He Hne Hs Hd Hpos. revert db sb dbal He Hs Hd.
  induction rts as [|rt rts IH]; intros db sb dbal He Hs Hd Hsb Hd0 Hsum.
  - simpl. unfold succeeded. simpl.
    assert (0 <= sb / amount a) by (apply Z.div_pos; lia).
    rewrite Z.min_l by lia. rewrite Z.mul_0_r, Z.sub_0_r, Z.add_0_r. auto.
  - destruct (Z_lt_le_dec sb (amount a)) as [Hlt|Hge].
    + destruct (retries_insufficient (rt :: rts) a db src dst sb Hk He Hs Hlt)
        as [H0 Hdb].
      cbv zeta. rewrite H0, Hdb.
      rewrite Z.div_small by lia. rewrite Z.min_r by lia.
      rewrite Z.mul_0_r, Z.sub_0_r, Z.add_0_r. auto.
    + destruct (keyless_transfer_step rt a db src dst sb dbal Hk He Hne Hs Hd Hpos
                  Hge ltac:(unfold JS.two53 in *; lia) Hd0
                  ltac:(unfold JS.two53 in *; lia))
        as ((r & Hr & _) & He1 & Hs1 & Hd1 & _).
      specialize (IH (database (executeTransfer rt a db)) (sb - amount a)
                     (dbal + amount a) He1 Hs1 Hd1 ltac:(lia) ltac:(lia) ltac:(lia)).
      cbv zeta in IH |- *. simpl.
      destruct (retries rts a (database (executeTransfer rt a db))) as [rs db'].
      simpl in *. rewrite Hr.
      destruct IH as (Hn & Hbs & Hnn & Hbd).
      assert (Hq : (sb - amount a) / amount a = sb / amount a - 1).
      { replace (sb - amount a) with (sb + (-1) * amount a) by lia.
        rewrite Z.div_add by lia. lia. }
      assert (Hsucc : succeeded (Return r :: rs) = 1 + succeeded rs).
      { unfold succeeded. cbn [filter List.length]. lia. }
      rewrite Hsucc. rewrite Hq in Hn.
      split; [lia|].
      split; [rewrite Hbs; f_equal; lia|].
      split; [lia|].
      rewrite Hbd. f_equal. lia.
Qed.

(** Seven keyless spends of 300 from the wallet holding 1000: three succeed. *)
Lemma spending_until_the_balance_runs_out_witness :
  let a := mkTransferArgs "spend" 2 "GOLD_COINS" 300 None in
  let rts := repeat a_runtime 7 in
  succeeded (fst (retries rts a seed)) = 3 /\
  balance_of (snd (retries rts a seed)) 4 = Some 100.
Proof.
  intros a rts.
  destruct (spending_until_the_balance_runs_out a rts seed 4 1 1000 1000000000
              eq_refl eq_refl ltac:(lia) eq_refl eq_refl
              ltac:(simpl; lia) ltac:(lia) ltac:(lia)
              ltac:(vm_compute; discriminate))
    as (Hn & Hb & _).
  assert (E : Z.min (Z.of_nat (List.length rts)) (1000 / amount a) = 3)
    by (vm_compute; reflexivity).
  rewrite E in Hn. split; [exact Hn|].
  rewrite Hb, Hn. reflexivity.
Defined.

(* ================================================================== *)
(** * Regular users *)

Lemma NoDup_map_inj {A B} (f : A -> B) (l : list A) (x y : A) :
  NoDup (map f l) -> In x l -> In y l -> f x = f y -> x = y.
Proof.
  induction l as [|z l IH]; simpl; intros Hnd Hx Hy E.
  - contradiction.
  - inversion Hnd as [|i ids Hni Hnd']; subst.
    destruct Hx as [->|Hx], Hy as [->|Hy].
    + reflexivity.
    + exfalso. apply Hni. rewrite E. apply in_map. exact Hy.
    + exfalso. apply Hni. rewrite <- E. apply in_map. exact Hx.
    + apply IH; assumption.
Qed.

(** X23.  With unique wallet ids and unique user ids, a request on behalf of a
    user of type 'user' never has the same wallet as source and destination:
    the transfers of regular users are those that conserve the total. *)
Theorem regular_user_never_transfers_to_itself
    (a : TransferArgs) (db : DB) (src dst : Z) :
  NoDup (map w_id (wallets db)) ->
  NoDup (map u_id (users db)) ->
  (forall u, In u (users db) -> u_id u = userId a -> u_user_type u = user) ->
  endpoints a db = Some (src, dst) ->
  src <> dst.
Proof.
  intros Hw Hu Hreg He Heq. unfold endpoints in He.
  destruct (wallet_ids (userId a) (assetCode a) db) as [|uw us] eqn:Hids; [discriminate|].
  destruct (treasury_wallet_ids (assetCode a) db) as [|tw ts] eqn:Hts; [discriminate|].
  assert (Huw : uw = tw).
  { destruct (direction a uw tw) as [[s d] desc] eqn:Hd.
    apply direction_cases in Hd. simpl in He. inversion He; subst.
    destruct Hd as [_ [[H1 H2]|[H1 H2]]]; congruence. }
  subst tw.
  assert (Hin1 : In uw (wallet_ids (userId a) (assetCode a) db))
    by (rewrite Hids; left; reflexivity).
  assert (Hin2 : In uw (treasury_wallet_ids (assetCode a) db))
    by (rewrite Hts; left; reflexivity).
  apply wallet_ids_In in Hin1.
  destruct Hin1 as (w1 & a1 & Hw1 & _ & Hid1 & Huser & _).
  unfold treasury_wallet_ids in Hin2. apply In_firstn in Hin2.
  apply in_map_iff in Hin2. destruct Hin2 as [[[w2 u2] a2] [Hid2 Hin2]].
  apply filter_In in Hin2. destruct Hin2 as [Hin2 Hp].
  apply In_join in Hin2. destruct Hin2 as (Hwu & _ & _).
  apply In_join in Hwu. destruct Hwu as (Hw2 & Hu2 & Hj).
  apply andb_prop in Hp. destruct Hp as [Hsys _]. simpl in *.
  apply Z.eqb_eq in Hj.
  assert (w1 = w2) by (apply (NoDup_map_inj w_id (wallets db)); congruence).
  subst w2.
  assert (Htype : u_user_type u2 = user) by (apply Hreg; [exact Hu2 | congruence]).
  rewrite Htype in Hsys. discriminate.
Qed.

Lemma regular_user_never_transfers_to_itself_witness :
  endpoints (mkTransferArgs "bonus" 3 "DIAMONDS" 100 (Some "bonus-lokendra-001"%string)) seed
  = Some (2, 8) /\ 2 <> 8.
Proof.
  split; [reflexivity|].
  apply (regular_user_never_transfers_to_itself
           (mkTransferArgs "bonus" 3 "DIAMONDS" 100 (Some "bonus-lokendra-001"%string))
           seed 2 8).
  - simpl. nodup_by_computation.
  - simpl. nodup_by_computation.
  - simpl. intros u [<-|[<-|[<-|[]]]]; simpl; intros E; try reflexivity; discriminate.
  - reflexivity.
Defined.
